(** * attendance-bot: keyword relay, subscriber fan-out and class reminders

    A shallow embedding of the JavaScript sources

      - [src/api/telegram.js]      (module [Telegram]; the webhook bot over a KV set store)
      - [src/index.js]             (module [Index]; the long-polling bot over SQLite)
      - [api/class-reminders.js]   (module [ClassReminders]; the cron target)
      - [db.js]                    (module [Db]; the SQLite user table)

    and the properties the specification states about them.

    Conventions.
      - A JavaScript string is the list of its UTF-16 code units ([jstr]);
        [length], [slice] and the regular expressions of the sources all count
        code units, so does the model.
      - A JavaScript value that the sources inspect dynamically (a chat object,
        a message id) is a [jsval]; numbers are the integer-valued ones, which
        is what the Bot API sends for ids, printed digit by digit as
        JavaScript prints the safe integers ([safe_number]). The conversion
        to a string, [ToString], throws on an object that has a [toString]
        property of its own, as a parsed request body can; [render] is the
        text when it completes.
      - Code that can throw returns a [result]; code that talks to the gateway
        or to the store runs in the monad [M], which threads a [world]: the
        store, the chronological trace of effects, and the positions in the
        scripts that decide which gateway and store calls fail. *)

From Stdlib Require Import ZArith Lia Decimal DecimalZ Ascii String.
From stdpp Require Import base gmap strings list.

Set Warnings "-register-all".
Local Open Scope Z_scope.

(* ================================================================== *)
(** ** JavaScript values                                               *)
(* ================================================================== *)

Module JS.

(** A UTF-16 code unit and a JavaScript string. *)
Definition cu := N.
Definition jstr := list cu.

(** An ASCII literal of the source as code units. *)
Fixpoint lit (s : string) : jstr :=
  match s with
  | EmptyString => []
  | String a r => N_of_ascii a :: lit r
  end.

Definition digit_unit (d : N) : cu := (48 + d)%N.

Fixpoint uint_units (d : Decimal.uint) : jstr :=
  match d with
  | Nil => []
  | D0 r => digit_unit 0 :: uint_units r
  | D1 r => digit_unit 1 :: uint_units r
  | D2 r => digit_unit 2 :: uint_units r
  | D3 r => digit_unit 3 :: uint_units r
  | D4 r => digit_unit 4 :: uint_units r
  | D5 r => digit_unit 5 :: uint_units r
  | D6 r => digit_unit 6 :: uint_units r
  | D7 r => digit_unit 7 :: uint_units r
  | D8 r => digit_unit 8 :: uint_units r
  | D9 r => digit_unit 9 :: uint_units r
  end.

(** [Number.MAX_SAFE_INTEGER], 2^53 - 1. *)
Definition MAX_SAFE_INTEGER : Z := 9007199254740991.

(** Number::toString for an integer-valued number: plain decimal digits with
    a leading minus sign. This is what JavaScript prints for the safe
    integers, those of absolute value at most [MAX_SAFE_INTEGER]; beyond,
    a Number does not hold every integer, and it is printed rounded to its
    shortest digits and, from 10^21 on, in exponent notation. Statements
    that depend on the digits of a number carry [safe_number]. *)
Definition Z_units (z : Z) : jstr :=
  match Z.to_int z with
  | Decimal.Pos d => uint_units d
  | Decimal.Neg d => 45%N :: uint_units d
  end.

(** The values that the fields of an update can hold: what [JSON.parse]
    builds, with numbers restricted to the integer-valued ones and without
    arrays, plus undefined for what is absent. *)
Inductive jsval :=
| VUndefined
| VNull
| VBool (b : bool)
| VNum (z : Z)
| VStr (s : jstr)
| VObj (props : list (string * jsval)).

(** [VNum z] with [z] a safe integer; every other value passes. *)
Definition safe_number (v : jsval) : bool :=
  match v with
  | VNum z => Z.abs z <=? MAX_SAFE_INTEGER
  | _ => true
  end.

(** The object has a property of its own under [k]. *)
Fixpoint has_own (k : string) (ps : list (string * jsval)) : bool :=
  match ps with
  | [] => false
  | (k', _) :: r => String.eqb k k' || has_own k r
  end.

(** The string of a value whose conversion completes: the text of a
    primitive, and for an object what the inherited
    [Object.prototype.toString] returns. *)
Definition render (v : jsval) : jstr :=
  match v with
  | VUndefined => lit "undefined"
  | VNull => lit "null"
  | VBool true => lit "true"
  | VBool false => lit "false"
  | VNum z => Z_units z
  | VStr s => s
  | VObj _ => lit "[object Object]"
  end.

(** The conversion of [v] to a string completes. An object is converted
    through its [toString] and then its [valueOf]: the inherited ones give
    the fixed text; a [toString] property of the object's own, which in
    these values is never a function, is skipped, no [valueOf] yields a
    primitive either, and the conversion throws. *)
Definition stringifies (v : jsval) : bool :=
  match v with
  | VObj ps => negb (has_own "toString" ps)
  | _ => true
  end.

(** ToBoolean. *)
Definition truthy (v : jsval) : bool :=
  match v with
  | VUndefined | VNull => false
  | VBool b => b
  | VNum z => negb (z =? 0)
  | VStr s => match s with [] => false | _ => true end
  | VObj _ => true
  end.

(** [a || b]. *)
Definition js_or (a b : jsval) : jsval := if truthy a then a else b.

(** An Error object as the catch blocks of the sources read it:
    [e.response] (present on a gateway error, with [error_code] and
    [description]) and [e.message]. *)
Record gateway_response := { error_code : Z; description : string }.
Record js_error := { response : option gateway_response; message : string }.

Definition TypeError (msg : string) : js_error :=
  {| response := None; message := msg |}.

(** The completion of a computation: a value, or a thrown error. *)
Inductive result (A : Type) :=
| Ok (a : A)
| Thrown (e : js_error).
Arguments Ok {A} a.
Arguments Thrown {A} e.

(** ToString: what [String(v)] and a template literal [`${v}`] do. *)
Definition ToString (v : jsval) : result jstr :=
  if stringifies v then Ok (render v)
  else Thrown (TypeError "Cannot convert object to primitive value").

Definition rbind {A B} (r : result A) (k : A -> result B) : result B :=
  match r with
  | Ok a => k a
  | Thrown e => Thrown e
  end.

Fixpoint own_prop (k : string) (ps : list (string * jsval)) : jsval :=
  match ps with
  | [] => VUndefined
  | (k', v) :: r => if String.eqb k k' then v else own_prop k r
  end.

(** [o.k]: a TypeError on null and undefined; on a primitive the lookup goes
    to the wrapper's prototype, which has none of the keys the sources read
    ([username], [id]), so it yields undefined. *)
Definition get_prop (o : jsval) (k : string) : result jsval :=
  match o with
  | VUndefined | VNull => Thrown (TypeError "Cannot read properties of null or undefined")
  | VObj ps => Ok (own_prop k ps)
  | _ => Ok VUndefined
  end.

(** [o?.k]: undefined on null and undefined instead of throwing. *)
Definition opt_prop (o : jsval) (k : string) : jsval :=
  match o with
  | VUndefined | VNull => VUndefined
  | VObj ps => own_prop k ps
  | _ => VUndefined
  end.

(** [v === 'literal']: strict equality with a string. *)
Definition is_string (v : jsval) (s : jstr) : bool :=
  match v with
  | VStr t => bool_decide (t = s)
  | _ => false
  end.

(** [s.startsWith(p)]. *)
Fixpoint startsWith (s p : jstr) : bool :=
  match p with
  | [] => true
  | c :: p' =>
      match s with
      | [] => false
      | d :: s' => (d =? c)%N && startsWith s' p'
      end
  end.

(** [s.slice(n)] and [s.slice(0, n)] for a non-negative literal [n]. *)
Definition slice_from (n : nat) (s : jstr) : jstr := drop n s.
Definition slice_to (n : nat) (s : jstr) : jstr := take n s.

End JS.

Import JS.

Notation "x <-r c1 ;; c2" := (rbind c1 (fun x => c2))
  (at level 100, c1 at next level, right associativity).

(* ================================================================== *)
(** ** Link resolver                                                   *)
(* ================================================================== *)

Module TelegramLink.

(** [buildLink] of src/api/telegram.js. *)
Definition buildLink (chat messageId : jsval) : result jsval :=
  if truthy (opt_prop chat "username") then
    u <-r get_prop chat "username" ;;
    us <-r ToString u ;;
    ms <-r ToString messageId ;;
    Ok (VStr (lit "https://t.me/" ++ us ++ lit "/" ++ ms))
  else
    idStr <-r ToString (js_or (opt_prop chat "id") (VStr [])) ;;
    if startsWith idStr (lit "-100") then
      ms <-r ToString messageId ;;
      Ok (VStr (lit "https://t.me/c/" ++ slice_from 4 idStr ++ lit "/" ++ ms))
    else Ok VNull.

End TelegramLink.

Module IndexLink.

(** [buildMessageLink] of src/index.js. *)
Definition buildMessageLink (chat messageId : jsval) : result jsval :=
  if negb (truthy chat) then Ok VNull
  else
    u <-r get_prop chat "username" ;;
    if truthy u then
      u' <-r get_prop chat "username" ;;
      us <-r ToString u' ;;
      ms <-r ToString messageId ;;
      Ok (VStr (lit "https://t.me/" ++ us ++ lit "/" ++ ms))
    else
      i <-r get_prop chat "id" ;;
      idStr <-r ToString (js_or i (VStr [])) ;;
      if startsWith idStr (lit "-100") then
        let internal := slice_from 4 idStr in
        ms <-r ToString messageId ;;
        Ok (VStr (lit "https://t.me/c/" ++ internal ++ lit "/" ++ ms))
      else Ok VNull.

End IndexLink.

(* ================================================================== *)
(** ** Text: whitespace, excerpt, keyword pattern                      *)
(* ================================================================== *)

Module Text.

(** The class [\s] of a JavaScript regular expression, which is also what
    [String.prototype.trim] strips: WhiteSpace and LineTerminator. *)
Definition is_space (c : cu) : bool :=
  ((9 <=? c) && (c <=? 13) || (c =? 32) || (c =? 160) || (c =? 5760)
   || (8192 <=? c) && (c <=? 8202) || (c =? 8232) || (c =? 8233)
   || (c =? 8239) || (c =? 8287) || (c =? 12288) || (c =? 65279))%N.

(** The class [\w]: [A-Za-z0-9_]; [\W] is its complement. *)
Definition is_word (c : cu) : bool :=
  ((48 <=? c) && (c <=? 57) || (65 <=? c) && (c <=? 90) || (c =? 95)
   || (97 <=? c) && (c <=? 122))%N.

(** [text.replace(/\s+/g, ' ')]: every maximal run of whitespace becomes one
    space. [in_run] tells that the previous unit was whitespace. *)
Fixpoint collapse (in_run : bool) (s : jstr) : jstr :=
  match s with
  | [] => []
  | c :: r =>
      if is_space c
      then (if in_run then collapse true r else 32%N :: collapse true r)
      else c :: collapse false r
  end.

Definition replace_ws (s : jstr) : jstr := collapse false s.

Fixpoint trim_start (s : jstr) : jstr :=
  match s with
  | [] => []
  | c :: r => if is_space c then trim_start r else s
  end.

Definition trim_end (s : jstr) : jstr := rev (trim_start (rev s)).

(** [s.trim()]. *)
Definition trim (s : jstr) : jstr := trim_end (trim_start s).

(** The ellipsis character U+2026 of src/index.js. *)
Definition ellipsis : cu := 8230%N.

End Text.

(** A backtracking matcher for the fragment of regular expressions that the
    keyword pattern uses, with the [i] flag and without [g], [m], [u]. *)
Module Regex.

Import Text.

Inductive regex :=
| RChar (c : cu)        (* a pattern character *)
| RNonWord              (* \W *)
| RBol                  (* ^ *)
| REol                  (* $ *)
| REmpty
| RSeq (r1 r2 : regex)
| RAlt (r1 r2 : regex).

(** Canonicalize under [i] without [u]: an ASCII lower-case letter goes to its
    upper-case one; a unit from 128 on never canonicalises into the ASCII
    range, so against an ASCII pattern it is left as it is here. *)
Definition canonicalize (c : cu) : cu :=
  if ((97 <=? c) && (c <=? 122))%N then (c - 32)%N else c.

(** Two units match under the [i] flag. *)
Definition ci (a c : cu) : Prop := canonicalize a = canonicalize c.

(** [rmatch r pos s k]: match [r] at index [pos] of the subject, whose rest
    from [pos] on is [s]; [k] continues with the index and rest after it. *)
Fixpoint rmatch (r : regex) (pos : nat) (s : jstr) (k : nat -> jstr -> bool) : bool :=
  match r with
  | RChar c =>
      match s with
      | x :: s' => (canonicalize x =? canonicalize c)%N && k (S pos) s'
      | [] => false
      end
  | RNonWord =>
      match s with
      | x :: s' => negb (is_word x) && k (S pos) s'
      | [] => false
      end
  | RBol => Nat.eqb pos 0 && k pos s
  | REol => match s with [] => k pos s | _ => false end
  | REmpty => k pos s
  | RSeq r1 r2 => rmatch r1 pos s (fun p s' => rmatch r2 p s' k)
  | RAlt r1 r2 => rmatch r1 pos s k || rmatch r2 pos s k
  end.

(** The unanchored search of [RegExp.prototype.test]: try every start index
    from [pos] up to and including the end of the subject. *)
Fixpoint search (r : regex) (pos : nat) (s : jstr) : bool :=
  rmatch r pos s (fun _ _ => true)
  || match s with
     | [] => false
     | _ :: s' => search r (S pos) s'
     end.

Definition test (r : regex) (s : jstr) : bool := search r 0 s.

Fixpoint rlit (s : jstr) : regex :=
  match s with
  | [] => REmpty
  | c :: s' => RSeq (RChar c) (rlit s')
  end.

End Regex.

(* ================================================================== *)
(** ** The world: store, gateway, trace                                *)
(* ================================================================== *)

Module Sys.

(** A button of an inline keyboard. *)
Record button := { btext : jstr; burl : jsval }.

(** What a context call ([ctx.reply], [ctx.editMessageText],
    [ctx.answerCbQuery]) carries. The menu is a function of the two
    settings; its wording is not modelled. *)
Inductive payload :=
| PText (s : string)
| PMenu (attendance classReminders : bool).

Inductive ctx_call := CReply | CEdit | CAnswer.
Inductive kv_op := Sadd | Srem | Sismember | Smembers.

(** One observable effect. A send attempt records the error it was rejected
    with, if any; [ok] tells whether a store or context call was fulfilled. *)
Inductive event :=
| EvSend (uid : Z) (text : jstr) (markup : option (list (list button)))
         (err : option js_error)
| EvSleep (ms : Z)
| EvLog (tag : string) (args : list jsval)
| EvKv (op : kv_op) (key : string) (member : option Z) (ok : bool)
| EvCtx (c : ctx_call) (p : payload) (ok : bool).

(** The environment decides the outcome of every external call: the [n]-th
    [sendMessage] (to recipient [uid]), the [n]-th store call, the [n]-th
    context call. It is arbitrary in every theorem. *)
Record env := {
  gateway : nat -> Z -> option js_error;   (* None: delivered *)
  kv_fails : nat -> option js_error;       (* None: the store answers *)
  ctx_fails : nat -> option js_error       (* None: the gateway accepts *)
}.

(** The KV store maps a key to a Redis set. Its members are the strings
    [String(userId)]; the model identifies a member with the integer it
    renders, since [sadd] is only ever given [String(userId)] and
    [smembers] is read back through [Number]. [users] is the SQLite table
    of db.js: user_id to its blocked flag. *)
Record world := {
  store : gmap string (gset Z);
  users : gmap Z bool;
  trace : list event;
  n_send : nat;
  n_kv : nat;
  n_ctx : nat
}.

Definition M (A : Type) : Type := world -> result A * world.

Definition ret {A} (a : A) : M A := fun w => (Ok a, w).

Definition throw {A} (e : js_error) : M A := fun w => (Thrown e, w).

Definition bind {A B} (m : M A) (k : A -> M B) : M B :=
  fun w =>
    match m w with
    | (Ok a, w') => k a w'
    | (Thrown e, w') => (Thrown e, w')
    end.

(** [try { body } catch (e) { handler }]. *)
Definition try_catch {A} (body : M A) (handler : js_error -> M A) : M A :=
  fun w =>
    match body w with
    | (Ok a, w') => (Ok a, w')
    | (Thrown e, w') => handler e w'
    end.

(** A pure computation that may throw, run inside [M]. *)
Definition lift {A} (r : result A) : M A := fun w => (r, w).

(** [await Promise.all([a, b])]: both calls are started whatever the other
    does; the first rejection, if any, is what the await throws. The two
    run one after the other here: each issues its store call before its
    first suspension, in the order of the array. *)
Definition promise_all2 {A B} (a : M A) (b : M B) : M (A * B) :=
  fun w =>
    match a w with
    | (ra, w1) =>
        match b w1 with
        | (rb, w2) =>
            (match ra, rb with
             | Ok x, Ok y => Ok (x, y)
             | Thrown e, _ => Thrown e
             | Ok _, Thrown e => Thrown e
             end, w2)
        end
    end.

Definition emit (e : event) (w : world) : world :=
  {| store := store w; users := users w; trace := trace w ++ [e];
     n_send := n_send w; n_kv := n_kv w; n_ctx := n_ctx w |}.

Definition set_store (s : gmap string (gset Z)) (w : world) : world :=
  {| store := s; users := users w; trace := trace w;
     n_send := n_send w; n_kv := n_kv w; n_ctx := n_ctx w |}.

Definition set_users (u : gmap Z bool) (w : world) : world :=
  {| store := store w; users := u; trace := trace w;
     n_send := n_send w; n_kv := n_kv w; n_ctx := n_ctx w |}.

Definition tick_send (w : world) : world :=
  {| store := store w; users := users w; trace := trace w;
     n_send := S (n_send w); n_kv := n_kv w; n_ctx := n_ctx w |}.

Definition tick_kv (w : world) : world :=
  {| store := store w; users := users w; trace := trace w;
     n_send := n_send w; n_kv := S (n_kv w); n_ctx := n_ctx w |}.

Definition tick_ctx (w : world) : world :=
  {| store := store w; users := users w; trace := trace w;
     n_send := n_send w; n_kv := n_kv w; n_ctx := S (n_ctx w) |}.

(** The members of the set at [key]; a missing key is the empty set. *)
Definition members (s : gmap string (gset Z)) (key : string) : gset Z :=
  default ∅ (s !! key).

(** SADD and SREM on the store. *)
Definition sadd_in (key : string) (m : Z) (s : gmap string (gset Z))
    : gmap string (gset Z) :=
  <[key := {[m]} ∪ members s key]> s.

Definition srem_in (key : string) (m : Z) (s : gmap string (gset Z))
    : gmap string (gset Z) :=
  <[key := members s key ∖ {[m]}]> s.

Section Calls.

Variable E : env.

(** [await bot.telegram.sendMessage(uid, text, extra)]. *)
Definition sendMessage (uid : Z) (text : jstr)
    (markup : option (list (list button))) : M unit :=
  fun w =>
    match gateway E (n_send w) uid with
    | None => (Ok tt, emit (EvSend uid text markup None) (tick_send w))
    | Some e => (Thrown e, emit (EvSend uid text markup (Some e)) (tick_send w))
    end.

(** [await new Promise(r => setTimeout(r, ms))]. *)
Definition sleep (ms : Z) : M unit := fun w => (Ok tt, emit (EvSleep ms) w).

(** [console.error(tag, ...args)]. *)
Definition console_error (tag : string) (args : list jsval) : M unit :=
  fun w => (Ok tt, emit (EvLog tag args) w).

(** One call to the store: rejected when the environment says so, and then
    without effect on the store. *)
Definition kv_call {A} (op : kv_op) (key : string) (member : option Z)
    (run : gmap string (gset Z) -> A * gmap string (gset Z)) : M A :=
  fun w =>
    match kv_fails E (n_kv w) with
    | Some e => (Thrown e, emit (EvKv op key member false) (tick_kv w))
    | None =>
        let '(a, s') := run (store w) in
        (Ok a, emit (EvKv op key member true) (set_store s' (tick_kv w)))
    end.

Definition kv_sadd (key : string) (m : Z) : M unit :=
  kv_call Sadd key (Some m) (fun s => (tt, sadd_in key m s)).

Definition kv_srem (key : string) (m : Z) : M unit :=
  kv_call Srem key (Some m) (fun s => (tt, srem_in key m s)).

(** SISMEMBER answers 1 or 0. *)
Definition kv_sismember (key : string) (m : Z) : M Z :=
  kv_call Sismember key (Some m)
    (fun s => (if bool_decide (m ∈ members s key) then 1 else 0, s)).

Definition kv_smembers (key : string) : M (list Z) :=
  kv_call Smembers key None (fun s => (elements (members s key), s)).

(** A call on the context of the update. *)
Definition ctx_do (c : ctx_call) (p : payload) : M unit :=
  fun w =>
    match ctx_fails E (n_ctx w) with
    | None => (Ok tt, emit (EvCtx c p true) (tick_ctx w))
    | Some e => (Thrown e, emit (EvCtx c p false) (tick_ctx w))
    end.

End Calls.

(** [for (const x of l) { body }]: an exception of the body leaves the
    loop. *)
Fixpoint for_of {A} (l : list A) (body : A -> M unit) : M unit :=
  match l with
  | [] => ret tt
  | x :: r => bind (body x) (fun _ => for_of r body)
  end.

(** The same loop over variables that the body updates. *)
Fixpoint for_of_acc {A S} (l : list A) (body : A -> S -> M S) (s : S) : M S :=
  match l with
  | [] => ret s
  | x :: r => bind (body x s) (fun s' => for_of_acc r body s')
  end.

(** [e?.response?.error_code] and
    [e?.response?.description || e.message]. *)
Definition error_code_of (e : js_error) : jsval :=
  match response e with
  | Some r => VNum (error_code r)
  | None => VUndefined
  end.

Definition description_of (e : js_error) : string :=
  match response e with
  | Some r => if String.eqb (description r) "" then message e else description r
  | None => message e
  end.

(** [String(code) === '403'], for the number or undefined that
    [error_code_of] yields, whose conversion completes. *)
Definition is_403 (code : jsval) : bool :=
  bool_decide (render code = lit "403").

(** A computation that completes normally from every world. *)
Definition total {A} (m : M A) : Prop :=
  forall w, exists a w', m w = (Ok a, w').

(** The effects that happened between two worlds of one run. *)
Definition since (w w' : world) : list event :=
  drop (length (trace w)) (trace w').

End Sys.

Import Sys.

Notation "x <- c1 ;; c2" := (bind c1 (fun x => c2))
  (at level 100, c1 at next level, right associativity).
Notation "c1 ;; c2" := (bind c1 (fun _ => c2))
  (at level 100, right associativity).

(* ================================================================== *)
(** ** src/api/telegram.js                                             *)
(* ================================================================== *)

Module Telegram.

Import Text Regex TelegramLink.

(** [/(^|\W)attendance(\W|$)/i] *)
Definition KEYWORD : regex :=
  RSeq (RAlt RBol RNonWord) (RSeq (rlit (lit "attendance")) (RAlt RNonWord REol)).

Definition SUBS_ATTENDANCE_KEY : string := "subs:attendance".
Definition SUBS_CLASS_KEY : string := "subs:class".

(** The fields of a message that the bot reads. *)
Record message := {
  text : option jstr;
  caption : option jstr;
  message_id : jsval
}.

(** [x || y || ''] on optional strings: an absent or empty string is falsy. *)
Definition str_or (a : option jstr) (b : jstr) : jstr :=
  match a with
  | Some (c :: r) => c :: r
  | _ => b
  end.

(** [(msg?.text || msg?.caption || '').trim()] *)
Definition extractText (msg : option message) : jstr :=
  trim (str_or (msg ≫= text) (str_or (msg ≫= caption) [])).

Section WithEnv.

Variable E : env.

Definition setSub (key : string) (userId : Z) (enabled : bool) : M unit :=
  try_catch
    (if enabled then kv_sadd E key userId else kv_srem E key userId)
    (fun e => console_error "kv subscription error" [VStr (lit key)]).

Definition isSub (key : string) (userId : Z) : M bool :=
  try_catch
    (r <- kv_sismember E key userId ;; ret (r =? 1))
    (fun e => console_error "kv.sismember error" [VStr (lit key)] ;; ret false).

Definition listSubs (key : string) : M (list Z) :=
  try_catch
    (ids <- kv_smembers E key ;; ret ids)
    (fun e => console_error "kv.smembers error" [VStr (lit key)] ;; ret []).

Definition removeFromAllLists (userId : Z) : M unit :=
  promise_all2
    (setSub SUBS_ATTENDANCE_KEY userId false)
    (setSub SUBS_CLASS_KEY userId false) ;;
  ret tt.

Definition getSettings (userId : Z) : M (bool * bool) :=
  promise_all2 (isSub SUBS_ATTENDANCE_KEY userId) (isSub SUBS_CLASS_KEY userId).

(** The context of an update: the chat object, the sender's id, the kind of
    update and, for a message update, the message. *)
Record ctx := {
  chat : jsval;
  from_id : Z;
  updateType : string;
  ctx_message : option message
}.

(** [ctx.chat?.type !== 'private'] *)
Definition not_private (c : ctx) : bool :=
  negb (is_string (opt_prop (chat c) "type") (lit "private")).

(** [showMenu(ctx, { preferEdit })]: text and keyboard are both computed from
    the settings just read. *)
Definition showMenu (c : ctx) (preferEdit : bool) : M unit :=
  if not_private c then ret tt
  else
    settings <- getSettings (from_id c) ;;
    let menu := PMenu (fst settings) (snd settings) in
    edited <-
      (if preferEdit && String.eqb (updateType c) "callback_query"
       then try_catch (ctx_do E CEdit menu ;; ret true) (fun _ => ret false)
       else ret false) ;;
    if (edited : bool) then ret tt else ctx_do E CReply menu.

Definition bell : jstr := [55357; 56596]%N.
Definition quote : jstr := [34]%N.
Definition newline : jstr := [10]%N.

(** The body of the loop of [notifyAllUsers], one [try]/[catch] per
    recipient; [text] and [inline_keyboard] are what the function computes
    before the loop. *)
Definition notify_body (text : jstr) (inline_keyboard : list (list button))
    (uid : Z) : M unit :=
  try_catch
    (sendMessage E uid text (Some inline_keyboard) ;;
     sleep 50)
    (fun e =>
       let code := error_code_of e in
       let desc := description_of e in
       console_error "send error to" [VNum uid; code; VStr (lit desc)] ;;
       if is_403 code then removeFromAllLists uid else ret tt).

(** [notifyAllUsers(bot, userIds, previewText, linkUrl)] *)
Definition notifyAllUsers (userIds : list Z) (previewText : jstr) (linkUrl : jsval)
    : M unit :=
  let inline_keyboard :=
    if truthy linkUrl
    then [[ {| btext := lit "Open message"; burl := linkUrl |} ]]
    else [] in
  let suffix :=
    if truthy linkUrl then []
    else newline ++ lit "(Direct link not available for this group)" in
  for_of userIds
    (notify_body
       (bell ++ lit " " ++ quote ++ lit "Attendance" ++ quote ++ lit " mentioned"
        ++ newline ++ previewText ++ suffix)
       inline_keyboard).

(** The handlers registered by [initBot]. *)

Definition on_start (c : ctx) : M unit := showMenu c false.

Definition on_settings (c : ctx) : M unit := showMenu c false.

Definition on_preset_attendance (c : ctx) : M unit :=
  if not_private c then ret tt
  else
    let userId := from_id c in
    promise_all2
      (setSub SUBS_ATTENDANCE_KEY userId true)
      (setSub SUBS_CLASS_KEY userId false) ;;
    ctx_do E CAnswer (PText "Attendance reminders enabled.") ;;
    showMenu c true.

Definition on_preset_both (c : ctx) : M unit :=
  if not_private c then ret tt
  else
    let userId := from_id c in
    promise_all2
      (setSub SUBS_ATTENDANCE_KEY userId true)
      (setSub SUBS_CLASS_KEY userId true) ;;
    ctx_do E CAnswer (PText "Attendance + Class reminders enabled.") ;;
    showMenu c true.

Definition on_preset_none (c : ctx) : M unit :=
  if not_private c then ret tt
  else
    removeFromAllLists (from_id c) ;;
    ctx_do E CAnswer (PText "Reminders disabled.") ;;
    showMenu c true.

Definition on_stop (c : ctx) : M unit :=
  if not_private c then ret tt
  else
    removeFromAllLists (from_id c) ;;
    ctx_do E CReply
      (PText "Okay - all reminders disabled. You can /start anytime to re-enable.").

(** [['group','supergroup'].includes(ctx.chat?.type)] *)
Definition is_group (c : ctx) : bool :=
  let t := opt_prop (chat c) "type" in
  is_string t (lit "group") || is_string t (lit "supergroup").

(** [text.replace(/\s+/g,' ').slice(0,160)] *)
Definition excerpt (text : jstr) : jstr := slice_to 160 (replace_ws text).

(** [!text || !KEYWORD.test(text)] negated: the message goes on to the
    fan-out. *)
Definition keyword_hit (text : jstr) : bool :=
  truthy (VStr text) && test KEYWORD text.

Definition on_message (c : ctx) : M unit :=
  if negb (is_group c) then ret tt
  else
    let text := extractText (ctx_message c) in
    if negb (keyword_hit text) then ret tt
    else
      title <- lift (get_prop (chat c) "title") ;;
      let groupName := js_or title (VStr (lit "a group")) in
      mid <- match ctx_message c with
             | Some m => ret (message_id m)
             | None => throw (TypeError "Cannot read properties of undefined")
             end ;;
      link <- lift (buildLink (chat c) mid) ;;
      let excerpt := excerpt text in
      group <- lift (ToString groupName) ;;
      let preview :=
        lit "In " ++ group ++ lit ": " ++ quote ++ excerpt ++ quote in
      subs <- listSubs SUBS_ATTENDANCE_KEY ;;
      notifyAllUsers subs preview link.

(** What [bot.handleUpdate] routes to. *)
Inductive update :=
| UStart
| USettings
| UAction (data : string)
| UStop
| UMessage.

Definition handleUpdate (u : update) (c : ctx) : M unit :=
  match u with
  | UStart => on_start c
  | USettings => on_settings c
  | UAction data =>
      if String.eqb data "preset:attendance" then on_preset_attendance c
      else if String.eqb data "preset:both" then on_preset_both c
      else if String.eqb data "preset:none" then on_preset_none c
      else ret tt
  | UStop => on_stop c
  | UMessage => on_message c
  end.

(** Updates handled one after the other, each invocation finding the
    store as the previous one left it. *)
Fixpoint run_updates (us : list (update * ctx)) (w : world) : world :=
  match us with
  | [] => w
  | (u, c) :: r => run_updates r (snd (handleUpdate u c w))
  end.

End WithEnv.

End Telegram.

(* ================================================================== *)
(** ** db.js and src/index.js                                          *)
(* ================================================================== *)

Module Db.

(** [INSERT OR IGNORE INTO users (user_id) VALUES (?)]; [blocked] defaults
    to 0. *)
Definition addUser (userId : Z) : M unit :=
  fun w =>
    (Ok tt,
     match users w !! userId with
     | Some _ => w
     | None => set_users (<[userId := false]> (users w)) w
     end).

(** [SELECT user_id FROM users WHERE blocked = 0] *)
Definition listActiveUsers : M (list Z) :=
  fun w => (Ok (map fst (filter (fun r => snd r = false) (map_to_list (users w)))), w).

(** [UPDATE users SET blocked = 1 WHERE user_id = ?] *)
Definition markBlocked (userId : Z) : M unit :=
  fun w =>
    (Ok tt,
     match users w !! userId with
     | Some _ => set_users (<[userId := true]> (users w)) w
     | None => w
     end).

End Db.

Module Index.

Import Text Regex IndexLink.

(** [KEYWORD_REGEX], the same pattern as in telegram.js. *)
Definition KEYWORD_REGEX : regex := Telegram.KEYWORD.

Definition left_quote : jstr := [8220]%N.
Definition right_quote : jstr := [8221]%N.

(** [normalized.length > 160 ? `${normalized.slice(0, 157)}...` : normalized]
    where the three dots stand for the one character U+2026. *)
Definition excerpt (text : jstr) : jstr :=
  let normalized := replace_ws text in
  if (160 <? Z.of_nat (length normalized))
  then slice_to 157 normalized ++ [ellipsis]
  else normalized.

Section WithEnv.

Variable E : env.

(** The body of the loop of [notifyAllUsers], for the row [u] with
    [u.user_id = user_id]. *)
Definition notify_body (previewText : jstr) (linkUrl : jsval) (user_id : Z) : M unit :=
  try_catch
    (let inline_keyboard :=
       if truthy linkUrl
       then [[ {| btext := lit "Open message"; burl := linkUrl |} ]]
       else [] in
     let suffix :=
       if truthy linkUrl then []
       else Telegram.newline ++ lit "(Direct link not available for this group)" in
     sendMessage E user_id
       (Telegram.bell ++ lit " " ++ left_quote ++ lit "Attendance" ++ right_quote
        ++ lit " mentioned" ++ Telegram.newline ++ previewText ++ suffix)
       (Some inline_keyboard) ;;
     sleep 60)
    (fun e =>
       let code := error_code_of e in
       let desc := description_of e in
       console_error "DM error to" [VNum user_id; VStr (lit desc)] ;;
       if is_403 code then Db.markBlocked user_id else ret tt).

(** [notifyAllUsers(bot, previewText, linkUrl)] *)
Definition notifyAllUsers (previewText : jstr) (linkUrl : jsval) : M unit :=
  users <- Db.listActiveUsers ;;
  for_of users (notify_body previewText linkUrl).

End WithEnv.

End Index.

(* ================================================================== *)
(** ** api/class-reminders.js                                          *)
(* ================================================================== *)

Module ClassReminders.

Definition SUBS_CLASS_KEY : string := "subs:class".
Definition SUBS_ATTENDANCE_KEY : string := "subs:attendance".

Definition CLASS_REMINDER_HOUR_GMT5 : Z := 18.
Definition CLASS_REMINDER_MINUTE_GMT5 : Z := 25.

(** [CLASS_SCHEDULE_BY_GMT5_DAY[day]]; [None] is undefined. *)
Definition CLASS_SCHEDULE_BY_GMT5_DAY (day : Z) : option string :=
  if day =? 1 then Some "Database Design Concepts"
  else if day =? 2 then Some "Computer Systems"
  else if day =? 3 then Some "Business Skills for E- Commerce"
  else if day =? 4 then Some "Website Design"
  else None.

(** [new Date(Date.now() + 5 * 60 * 60 * 1000)], as milliseconds since the
    epoch; [now] is what [Date.now()] returns. *)
Definition nowInGmt5 (now : Z) : Z := now + 5 * 60 * 60 * 1000.

(** [getUTCDay], [getUTCHours], [getUTCMinutes] of a time value: the day
    number is the floor of t / msPerDay, and day 0 was a Thursday. *)
Definition getUTCDay (t : Z) : Z := (t / 86400000 + 4) mod 7.
Definition getUTCHours (t : Z) : Z := (t / 3600000) mod 24.
Definition getUTCMinutes (t : Z) : Z := (t / 60000) mod 60.

Record parts := { day : Z; hour : Z; minute : Z }.

Definition getGmt5Parts (now : Z) : parts :=
  let d := nowInGmt5 now in
  {| day := getUTCDay d; hour := getUTCHours d; minute := getUTCMinutes d |}.

(** [process.env] and the query of the request, as far as the handler
    reads them. *)
Record process_env := {
  BOT_TOKEN : option string;
  KV_REST_API_URL : option string;
  KV_REST_API_TOKEN : option string;
  CRON_SECRET : option string
}.

Record request := {
  q_secret : option string;   (* url.searchParams.get('secret'), None is null *)
  q_force : option string     (* url.searchParams.get('force') *)
}.

(** The JSON body of the response. *)
Inductive body :=
| MissingKv (missing : list string)
| Unauthorized
| SkippedNoClass (day : Z)
| SkippedWrongTime (day hour minute : Z)
| Executed (day hour minute : Z) (className : string) (total sent removed failed : Z)
| Failure (error : string).

Record http_response := { status : Z; json : body }.

(** Truthiness of an environment variable or of a table entry: absent and
    empty are falsy. *)
Definition set (v : option string) : bool :=
  match v with
  | Some s => negb (String.eqb s "")
  | None => false
  end.

Record counts := { sent : Z; removed : Z; failed : Z }.

Section WithEnv.

Variable E : env.

Definition removeFromAllLists (userId : Z) : M unit :=
  try_catch
    (promise_all2
       (kv_srem E SUBS_ATTENDANCE_KEY userId)
       (kv_srem E SUBS_CLASS_KEY userId) ;;
     ret tt)
    (fun e => console_error "kv.srem error" []).

(** The body of the send loop, over the variables [sent], [removed] and
    [failed] of the handler. *)
Definition send_body (text : jstr) (uid : Z) (c : counts) : M counts :=
  try_catch
    (sendMessage E uid text None ;;
     let c1 := {| sent := sent c + 1; removed := removed c; failed := failed c |} in
     sleep 50 ;;
     ret c1)
    (fun e =>
       let c1 := {| sent := sent c; removed := removed c; failed := failed c + 1 |} in
       let code := error_code_of e in
       let desc := description_of e in
       console_error "class reminder send error to" [VNum uid; code; VStr (lit desc)] ;;
       if is_403 code then
         let c2 := {| sent := sent c1; removed := removed c1 + 1; failed := failed c1 |} in
         removeFromAllLists uid ;;
         ret c2
       else ret c1).

(** The send loop of the handler. *)
Definition send_loop (userIds : list Z) (text : jstr) : counts -> M counts :=
  for_of_acc userIds (send_body text).

Definition respond (st : Z) (b : body) : M http_response :=
  ret {| status := st; json := b |}.

(** [handler(req, res)]; [now] is the reading of the clock. *)
Definition handler (penv : process_env) (req : request) (now : Z) : M http_response :=
  try_catch
    (if negb (set (BOT_TOKEN penv)) then throw {| response := None; message := "Missing BOT_TOKEN" |}
     else
       let missing :=
         (if set (KV_REST_API_URL penv) then [] else ["KV_REST_API_URL"%string])
         ++ (if set (KV_REST_API_TOKEN penv) then [] else ["KV_REST_API_TOKEN"%string]) in
       if negb (bool_decide (missing = [])) then respond 200 (MissingKv missing)
       else
         let secret := q_secret req in
         let force := bool_decide (q_force req = Some "1"%string) in
         if set (CRON_SECRET penv) && negb (bool_decide (secret = CRON_SECRET penv))
         then respond 401 Unauthorized
         else
           let p := getGmt5Parts now in
           let className := CLASS_SCHEDULE_BY_GMT5_DAY (day p) in
           let scheduledMinutes :=
             CLASS_REMINDER_HOUR_GMT5 * 60 + CLASS_REMINDER_MINUTE_GMT5 in
           let nowMinutes := hour p * 60 + minute p in
           (* the block under [if (!force)], with its two early returns *)
           let early :=
             if negb force then
               if negb (set className) then Some (SkippedNoClass (day p))
               else if 1 <? Z.abs (nowMinutes - scheduledMinutes)
               then Some (SkippedWrongTime (day p) (hour p) (minute p))
               else None
             else None in
           match early with
           | Some b => respond 200 b
           | None =>
               if negb (set className)
               then respond 200 (SkippedNoClass (day p))
               else
                 userIds <- kv_smembers E SUBS_CLASS_KEY ;;
                 let name := default ""%string className in
                 let text := lit name ++ lit " class starts in 5 mins" in
                 c <- send_loop userIds text {| sent := 0; removed := 0; failed := 0 |} ;;
                 respond 200
                   (Executed (day p) (hour p) (minute p) name
                      (Z.of_nat (length userIds)) (sent c) (removed c) (failed c))
           end)
    (fun err =>
       console_error "class-reminders error:" [VStr (lit (message err))] ;;
       respond 200
         (Failure (if String.eqb (message err) "" then "unknown error" else message err))).

End WithEnv.

End ClassReminders.

(* ================================================================== *)
(** ** Further functions of the sources                                *)
(* ================================================================== *)

(** The menu of src/api/telegram.js: [formatSettingsText] and
    [buildMenuKeyboard]. *)
Module TelegramMenu.

Definition CLASS_REMINDER_HOUR_GMT5 : Z := 18.
Definition CLASS_REMINDER_MINUTE_GMT5 : Z := 25.

(** [CLASS_SCHEDULE_BY_GMT5_DAY[day]] of src/api/telegram.js. *)
Definition CLASS_SCHEDULE_BY_GMT5_DAY (day : Z) : jsval :=
  if day =? 1 then VStr (lit "Database Design Concepts")
  else if day =? 2 then VStr (lit "Computer Systems")
  else if day =? 3 then VStr (lit "Business Skills for E- Commerce")
  else if day =? 4 then VStr (lit "Website Design")
  else VUndefined.

Record settings := { attendance : bool; classReminders : bool }.

(** [s.padStart(n, c)] for a one-character filler. *)
Definition padStart (n : nat) (c : cu) (s : jstr) : jstr :=
  repeat c (n - length s) ++ s.

(** [lines.join(sep)]. *)
Fixpoint join (sep : jstr) (lines : list jstr) : jstr :=
  match lines with
  | [] => []
  | [l] => l
  | l :: r => l ++ sep ++ join sep r
  end.

Definition ldquo : jstr := [8220]%N.
Definition rdquo : jstr := [8221]%N.
Definition rsquo : jstr := [8217]%N.
Definition mdash : jstr := [8212]%N.

(** [formatSettingsText(settings)] *)
Definition formatSettingsText (st : settings) : jstr :=
  let att := if attendance st then lit "ON" else lit "OFF" in
  let cls := if classReminders st then lit "ON" else lit "OFF" in
  let lines :=
    [ lit "Choose your reminders:";
      [];
      lit "Attendance reminders = I DM you when someone says " ++ ldquo
        ++ lit "Attendance" ++ rdquo ++ lit " in a group I" ++ rsquo ++ lit "m in.";
      [];
      lit "Attendance reminders: " ++ att;
      lit "Class reminders: " ++ cls;
      [];
      lit "Class reminders schedule (GMT+5, "
        ++ padStart 2 48%N (render (VNum CLASS_REMINDER_HOUR_GMT5)) ++ lit ":"
        ++ padStart 2 48%N (render (VNum CLASS_REMINDER_MINUTE_GMT5)) ++ lit "):";
      lit "Every Monday " ++ mdash ++ lit " " ++ render (CLASS_SCHEDULE_BY_GMT5_DAY 1);
      lit "Tuesday " ++ mdash ++ lit " " ++ render (CLASS_SCHEDULE_BY_GMT5_DAY 2);
      lit "Wed " ++ mdash ++ lit " " ++ render (CLASS_SCHEDULE_BY_GMT5_DAY 3);
      lit "Thurs " ++ mdash ++ lit " " ++ render (CLASS_SCHEDULE_BY_GMT5_DAY 4);
      [];
      lit "Tip: Class reminders say " ++ ldquo ++ lit "{class} class starts in 5 mins"
        ++ rdquo ++ lit "." ] in
  join [10%N] lines.

(** A button of the menu: [Markup.button.callback(text, data)] or
    [Markup.button.url(text, url)]. *)
Inductive menu_button :=
| Callback (label : jstr) (data : string)
| Url (label : jstr) (url : jstr).

Definition check_mark : jstr := [9989; 32]%N.   (* U+2705 and a space *)
Definition plus_sign : jstr := [10133]%N.       (* U+2795 *)

(** [buildMenuKeyboard(settings)]; [botUsername] is the module variable that
    [getMe] fills in with the bot's handle, a string, and that is undefined
    until then; [render] is its text. *)
Definition buildMenuKeyboard (botUsername : jsval) (st : settings)
    : list (list menu_button) :=
  let attendanceOnlySelected := attendance st && negb (classReminders st) in
  let bothSelected := attendance st && classReminders st in
  let disabledSelected := negb (attendance st) && negb (classReminders st) in
  let addToGroupUrl :=
    if truthy botUsername
    then lit "https://t.me/" ++ render botUsername ++ lit "?startgroup=true"
    else lit "https://t.me" in
  [ [Callback ((if attendanceOnlySelected then check_mark else [])
               ++ lit "Attendance reminders") "preset:attendance"];
    [Callback ((if bothSelected then check_mark else [])
               ++ lit "Attendance + Class reminders") "preset:both"];
    [Callback ((if disabledSelected then check_mark else [])
               ++ lit "Disable reminders") "preset:none"];
    [Url (plus_sign ++ lit " Add me to a group") addToGroupUrl] ].

(** The [data] of the callback buttons whose label carries the check
    mark. *)
Definition selected (kb : list (list menu_button)) : list string :=
  flat_map
    (fun row =>
       flat_map
         (fun b =>
            match b with
            | Callback label data => if startsWith label check_mark then [data] else []
            | Url _ _ => []
            end) row) kb.

(** The [data] of all callback buttons. *)
Definition actions (kb : list (list menu_button)) : list string :=
  flat_map
    (fun row =>
       flat_map
         (fun b => match b with Callback _ data => [data] | Url _ _ => [] end) row) kb.

End TelegramMenu.

(** The handlers of src/index.js. *)
Module IndexBot.

Import Text Regex IndexLink.

(** [(msg.text || msg.caption || '').trim()]: without the optional chaining
    of telegram.js, an absent message throws. *)
Definition extractText (msg : option Telegram.message) : result jstr :=
  match msg with
  | None => Thrown (TypeError "Cannot read properties of undefined")
  | Some m =>
      Ok (trim (Telegram.str_or (Telegram.text m) (Telegram.str_or (Telegram.caption m) [])))
  end.

Section WithEnv.

Variable E : env.

(** [bot.start]: [addToGroupUrl] is computed and not used. *)
Definition on_start (c : Telegram.ctx) : M unit :=
  Db.addUser (Telegram.from_id c) ;;
  ctx_do E CReply
    (PText "I’ll DM you when someone says “Attendance” in groups I’m in.").

(** [bot.on('message')] *)
Definition on_message (c : Telegram.ctx) : M unit :=
  let chatType := opt_prop (Telegram.chat c) "type" in
  if negb (is_string chatType (lit "group") || is_string chatType (lit "supergroup"))
  then ret tt
  else
    text <- lift (extractText (Telegram.ctx_message c)) ;;
    if negb (truthy (VStr text)) then ret tt
    else if negb (test Index.KEYWORD_REGEX text) then ret tt
    else
      title <- lift (get_prop (Telegram.chat c) "title") ;;
      let groupName := js_or title (VStr (lit "a group")) in
      let excerpt := Index.excerpt text in
      mid <- match Telegram.ctx_message c with
             | Some m => ret (Telegram.message_id m)
             | None => throw (TypeError "Cannot read properties of undefined")
             end ;;
      link <- lift (buildMessageLink (Telegram.chat c) mid) ;;
      group <- lift (ToString groupName) ;;
      let preview :=
        lit "In " ++ group ++ lit ": " ++ Index.left_quote ++ excerpt
        ++ Index.right_quote in
      Index.notifyAllUsers E preview link.

End WithEnv.

End IndexBot.

(** The webhook entry point of src/api/telegram.js. *)
Module Webhook.

(** [initBot()], as far as a request sees it: the bot that an earlier
    request built is reused, and building one needs the token. [bot] tells
    whether the module variable is set. *)
Definition initBot (bot : bool) (token : option string) : M unit :=
  if bot then ret tt
  else if negb (ClassReminders.set token)
       then throw {| response := None; message := "Missing BOT_TOKEN" |}
       else ret tt.

(** [handler(req, res)]. [handleUpdate] is what [b.handleUpdate(update)]
    does with the body of the request, whatever that is; [getBody] catches
    its own parse error and only feeds it. The result is the status and the
    text sent. *)
Definition handler (method : string) (bot : bool) (token : option string)
    (handleUpdate : M unit) : M (Z * string) :=
  if negb (String.eqb method "POST") then ret (200, "OK"%string)
  else
    try_catch
      (initBot bot token ;;
       handleUpdate ;;
       ret (200, "OK"%string))
      (fun err =>
         console_error "telegram webhook error:" [VStr (lit (message err))] ;;
         ret (200, "OK"%string)).

End Webhook.

(* ================================================================== *)
(** ** Properties of traces and stores                                 *)
(* ================================================================== *)

Module Trace.

(** The recipients of the send attempts of a trace, in order. *)
Fixpoint sent_to (t : list event) : list Z :=
  match t with
  | [] => []
  | EvSend uid _ _ _ :: r => uid :: sent_to r
  | _ :: r => sent_to r
  end.

(** A log line or a store call: neither an attempt nor a pause. *)
Definition quiet (e : event) : Prop :=
  match e with
  | EvLog _ _ | EvKv _ _ _ _ => True
  | _ => False
  end.

(** The trace of a fan-out over a list of recipients, attempt by attempt:
    a delivered send is followed by the pause and nothing else; a rejected
    send is followed by log lines and store calls only. *)
Inductive fanout_trace (ms : Z) : list Z -> list event -> Prop :=
| ft_nil : fanout_trace ms [] []
| ft_delivered uid t m rest d :
    fanout_trace ms rest d ->
    fanout_trace ms (uid :: rest) (EvSend uid t m None :: EvSleep ms :: d)
| ft_rejected uid t m e tail rest d :
    Forall quiet tail ->
    fanout_trace ms rest d ->
    fanout_trace ms (uid :: rest) (EvSend uid t m (Some e) :: tail ++ d).

(** The trace of one attempt. *)
Inductive attempt_trace (ms : Z) (uid : Z) : list event -> Prop :=
| at_delivered t m : attempt_trace ms uid [EvSend uid t m None; EvSleep ms]
| at_rejected t m e tail :
    Forall quiet tail -> attempt_trace ms uid (EvSend uid t m (Some e) :: tail).

(** From here to the next attempt, or to the end, there is a pause of 50 to
    60 and it comes before any attempt. *)
Fixpoint pause_before_next_send (t : list event) : Prop :=
  match t with
  | [] => True
  | EvSend _ _ _ _ :: _ => False
  | EvSleep ms :: _ => 50 <= ms <= 60
  | _ :: r => pause_before_next_send r
  end.

(** The pacing as the specification words it: no attempt is followed
    directly, without a pause in between, by the next attempt. *)
Fixpoint pause_after_every_attempt (t : list event) : Prop :=
  match t with
  | [] => True
  | EvSend _ _ _ _ :: r => pause_before_next_send r /\ pause_after_every_attempt r
  | _ :: r => pause_after_every_attempt r
  end.

(** From here to the next attempt, or to the end, there is no pause. *)
Fixpoint no_pause_until_next_send (t : list event) : Prop :=
  match t with
  | [] => True
  | EvSend _ _ _ _ :: _ => True
  | EvSleep _ :: _ => False
  | _ :: r => no_pause_until_next_send r
  end.

(** The pacing as the code has it: the pause of [ms] comes directly after
    each delivered send, and no pause follows a rejected one. *)
Fixpoint pause_after_delivery_only (ms : Z) (t : list event) : Prop :=
  match t with
  | [] => True
  | EvSend _ _ _ None :: r =>
      (exists r', r = EvSleep ms :: r') /\ pause_after_delivery_only ms r
  | EvSend _ _ _ (Some _) :: r =>
      no_pause_until_next_send r /\ pause_after_delivery_only ms r
  | _ :: r => pause_after_delivery_only ms r
  end.

(** The error is a gateway answer with error code 403. *)
Definition rejected_with_403 (e : js_error) : Prop :=
  exists r, response e = Some r /\ error_code r = 403.

(** Recipient [u] had an attempt rejected with the permanent-block code. *)
Definition blocked_in (d : list event) (u : Z) : Prop :=
  exists t m e, In (EvSend u t m (Some e)) d /\ rejected_with_403 e.

Definition ATT : string := "subs:attendance".
Definition CLS : string := "subs:class".

(** The number of send attempts to [u] in a trace that were rejected with
    error code 403, and the number of removes of [u] from the list [key],
    performed or not. *)
Fixpoint blocks_of (u : Z) (t : list event) : nat :=
  match t with
  | [] => 0
  | EvSend v _ _ (Some e) :: r =>
      ((if bool_decide (v = u) && is_403 (error_code_of e) then 1 else 0)
       + blocks_of u r)%nat
  | _ :: r => blocks_of u r
  end.

Fixpoint removes_of (key : string) (u : Z) (t : list event) : nat :=
  match t with
  | [] => 0
  | EvKv Srem k (Some v) _ :: r =>
      ((if bool_decide (k = key /\ v = u) then 1 else 0) + removes_of key u r)%nat
  | _ :: r => removes_of key u r
  end.



(** How the store calls of a fan-out with trace [d], from world [w] to
    world [w'], relate to its send attempts and to the store. *)
Record store_facts (E : env) (w w' : world) (d : list event) : Prop := {
  (* a blocked recipient gets a remove call on each list *)
  f_calls : forall u, blocked_in d u ->
      (exists ok, In (EvKv Srem ATT (Some u) ok) d)
      /\ (exists ok, In (EvKv Srem CLS (Some u) ok) d);
  (* there are no other store calls *)
  f_only : forall op key mem ok, In (EvKv op key mem ok) d ->
      op = Srem /\ (key = ATT \/ key = CLS) /\ exists u, mem = Some u /\ blocked_in d u;
  (* a remove that the store performed holds at the end *)
  f_removed : forall key u, In (EvKv Srem key (Some u) true) d ->
      u ∉ members (store w') key;
  (* nobody is added *)
  f_mono : forall key u, u ∈ members (store w') key -> u ∈ members (store w) key;
  (* nobody is removed but by a performed remove *)
  f_kept : forall key u, u ∈ members (store w) key ->
      u ∈ members (store w') key \/ In (EvKv Srem key (Some u) true) d;
  (* a rejected store call is one the environment rejects *)
  f_fault : forall op key mem, In (EvKv op key mem false) d ->
      exists n e, kv_fails E n = Some e
}.

(** What one [removeFromAllLists(uid)], from world [w] to world [w'] with
    trace [d], does. *)
Record removal_facts (E : env) (uid : Z) (w w' : world) (d : list event) : Prop := {
  r_quiet : Forall quiet d;
  r_calls : (exists ok, In (EvKv Srem ATT (Some uid) ok) d)
            /\ (exists ok, In (EvKv Srem CLS (Some uid) ok) d);
  r_only : forall op key mem ok, In (EvKv op key mem ok) d ->
      op = Srem /\ (key = ATT \/ key = CLS) /\ mem = Some uid;
  r_removed : forall key, In (EvKv Srem key (Some uid) true) d ->
      uid ∉ members (store w') key;
  r_mono : forall key u, u ∈ members (store w') key -> u ∈ members (store w) key;
  r_kept : forall key u, u ∈ members (store w) key ->
      u ∈ members (store w') key \/ (u = uid /\ In (EvKv Srem key (Some u) true) d);
  r_fault : forall op key mem, In (EvKv op key mem false) d ->
      exists n e, kv_fails E n = Some e
}.

(** One attempt, and a whole fan-out, from world [w] to world [w'] with
    trace [d]: only the trace and the store change, and one send is counted
    per recipient. *)
Definition attempt_ok (E : env) (ms : Z) (uid : Z) (w w' : world) (d : list event)
    : Prop :=
  trace w' = trace w ++ d /\ attempt_trace ms uid d /\ store_facts E w w' d
  /\ users w' = users w /\ n_ctx w' = n_ctx w /\ n_send w' = S (n_send w).

Definition run_ok (E : env) (ms : Z) (l : list Z) (w w' : world) (d : list event)
    : Prop :=
  trace w' = trace w ++ d /\ fanout_trace ms l d /\ store_facts E w w' d
  /\ users w' = users w /\ n_ctx w' = n_ctx w
  /\ n_send w' = (n_send w + length l)%nat.

(** Membership in the class-reminders list implies membership in the
    attendance list. *)
Definition class_implies_attendance (s : gmap string (gset Z)) : Prop :=
  forall u, u ∈ members s CLS -> u ∈ members s ATT.

(** A computation that keeps this invariant of the store, however it
    ends. *)
Definition preserves {A} (m : M A) : Prop :=
  forall w, class_implies_attendance (store w) ->
            class_implies_attendance (store (snd (m w))).

End Trace.

(* ================================================================== *)
(** ** Properties of the user table                                    *)
(* ================================================================== *)

Module Facts.

(** How the user table of db.js changes over a fan-out of src/index.js with
    trace [d], from world [w] to world [w']. *)
Record users_facts (w w' : world) (d : list event) : Prop := {
  (* a recipient rejected with 403 is marked blocked *)
  u_blocked : forall u, Trace.blocked_in d u -> is_Some (users w !! u) ->
      users w' !! u = Some true;
  (* the other rows are as they were *)
  u_other : forall u, ~ Trace.blocked_in d u -> users w' !! u = users w !! u;
  (* no row is added or deleted *)
  u_rows : forall u, is_Some (users w' !! u) <-> is_Some (users w !! u);
  (* a blocked row stays blocked *)
  u_sticky : forall u, users w !! u = Some true -> users w' !! u = Some true;
  (* the KV store is not touched *)
  u_store : store w' = store w
}.

(** The numbers of delivered sends, of rejected sends, and of sends rejected
    with error code 403 in a trace. *)
Fixpoint delivered (t : list event) : Z :=
  match t with
  | [] => 0
  | EvSend _ _ _ None :: r => 1 + delivered r
  | _ :: r => delivered r
  end.

Fixpoint rejected (t : list event) : Z :=
  match t with
  | [] => 0
  | EvSend _ _ _ (Some _) :: r => 1 + rejected r
  | _ :: r => rejected r
  end.

Fixpoint rejected_403 (t : list event) : Z :=
  match t with
  | [] => 0
  | EvSend _ _ _ (Some e) :: r =>
      (if is_403 (error_code_of e) then 1 else 0) + rejected_403 r
  | _ :: r => rejected_403 r
  end.

(** Every send of the trace carries this text and this markup. *)
Definition sends_carry (text : jstr) (markup : option (list (list button)))
    (t : list event) : Prop :=
  forall u t' m e, In (EvSend u t' m e) t -> t' = text /\ m = markup.

(** A computation that leaves the KV store as it is, however it ends. *)
Definition frames {A} (m : M A) : Prop :=
  forall w, store (snd (m w)) = store w.

(** The calls on the context of a trace, with whether they were accepted. *)
Fixpoint ctx_calls (t : list event) : list (ctx_call * payload * bool) :=
  match t with
  | [] => []
  | EvCtx c p ok :: r => (c, p, ok) :: ctx_calls r
  | _ :: r => ctx_calls r
  end.

(** The counters of the reminder job, from [c] to [c'], count the sends of
    the trace [d] in between. *)
Definition tallies (c c' : ClassReminders.counts) (d : list event) : Prop :=
  ClassReminders.sent c' = ClassReminders.sent c + delivered d
  /\ ClassReminders.failed c' = ClassReminders.failed c + rejected d
  /\ ClassReminders.removed c' = ClassReminders.removed c + rejected_403 d.

(** The values of an update that the keyword handlers put into text: the
    title, the handle and the id of the chat, and the id of the message.
    [renders c] says that their conversions to strings complete, as they do
    for the primitives that the Bot API delivers; [in_range c] that those of
    them that are numbers are safe integers. *)
Definition rendered (c : Telegram.ctx) : list jsval :=
  [opt_prop (Telegram.chat c) "title"; opt_prop (Telegram.chat c) "username";
   opt_prop (Telegram.chat c) "id";
   match Telegram.ctx_message c with
   | Some m => Telegram.message_id m
   | None => VUndefined
   end].

Definition renders (c : Telegram.ctx) : bool := forallb stringifies (rendered c).

Definition in_range (c : Telegram.ctx) : bool := forallb safe_number (rendered c).

(** A string whose only whitespace is single spaces: every whitespace unit
    is a space and does not follow whitespace; [prev] tells that the unit
    before the string is whitespace. *)
Fixpoint single_spaced (prev : bool) (s : jstr) : Prop :=
  match s with
  | [] => True
  | c :: r =>
      if Text.is_space c then c = 32%N /\ prev = false /\ single_spaced true r
      else single_spaced false r
  end.

(** The outcomes of the reminder job that come before any call to the
    store or to the gateway. *)
Definition idle_outcome (b : ClassReminders.body) : bool :=
  match b with
  | ClassReminders.MissingKv _ | ClassReminders.Unauthorized
  | ClassReminders.SkippedNoClass _ | ClassReminders.SkippedWrongTime _ _ _ => true
  | _ => false
  end.

End Facts.

(* ================================================================== *)
(** ** Concrete worlds and environments                                *)
(* ================================================================== *)

Module Scenario.

(** The gateway's answer to a recipient who blocked the bot, and to a
    request it could not serve. *)
Definition blocked : js_error :=
  {| response := Some {| error_code := 403;
                         description := "Forbidden: bot was blocked by the user" |};
     message := "403: Forbidden: bot was blocked by the user" |}.

Definition unavailable : js_error :=
  {| response := Some {| error_code := 500; description := "Internal Server Error" |};
     message := "500: Internal Server Error" |}.

(** A store call that fails on the network. *)
Definition store_down : js_error :=
  {| response := None; message := "fetch failed" |}.

(** Everything succeeds. *)
Definition calm : env :=
  {| gateway := fun _ _ => None; kv_fails := fun _ => None; ctx_fails := fun _ => None |}.

(** The first send is rejected with [e]; everything else succeeds. *)
Definition first_send_rejected (e : js_error) : env :=
  {| gateway := fun n _ => if Nat.eqb n 0 then Some e else None;
     kv_fails := fun _ => None;
     ctx_fails := fun _ => None |}.

(** Every send is rejected as blocked and the first store call fails. *)
Definition blocked_and_store_down : env :=
  {| gateway := fun _ _ => Some blocked;
     kv_fails := fun n => if Nat.eqb n 0 then Some store_down else None;
     ctx_fails := fun _ => None |}.

(** The first store call fails; everything else succeeds. *)
Definition first_store_call_fails : env :=
  {| gateway := fun _ _ => None;
     kv_fails := fun n => if Nat.eqb n 0 then Some store_down else None;
     ctx_fails := fun _ => None |}.

Definition world_with (s : gmap string (gset Z)) : world :=
  {| store := s; users := ∅; trace := []; n_send := 0; n_kv := 0; n_ctx := 0 |}.

Definition empty_world : world := world_with ∅.

(** User 7 is on both lists. *)
Definition both_lists_7 : world :=
  world_with (sadd_in "subs:class" 7 (sadd_in "subs:attendance" 7 ∅)).

(** The job's environment with every variable set and no secret, a request
    without parameters, and Monday 6 January 2025, 18:25:00 in GMT+5
    (13:25:00 UTC) as [Date.now()] reads it. *)
Definition deployed : ClassReminders.process_env :=
  {| ClassReminders.BOT_TOKEN := Some "123:abc"%string;
     ClassReminders.KV_REST_API_URL := Some "https://kv.example"%string;
     ClassReminders.KV_REST_API_TOKEN := Some "token"%string;
     ClassReminders.CRON_SECRET := None |}.

Definition deployed_with_secret : ClassReminders.process_env :=
  {| ClassReminders.BOT_TOKEN := Some "123:abc"%string;
     ClassReminders.KV_REST_API_URL := Some "https://kv.example"%string;
     ClassReminders.KV_REST_API_TOKEN := Some "token"%string;
     ClassReminders.CRON_SECRET := Some "s3cret"%string |}.

Definition plain_request : ClassReminders.request :=
  {| ClassReminders.q_secret := None; ClassReminders.q_force := None |}.

Definition monday_18_25 : Z := 1736169900000.

(** User 7 is on the class-reminders list (and on the attendance list). *)
Definition class_list_7 : world :=
  world_with (sadd_in "subs:class" 7 (sadd_in "subs:attendance" 7 ∅)).

(** A private chat with user 5, pressing a button of the menu. *)
Definition private_ctx_5 : Telegram.ctx :=
  {| Telegram.chat := VObj [("id"%string, VNum 5); ("type"%string, VStr (lit "private"))];
     Telegram.from_id := 5;
     Telegram.updateType := "callback_query";
     Telegram.ctx_message := None |}.

(** A message of 200 characters in a private supergroup: the keyword and
    189 times the letter a. *)
Definition long_text : jstr := lit "attendance " ++ repeat 97%N 189.

(** The same message in an update as a forged request to the webhook can
    carry it: the title of the chat is an object with a [toString] property
    of its own. *)
Definition forged_group_ctx : Telegram.ctx :=
  {| Telegram.chat :=
       VObj [("id"%string, VNum (-1001234567890));
             ("type"%string, VStr (lit "supergroup"));
             ("title"%string, VObj [("toString"%string, VNum 1)])];
     Telegram.from_id := 99;
     Telegram.updateType := "message";
     Telegram.ctx_message :=
       Some {| Telegram.text := Some long_text; Telegram.caption := None;
               Telegram.message_id := VNum 42 |} |}.

Definition group_ctx : Telegram.ctx :=
  {| Telegram.chat :=
       VObj [("id"%string, VNum (-1001234567890));
             ("type"%string, VStr (lit "supergroup"));
             ("title"%string, VStr (lit "Study group"))];
     Telegram.from_id := 99;
     Telegram.updateType := "message";
     Telegram.ctx_message :=
       Some {| Telegram.text := Some long_text; Telegram.caption := None;
               Telegram.message_id := VNum 42 |} |}.

End Scenario.

(* ================================================================== *)
(** ** The specification's reading of the pure components             *)
(* ================================================================== *)

Module Spec.

Import Text.

(** The link resolver in the words of the specification: the public
    permalink when the chat has a handle; otherwise the private-channel
    permalink when the chat id, rendered as a string, starts with the marker
    -100, with the four characters of the marker stripped; otherwise null. *)
Definition link_resolver (chat messageId : jsval) : jsval :=
  let handle := opt_prop chat "username" in
  let id := render (opt_prop chat "id") in
  if truthy handle then
    VStr (lit "https://t.me/" ++ render handle ++ lit "/" ++ render messageId)
  else if startsWith id (lit "-100") then
    VStr (lit "https://t.me/c/" ++ drop 4 id ++ lit "/" ++ render messageId)
  else VNull.

(** The excerpt in the words of the specification, on the text whose
    whitespace runs are already collapsed: unchanged up to 160 characters,
    else the first 157 followed by the ellipsis. *)
Definition excerpt_of_normalized (n : jstr) : jstr :=
  if decide (length n <= 160)%nat then n else take 157 n ++ [ellipsis].

(** An invocation of the reminder job that passes its configuration and
    authorization checks: the three variables are set, and the secret, when
    one is configured, is the one given. *)
Definition configured (penv : ClassReminders.process_env) : Prop :=
  ClassReminders.set (ClassReminders.BOT_TOKEN penv) = true
  /\ ClassReminders.set (ClassReminders.KV_REST_API_URL penv) = true
  /\ ClassReminders.set (ClassReminders.KV_REST_API_TOKEN penv) = true.

Definition authorized (penv : ClassReminders.process_env)
    (req : ClassReminders.request) : Prop :=
  ClassReminders.set (ClassReminders.CRON_SECRET penv) = false
  \/ ClassReminders.q_secret req = ClassReminders.CRON_SECRET penv.

(** The reading of the GMT+5 clock in whole minutes since midnight, and the
    target 18:25 in the same unit. *)
Definition now_minutes (now : Z) : Z :=
  ClassReminders.hour (ClassReminders.getGmt5Parts now) * 60
  + ClassReminders.minute (ClassReminders.getGmt5Parts now).

Definition target_minutes : Z := 18 * 60 + 25.

(** The keyword detector in the words of the specification. A word is the
    trigger word, compared case-insensitively, when lowering its ASCII
    capitals gives "attendance"; a text contains it bounded when the
    occurrence has a non-word character or the edge of the text on each
    side. *)
Definition lower (c : cu) : cu :=
  if ((65 <=? c) && (c <=? 90))%N then (c + 32)%N else c.

Definition trigger_word : jstr := lit "attendance".

Definition is_trigger_word (w : jstr) : Prop := map lower w = trigger_word.

Definition non_word (c : cu) : Prop := is_word c = false.

Definition bounded_trigger (s : jstr) : Prop :=
  exists pre w post,
    s = pre ++ w ++ post
    /\ is_trigger_word w
    /\ (pre = [] \/ exists p c, pre = p ++ [c] /\ non_word c)
    /\ (post = [] \/ exists c q, post = c :: q /\ non_word c).

End Spec.

(* ================================================================== *)
(** * Theorems                                                         *)
(* ================================================================== *)

(** ** Link resolver *)

Section LinkResolver.

Import TelegramLink IndexLink.

Lemma own_prop_cases (v : jsval) (k : string) :
  (v = VUndefined \/ v = VNull) /\ opt_prop v k = VUndefined /\ truthy v = false
  \/ get_prop v k = Ok (opt_prop v k) /\ v <> VUndefined /\ v <> VNull.
Proof.
  destruct v; cbn; auto; right; repeat split; congruence.
Qed.

Lemma ToString_stringifies (v : jsval) :
  stringifies v = true -> ToString v = Ok (render v).
Proof. unfold ToString. now intros ->. Qed.

Lemma ToString_throws (v : jsval) :
  stringifies v = false ->
  ToString v = Thrown (TypeError "Cannot convert object to primitive value").
Proof. unfold ToString. now intros ->. Qed.

(** [x || ''] does not change whether the rendering starts with -100, nor
    whether the conversion completes, and when the rendering starts with
    -100, [x] itself is what is rendered. *)
Lemma id_or_empty (v : jsval) :
  startsWith (render (js_or v (VStr []))) (lit "-100")
  = startsWith (render v) (lit "-100")
  /\ stringifies (js_or v (VStr [])) = stringifies v
  /\ (startsWith (render v) (lit "-100") = true -> js_or v (VStr []) = v).
Proof.
  unfold js_or.
  destruct v as [| |[|]|z|[|c s]|ps]; cbn [truthy];
    try (destruct (Z.eqb_spec z 0) as [->|Hz]; cbn [negb]);
    (split; [reflexivity|split; [reflexivity|]]);
    first [intros _; reflexivity | intros H; vm_compute in H; discriminate H].
Qed.

Lemma buildLink_spec (chat messageId : jsval) :
  stringifies (opt_prop chat "username") = true ->
  stringifies (opt_prop chat "id") = true ->
  stringifies messageId = true ->
  buildLink chat messageId = Ok (Spec.link_resolver chat messageId).
Proof.
  intros Hu Hi Hm. unfold buildLink, Spec.link_resolver.
  destruct (truthy (opt_prop chat "username")) eqn:Ht.
  - destruct (own_prop_cases chat "username") as [(_ & Hp & _)|(Hg & _)].
    + rewrite Hp in Ht. discriminate.
    + rewrite Hg. cbn [rbind].
      rewrite (ToString_stringifies _ Hu), (ToString_stringifies _ Hm). reflexivity.
  - destruct (id_or_empty (opt_prop chat "id")) as (Heq & Hs & Himp).
    rewrite ToString_stringifies by (rewrite Hs; exact Hi). cbn [rbind]. rewrite Heq.
    destruct (startsWith (render (opt_prop chat "id")) (lit "-100")) eqn:Hp; auto.
    rewrite (ToString_stringifies _ Hm), (Himp eq_refl). reflexivity.
Qed.

Lemma buildMessageLink_spec (chat messageId : jsval) :
  stringifies (opt_prop chat "username") = true ->
  stringifies (opt_prop chat "id") = true ->
  stringifies messageId = true ->
  buildMessageLink chat messageId = Ok (Spec.link_resolver chat messageId).
Proof.
  intros Hu Hi Hm. unfold buildMessageLink, Spec.link_resolver.
  destruct (own_prop_cases chat "username") as [(Hc & Hp & Ht)|(Hg & Hn1 & Hn2)].
  - rewrite Ht. cbn [negb]. rewrite Hp. cbn [truthy].
    destruct Hc as [-> | ->]; reflexivity.
  - destruct (truthy chat) eqn:Ht; cbn [negb].
    + rewrite Hg. cbn [rbind].
      destruct (truthy (opt_prop chat "username")) eqn:Htu.
      * rewrite (ToString_stringifies _ Hu), (ToString_stringifies _ Hm). reflexivity.
      * destruct (own_prop_cases chat "id") as [(Hc & _)|(Hgi & _)];
          [destruct Hc; congruence|].
        rewrite Hgi. cbn [rbind].
        destruct (id_or_empty (opt_prop chat "id")) as (Heq & Hs & Himp).
        rewrite ToString_stringifies by (rewrite Hs; exact Hi). cbn [rbind]. rewrite Heq.
        destruct (startsWith (render (opt_prop chat "id")) (lit "-100")) eqn:Hp; auto.
        cbv zeta. rewrite (ToString_stringifies _ Hm), (Himp eq_refl). reflexivity.
    + (* a falsy chat that is neither null nor undefined: false, 0 or '' *)
      destruct chat as [| |b|z|s0|ps]; try congruence; cbn in Ht; try discriminate;
        cbn [opt_prop truthy]; reflexivity.
Qed.









End LinkResolver.

(** Three chats of the kinds the Bot API delivers. *)
Example link_public_group :
  TelegramLink.buildLink
    (VObj [("id"%string, VNum (-1001234567890)); ("username"%string, VStr (lit "study_group"))])
    (VNum 42)
  = Ok (VStr (lit "https://t.me/study_group/42")).
Proof. reflexivity. Qed.

Example link_private_supergroup :
  TelegramLink.buildLink (VObj [("id"%string, VNum (-1001234567890))]) (VNum 42)
  = Ok (VStr (lit "https://t.me/c/1234567890/42")).
Proof. reflexivity. Qed.

Example link_basic_group :
  IndexLink.buildMessageLink (VObj [("id"%string, VNum (-4512))]) (VNum 42) = Ok VNull.
Proof. reflexivity. Qed.

(** ** Excerpt *)

Section Excerpt.

Import Text.

Lemma collapse_no_space (s : jstr) (b : bool) :
  Forall (fun c => is_space c = false) s -> collapse b s = s.
Proof.
  intros H. revert b. induction H as [|c r Hc _ IH]; intros b; cbn.
  - reflexivity.
  - rewrite Hc. f_equal. apply IH.
Qed.

(** src/index.js computes the excerpt of the specification. *)
Lemma index_excerpt_spec (text : jstr) :
  Index.excerpt text = Spec.excerpt_of_normalized (replace_ws text).
Proof.
  unfold Index.excerpt, Spec.excerpt_of_normalized, slice_to.
  destruct (Z.ltb_spec 160 (Z.of_nat (length (replace_ws text))));
    destruct (decide (length (replace_ws text) <= 160)%nat); auto; exfalso; lia.
Qed.

(** Its length when the normalized text is too long: 157 characters and the
    ellipsis. *)
Lemma index_excerpt_long (text : jstr) :
  (160 < length (replace_ws text))%nat ->
  Index.excerpt text = take 157 (replace_ws text) ++ [ellipsis]
  /\ length (Index.excerpt text) = 158%nat.
Proof.
  intros H. rewrite index_excerpt_spec. unfold Spec.excerpt_of_normalized.
  destruct (decide _); [lia|]. split; [reflexivity|].
  rewrite length_app, length_take. change (length [ellipsis]) with 1%nat. lia.
Qed.

Lemma index_excerpt_short (text : jstr) :
  (length (replace_ws text) <= 160)%nat -> Index.excerpt text = replace_ws text.
Proof.
  intros H. rewrite index_excerpt_spec. unfold Spec.excerpt_of_normalized.
  destruct (decide _); [reflexivity|lia].
Qed.

(** The two examples of the specification, on src/index.js: 200 identical
    characters (other than whitespace) give 158, and a text of 50 characters
    without whitespace is returned as it is. *)
Lemma index_excerpt_200 (c : cu) :
  is_space c = false ->
  Index.excerpt (repeat c 200) = repeat c 157 ++ [ellipsis]
  /\ length (Index.excerpt (repeat c 200)) = 158%nat.
Proof.
  intros Hc.
  assert (Hn : replace_ws (repeat c 200) = repeat c 200).
  { apply collapse_no_space. apply Forall_forall. intros x Hx.
    apply list_elem_of_In, repeat_spec in Hx. now subst. }
  destruct (index_excerpt_long (repeat c 200)) as [H1 H2].
  { rewrite Hn, repeat_length. lia. }
  split; [|exact H2]. rewrite H1, Hn. f_equal.
Qed.

Lemma index_excerpt_50 (text : jstr) :
  length text = 50%nat -> Forall (fun c => is_space c = false) text ->
  Index.excerpt text = text.
Proof.
  intros Hl Hs.
  assert (Hn : replace_ws text = text) by now apply collapse_no_space.
  rewrite index_excerpt_short; rewrite Hn; [reflexivity | lia].
Qed.

(** src/api/telegram.js keeps the first 160 characters and adds nothing. *)
Lemma telegram_excerpt_eq (text : jstr) :
  Telegram.excerpt text = take 160 (replace_ws text).
Proof. reflexivity. Qed.

(** C4. The excerpt step of src/api/telegram.js on a text of 200 characters,
    be it 200 times the letter a or a message that the keyword handler lets
    through, "attendance " followed by 189 times the letter a: the result is
    the first 160 characters of the text, 160 in all and without an
    ellipsis, where the specification (and the excerpt step of src/index.js,
    on the same input) gives the first 157 followed by the ellipsis, 158 in
    all. *)
Theorem C4_telegram_excerpt_has_no_ellipsis :
  let same := repeat 97%N 200 in
  let text := lit "attendance " ++ repeat 97%N 189 in
  (Telegram.excerpt same = repeat 97%N 160
   /\ Index.excerpt same = repeat 97%N 157 ++ [ellipsis])
  /\ length text = 200%nat
  /\ Telegram.keyword_hit text = true
  /\ Telegram.excerpt text = take 160 text
  /\ length (Telegram.excerpt text) = 160%nat
  /\ Telegram.excerpt text <> Spec.excerpt_of_normalized (Text.replace_ws text)
  /\ Index.excerpt text = take 157 text ++ [ellipsis].
Proof.
  cbv zeta.
  split; [split; vm_compute; reflexivity|].
  do 4 (split; [vm_compute; reflexivity|]).
  split; [|vm_compute; reflexivity].
  intros H. apply (f_equal length) in H. vm_compute in H. discriminate.
Qed.

(** The same through the keyword handler of src/api/telegram.js: subscriber
    7 is sent the preview with the first 160 characters of the message. *)
Example telegram_handler_excerpt :
  trace (snd (Telegram.on_message Scenario.calm Scenario.group_ctx Scenario.both_lists_7))
  = [EvKv Smembers "subs:attendance" None true;
     EvSend 7
       (Telegram.bell ++ lit " " ++ Telegram.quote ++ lit "Attendance" ++ Telegram.quote
        ++ lit " mentioned" ++ Telegram.newline
        ++ lit "In Study group: " ++ Telegram.quote
        ++ take 160 Scenario.long_text ++ Telegram.quote)
       (Some [[ {| btext := lit "Open message";
                   burl := VStr (lit "https://t.me/c/1234567890/42") |} ]])
       None;
     EvSleep 50].
Proof. vm_compute. reflexivity. Qed.

End Excerpt.

(** ** Keyword detector *)

Section Keyword.

Import Text Regex.

Ltac b2p :=
  rewrite ?orb_true_iff, ?andb_true_iff, ?orb_false_iff, ?andb_false_iff,
    ?N.leb_le, ?N.eqb_eq, ?N.leb_gt, ?N.eqb_neq in *.

Lemma space_is_non_word (c : cu) : is_space c = true -> is_word c = false.
Proof. unfold is_space, is_word. intros H. b2p. lia. Qed.

(** Against a lower-case ASCII letter of the pattern, equality after
    canonicalisation is equality after lowering the capitals. *)
Lemma canonicalize_lower (x c : cu) :
  (97 <= c <= 122)%N -> canonicalize x = canonicalize c <-> Spec.lower x = c.
Proof.
  intros Hc. unfold canonicalize, Spec.lower.
  destruct ((97 <=? x) && (x <=? 122))%N eqn:H1;
    destruct ((97 <=? c) && (c <=? 122))%N eqn:H2;
    destruct ((65 <=? x) && (x <=? 90))%N eqn:H3; b2p; lia.
Qed.

Lemma letter_not_space (x c : cu) :
  (97 <= c <= 122)%N -> Spec.lower x = c -> is_space x = false.
Proof.
  unfold Spec.lower, is_space. intros Hc H.
  destruct ((65 <=? x) && (x <=? 90))%N eqn:H3; b2p; lia.
Qed.

Lemma rmatch_rlit (w : jstr) :
  forall pos s k,
    rmatch (rlit w) pos s k = true
    <-> exists x rest, s = x ++ rest /\ Forall2 ci x w
                       /\ k (pos + length w)%nat rest = true.
Proof.
  induction w as [|c w IH]; intros pos s k; cbn [rlit rmatch length].
  - rewrite Nat.add_0_r. split.
    + intros H. exists [], s. repeat split; auto; constructor.
    + intros (x & rest & -> & Hx & Hk). inversion Hx. exact Hk.
  - destruct s as [|a s].
    + split; [discriminate|].
      intros (x & rest & Hs & Hx & _). inversion Hx; subst. discriminate.
    + rewrite andb_true_iff, IH, N.eqb_eq. split.
      * intros (Hac & x & rest & -> & Hx & Hk).
        exists (a :: x), rest.
        split; [reflexivity|]. split; [constructor; auto|].
        now replace (pos + S (length w))%nat with (S pos + length w)%nat by lia.
      * intros (x & rest & Hs & Hx & Hk). inversion Hx as [|a' c' x' w' Hac Hx']; subst.
        injection Hs as -> ->. split; [exact Hac|].
        exists x', rest.
        split; [reflexivity|]. split; [exact Hx'|].
        now replace (S pos + length w)%nat with (pos + S (length w))%nat by lia.
Qed.

Lemma search_spec (r : regex) (s : jstr) :
  forall pos,
    search r pos s = true
    <-> exists pre s', s = pre ++ s'
                       /\ rmatch r (pos + length pre)%nat s' (fun _ _ => true) = true.
Proof.
  induction s as [|a s IH]; intros pos; cbn [search]; rewrite orb_true_iff.
  - split.
    + intros [H|H]; [|discriminate]. exists [], []. cbn. now rewrite Nat.add_0_r.
    + intros (pre & s' & Hs & H). symmetry in Hs. apply app_eq_nil in Hs as [-> ->].
      cbn in H. rewrite Nat.add_0_r in H. now left.
  - rewrite IH. split.
    + intros [H|(pre & s' & -> & H)].
      * exists [], (a :: s). cbn. now rewrite Nat.add_0_r.
      * exists (a :: pre), s'. split; [reflexivity|]. cbn [length].
        now replace (pos + S (length pre))%nat with (S pos + length pre)%nat by lia.
    + intros (pre & s' & Hs & H). destruct pre as [|b pre].
      * cbn in Hs. subst s'. cbn in H. rewrite Nat.add_0_r in H. now left.
      * injection Hs as -> ->. right. exists pre, s'. split; [reflexivity|].
        cbn [length] in H.
        now replace (S pos + length pre)%nat with (pos + S (length pre))%nat by lia.
Qed.

Lemma ci_trigger_word (x : jstr) :
  Forall2 ci x Spec.trigger_word <-> Spec.is_trigger_word x.
Proof.
  unfold Spec.is_trigger_word.
  assert (Hl : Forall (fun c => (97 <= c <= 122)%N) Spec.trigger_word).
  { unfold Spec.trigger_word. cbn. repeat constructor; lia. }
  revert x. induction Hl as [|c l Hc _ IH]; intros x.
  - split.
    + intros H. inversion H. reflexivity.
    + intros H. destruct x; [constructor|discriminate].
  - split.
    + intros H. inversion H as [|a c' x' l' Hac Hx]; subst. cbn. f_equal.
      * now apply canonicalize_lower.
      * now apply IH.
    + intros H. destruct x as [|a x]; [discriminate|]. cbn in H. injection H as Ha Hx.
      constructor; [now apply canonicalize_lower | now apply IH].
Qed.

Lemma right_bound (rest : jstr) (p : nat) :
  rmatch (RAlt RNonWord REol) p rest (fun _ _ => true) = true
  <-> rest = [] \/ exists c q, rest = c :: q /\ Spec.non_word c.
Proof.
  unfold Spec.non_word. destruct rest as [|c q]; cbn.
  - split; auto.
  - rewrite orb_false_r, andb_true_r, negb_true_iff. split.
    + intros H. right. eauto.
    + intros [H|(c' & q' & H & Hc)]; [discriminate|]. now injection H as -> ->.
Qed.

(** The part of the pattern after the left boundary. *)
Lemma word_then_bound (p : nat) (t : jstr) :
  rmatch (RSeq (rlit (lit "attendance")) (RAlt RNonWord REol)) p t (fun _ _ => true) = true
  <-> exists x rest, t = x ++ rest /\ Spec.is_trigger_word x
                     /\ (rest = [] \/ exists c q, rest = c :: q /\ Spec.non_word c).
Proof.
  change (rmatch (RSeq (rlit (lit "attendance")) (RAlt RNonWord REol)) p t (fun _ _ => true))
    with (rmatch (rlit (lit "attendance")) p t
            (fun p' s' => rmatch (RAlt RNonWord REol) p' s' (fun _ _ => true))).
  rewrite rmatch_rlit. split; intros (x & rest & Ht & Hx & Hr); exists x, rest.
  - apply right_bound in Hr. apply ci_trigger_word in Hx. auto.
  - split; [exact Ht|]. split; [now apply ci_trigger_word | now apply right_bound].
Qed.

(** The pattern of the source matches exactly the texts that contain the
    trigger word bounded as the specification says. *)
Lemma KEYWORD_test_spec (s : jstr) :
  test Telegram.KEYWORD s = true <-> Spec.bounded_trigger s.
Proof.
  unfold test, Spec.bounded_trigger. rewrite search_spec. cbn [Nat.add].
  unfold Telegram.KEYWORD.
  pose proof word_then_bound as Htl.
  remember (RSeq (rlit (lit "attendance")) (RAlt RNonWord REol)) as tl eqn:Etl.
  clear Etl. split.
  - intros (pre & s' & -> & H). cbn [rmatch] in H.
    apply orb_true_iff in H as [H|H].
    + apply andb_true_iff in H as [Hp H]. apply Nat.eqb_eq in Hp.
      apply length_zero_iff_nil in Hp. subst pre.
      apply Htl in H as (x & rest & -> & Hx & Hr).
      exists [], x, rest. auto.
    + destruct s' as [|c s']; [discriminate|].
      apply andb_true_iff in H as [Hc H]. apply negb_true_iff in Hc.
      apply Htl in H as (x & rest & -> & Hx & Hr).
      exists (pre ++ [c]), x, rest. split; [now rewrite <- app_assoc|].
      split; [exact Hx|]. split; [right; eauto | exact Hr].
  - intros (pre & w & post & -> & Hw & Hpre & Hpost).
    assert (Htail : forall p, rmatch tl p (w ++ post) (fun _ _ => true) = true).
    { intros p. apply Htl. exists w, post. auto. }
    destruct Hpre as [->|(p & c & -> & Hc)].
    + exists [], (w ++ post). split; [reflexivity|]. cbn [rmatch length Nat.eqb andb].
      now rewrite Htail.
    + exists p, (c :: w ++ post). split; [now rewrite <- app_assoc|].
      cbn [rmatch]. apply orb_true_iff. right.
      apply andb_true_iff. split; [now apply negb_true_iff|]. apply Htail.
Qed.

(** *** [trim] *)

Lemma trim_start_split (s : jstr) :
  exists lead, s = lead ++ trim_start s
               /\ Forall (fun c => is_space c = true) lead
               /\ (trim_start s = [] \/ exists c r, trim_start s = c :: r /\ is_space c = false).
Proof.
  induction s as [|c s (lead & Hs & Hl & Hh)]; cbn [trim_start].
  - exists []. auto.
  - destruct (is_space c) eqn:Hc.
    + exists (c :: lead). split; [cbn; congruence|]. split; [constructor; auto|exact Hh].
    + exists []. split; [reflexivity|]. split; [constructor|right; eauto].
Qed.

Lemma trim_start_core (lead core : jstr) :
  Forall (fun c => is_space c = true) lead ->
  (core = [] \/ exists c r, core = c :: r /\ is_space c = false) ->
  trim_start (lead ++ core) = core.
Proof.
  intros Hl Hc. induction Hl as [|a lead Ha _ IH]; cbn [app trim_start].
  - destruct Hc as [->|(c & r & -> & Hc)]; [reflexivity|]. cbn. now rewrite Hc.
  - now rewrite Ha.
Qed.

Lemma trim_end_split (s : jstr) :
  exists trail, s = trim_end s ++ trail
                /\ Forall (fun c => is_space c = true) trail
                /\ (trim_end s = [] \/ exists r c, trim_end s = r ++ [c] /\ is_space c = false).
Proof.
  unfold trim_end. destruct (trim_start_split (rev s)) as (lead & Hs & Hl & Hh).
  exists (rev lead). split.
  - rewrite <- rev_app_distr, <- Hs. now rewrite rev_involutive.
  - split; [now apply Forall_rev|].
    destruct Hh as [->|(c & r & -> & Hc)]; [now left|].
    right. exists (rev r), c. split; [reflexivity|exact Hc].
Qed.

Lemma trim_end_core (core trail : jstr) :
  Forall (fun c => is_space c = true) trail ->
  (core = [] \/ exists r c, core = r ++ [c] /\ is_space c = false) ->
  trim_end (core ++ trail) = core.
Proof.
  intros Hl Hc. unfold trim_end. rewrite rev_app_distr.
  rewrite trim_start_core.
  - apply rev_involutive.
  - now apply Forall_rev.
  - destruct Hc as [->|(r & c & -> & Hc)]; [now left|].
    right. exists c, (rev r). split; [|exact Hc]. now rewrite rev_app_distr.
Qed.

(** [trim] strips a run of whitespace at each end, and nothing else. *)
Lemma trim_split (s : jstr) :
  exists lead trail, s = lead ++ trim s ++ trail
                     /\ Forall (fun c => is_space c = true) lead
                     /\ Forall (fun c => is_space c = true) trail.
Proof.
  unfold trim. destruct (trim_start_split s) as (lead & Hs & Hl & _).
  destruct (trim_end_split (trim_start s)) as (trail & Ht & Htl & _).
  exists lead, trail. split; [|auto]. now rewrite <- Ht.
Qed.

Lemma trim_core (lead core trail : jstr) :
  Forall (fun c => is_space c = true) lead ->
  Forall (fun c => is_space c = true) trail ->
  (exists c r, core = c :: r /\ is_space c = false) ->
  (exists r c, core = r ++ [c] /\ is_space c = false) ->
  trim (lead ++ core ++ trail) = core.
Proof.
  intros Hl Ht (c & r & Hc & Hcs) Hlast. unfold trim.
  rewrite trim_start_core; auto.
  - apply trim_end_core; auto.
  - right. exists c, (r ++ trail). split; [now rewrite Hc|exact Hcs].
Qed.

(** The trigger word starts and ends with a letter. *)
Lemma trigger_word_ends (w : jstr) :
  Spec.is_trigger_word w ->
  (exists c r, w = c :: r /\ is_space c = false)
  /\ (exists r c, w = r ++ [c] /\ is_space c = false).
Proof.
  unfold Spec.is_trigger_word, Spec.trigger_word. intros H. split.
  - destruct w as [|c r]; [discriminate|]. cbn in H. injection H as Hc _.
    exists c, r. split; [reflexivity|]. apply (letter_not_space c 97%N); [lia|exact Hc].
  - apply (f_equal (@rev _)) in H. rewrite <- map_rev in H.
    destruct (rev w) as [|c r] eqn:Hw; [discriminate|]. cbn in H. injection H as Hc _.
    exists (rev r), c. split.
    + rewrite <- (rev_involutive w), Hw. reflexivity.
    + apply (letter_not_space c 101%N); [lia|exact Hc].
Qed.

Lemma last_of_suffix (l1 l2 p : jstr) (c : cu) :
  l1 ++ l2 = p ++ [c] -> l2 <> [] -> exists p', l2 = p' ++ [c].
Proof.
  intros H Hn. destruct l2 as [|x l2 _] using rev_ind; [congruence|].
  rewrite app_assoc in H. apply app_inj_tail in H as [_ ->]. eauto.
Qed.

Lemma head_of_prefix (l1 l2 q : jstr) (c : cu) :
  l1 ++ l2 = c :: q -> l1 <> [] -> exists q', l1 = c :: q'.
Proof.
  intros H Hn. destruct l1 as [|x l1]; [congruence|]. injection H as -> _. eauto.
Qed.

(** Trimming neither adds nor removes a bounded occurrence. *)
Lemma bounded_trigger_trim (s : jstr) :
  Spec.bounded_trigger (trim s) <-> Spec.bounded_trigger s.
Proof.
  unfold Spec.bounded_trigger. split.
  - intros (pre & w & post & Ht & Hw & Hpre & Hpost).
    destruct (trim_split s) as (lead & trail & Hs & Hl & Htl).
    exists (lead ++ pre), w, (post ++ trail).
    split; [rewrite Hs, Ht; now rewrite <- !app_assoc|].
    split; [exact Hw|]. split.
    + destruct Hpre as [->|(p & c & -> & Hc)].
      * rewrite app_nil_r. destruct lead as [|c lead _] using rev_ind; [now left|].
        right. exists lead, c. split; [reflexivity|].
        apply Forall_app in Hl as [_ Hc]. inversion Hc; subst.
        now apply space_is_non_word.
      * right. exists (lead ++ p), c. split; [now rewrite app_assoc|exact Hc].
    + destruct Hpost as [->|(c & q & -> & Hc)].
      * cbn. destruct trail as [|c trail]; [now left|].
        right. exists c, trail. split; [reflexivity|].
        inversion Htl; subst. now apply space_is_non_word.
      * right. exists c, (q ++ trail). split; [reflexivity|exact Hc].
  - intros (pre & w & post & -> & Hw & Hpre & Hpost).
    destruct (trim_start_split pre) as (lead & Hp & Hl & Hph).
    destruct (trim_end_split post) as (trail & Hq & Htl & Hqh).
    destruct (trigger_word_ends w Hw) as [(a & wr & Hwa & Ha) (wl & z & Hwz & Hz)].
    exists (trim_start pre), w, (trim_end post).
    split; [|split; [exact Hw|split]].
    + rewrite Hp at 1. rewrite Hq at 1.
      replace (((lead ++ trim_start pre) ++ w ++ trim_end post ++ trail))
        with (lead ++ (trim_start pre ++ w ++ trim_end post) ++ trail)
        by now rewrite <- !app_assoc.
      apply trim_core; auto.
      * destruct Hph as [->|(c & r & -> & Hc)].
        -- exists a, (wr ++ trim_end post). split; [now rewrite Hwa|exact Ha].
        -- exists c, (r ++ w ++ trim_end post). split; [reflexivity|exact Hc].
      * destruct Hqh as [->|(r & c & -> & Hc)].
        -- exists (trim_start pre ++ wl), z. split; [|exact Hz].
           rewrite app_nil_r, Hwz. now rewrite app_assoc.
        -- exists (trim_start pre ++ w ++ r), c. split; [|exact Hc].
           now rewrite <- !app_assoc.
    + destruct (trim_start pre) as [|x t] eqn:Et; [now left|]. right.
      destruct Hpre as [->|(p & c & Hpc & Hc)]; [discriminate|].
      rewrite Hpc in Hp. symmetry in Hp.
      apply last_of_suffix in Hp as (p' & Hp'); [|discriminate].
      exists p', c. split; [exact Hp'|exact Hc].
    + destruct (trim_end post) as [|x t] eqn:Et; [now left|]. right.
      destruct Hpost as [->|(c & q & Hpc & Hc)].
      * unfold trim_end in Et. discriminate.
      * rewrite Hpc in Hq. symmetry in Hq.
        apply head_of_prefix in Hq as (q' & Hq'); [|discriminate].
        exists c, q'. split; [exact Hq'|exact Hc].
Qed.

Lemma keyword_hit_test (t : jstr) :
  Telegram.keyword_hit t = test Telegram.KEYWORD t.
Proof.
  unfold Telegram.keyword_hit. destruct t; reflexivity.
Qed.

(** The message update that carries this text and no caption. *)
Example hit_mixed_case :
  Telegram.keyword_hit
    (Telegram.extractText
       (Some {| Telegram.text := Some (lit "  Please mark ATTENDANCE, now ");
                Telegram.caption := None; Telegram.message_id := VNum 7 |})) = true
  /\ Telegram.keyword_hit (lit "attendances today") = false
  /\ Telegram.keyword_hit (lit "pre_attendance") = false.
Proof. repeat split; vm_compute; reflexivity. Qed.

(** C8. The keyword detector of src/api/telegram.js, the test
    [text && KEYWORD.test(text)] on the extracted text, answers true exactly
    when the content of the message contains the trigger word "attendance",
    compared case-insensitively, with a non-word character or the edge of the
    text on each side. This holds for every raw text before trimming and for
    every message (its text, else its caption, else the empty string). The
    empty string never matches, and neither does a message without text and
    caption, nor an absent message. *)
Theorem C8_keyword_detector :
  (forall raw : jstr,
      Telegram.keyword_hit (trim raw) = true <-> Spec.bounded_trigger raw)
  /\ (forall msg : option Telegram.message,
        Telegram.keyword_hit (Telegram.extractText msg) = true
        <-> Spec.bounded_trigger
              (Telegram.str_or (msg ≫= Telegram.text)
                 (Telegram.str_or (msg ≫= Telegram.caption) [])))
  /\ Telegram.keyword_hit [] = false
  /\ Telegram.keyword_hit (Telegram.extractText None) = false
  /\ (forall mid,
        Telegram.keyword_hit
          (Telegram.extractText
             (Some {| Telegram.text := None; Telegram.caption := None;
                      Telegram.message_id := mid |})) = false).
Proof.
  assert (Hraw : forall raw : jstr,
             Telegram.keyword_hit (trim raw) = true <-> Spec.bounded_trigger raw).
  { intros raw. rewrite keyword_hit_test, KEYWORD_test_spec. apply bounded_trigger_trim. }
  split; [exact Hraw|]. split; [intros msg; apply Hraw|].
  repeat split; intros; reflexivity.
Qed.

End Keyword.

(** ** Store, gateway and trace *)

Section Effects.

Import Trace.

Variable E : env.

Lemma since_app (w w' : world) (d : list event) :
  trace w' = trace w ++ d -> since w w' = d.
Proof. unfold since. intros ->. apply drop_app_length. Qed.

Lemma uint_units_inj (d1 d2 : Decimal.uint) :
  uint_units d1 = uint_units d2 -> d1 = d2.
Proof.
  revert d2. induction d1; destruct d2; intros H; try reflexivity;
    unfold uint_units, digit_unit in H; fold uint_units in H; cbn in H;
    try discriminate H; injection H as H; f_equal; auto.
Qed.

Lemma Z_units_403 (z : Z) : Z_units z = lit "403" <-> z = 403.
Proof.
  split; [|intros ->; reflexivity].
  unfold Z_units. destruct (Z.to_int z) as [d|d] eqn:Hz; intros H.
  - change (lit "403") with (uint_units (D4 (D0 (D3 Nil)))) in H.
    apply uint_units_inj in H. subst d.
    apply (f_equal Z.of_int) in Hz. rewrite DecimalZ.of_to in Hz. exact Hz.
  - discriminate H.
Qed.

(** The test [String(code) === '403'] of the catch blocks holds exactly for
    a gateway answer whose error code is 403. *)
Lemma is_403_iff (e : js_error) :
  is_403 (error_code_of e) = true <-> rejected_with_403 e.
Proof.
  unfold is_403, error_code_of, rejected_with_403.
  rewrite bool_decide_eq_true. destruct (response e) as [r|]; cbn [render].
  - rewrite Z_units_403. split; [eauto|]. intros (r' & Hr & Hc). now injection Hr as ->.
  - split; [discriminate|]. intros (r' & Hr & _). discriminate.
Qed.

Lemma elem_of_srem_in (key key' : string) (m u : Z) (s : gmap string (gset Z)) :
  u ∈ members (srem_in key m s) key' <-> u ∈ members s key' /\ ~ (key' = key /\ u = m).
Proof.
  unfold srem_in, members. destruct (decide (key = key')) as [->|Hne].
  - rewrite lookup_insert_eq. cbn. rewrite elem_of_difference, elem_of_singleton.
    intuition congruence.
  - rewrite lookup_insert_ne by exact Hne. split; [intros H; split; [exact H|]|tauto].
    intros [Hk _]. congruence.
Qed.

Lemma elem_of_sadd_in (key key' : string) (m u : Z) (s : gmap string (gset Z)) :
  u ∈ members (sadd_in key m s) key' <-> u ∈ members s key' \/ (key' = key /\ u = m).
Proof.
  unfold sadd_in, members. destruct (decide (key = key')) as [->|Hne].
  - rewrite lookup_insert_eq. cbn. rewrite elem_of_union, elem_of_singleton.
    intuition congruence.
  - rewrite lookup_insert_ne by exact Hne. split; [tauto|].
    intros [H|[Hk _]]; [exact H|congruence].
Qed.

Lemma ex_comm_r {A} (P : Prop) (Q : A -> Prop) :
  P /\ (exists d, Q d) -> exists d, P /\ Q d.
Proof. intros [HP [d HQ]]. eauto. Qed.

Lemma ex_comm_r2 {A B} (P : Prop) (Q : A -> B -> Prop) :
  (exists a b, Q a b) /\ P -> exists a b, Q a b /\ P.
Proof. intros [(a & b & HQ) HP]. eauto. Qed.

(** *** The adapter of src/api/telegram.js, call by call *)

Lemma setSub_eq (key : string) (uid : Z) (enabled : bool) (w : world) :
  Telegram.setSub E key uid enabled w =
  match kv_fails E (n_kv w) with
  | None =>
      (Ok tt,
       emit (EvKv (if enabled then Sadd else Srem) key (Some uid) true)
         (set_store
            (if enabled then sadd_in key uid (store w) else srem_in key uid (store w))
            (tick_kv w)))
  | Some e =>
      (Ok tt,
       emit (EvLog "kv subscription error" [VStr (lit key)])
         (emit (EvKv (if enabled then Sadd else Srem) key (Some uid) false) (tick_kv w)))
  end.
Proof.
  unfold Telegram.setSub, try_catch, kv_sadd, kv_srem, kv_call, console_error.
  destruct enabled; destruct (kv_fails E (n_kv w)); reflexivity.
Qed.

Lemma isSub_eq (key : string) (uid : Z) (w : world) :
  Telegram.isSub E key uid w =
  match kv_fails E (n_kv w) with
  | None =>
      (Ok (bool_decide (uid ∈ members (store w) key)),
       emit (EvKv Sismember key (Some uid) true) (set_store (store w) (tick_kv w)))
  | Some e =>
      (Ok false,
       emit (EvLog "kv.sismember error" [VStr (lit key)])
         (emit (EvKv Sismember key (Some uid) false) (tick_kv w)))
  end.
Proof.
  unfold Telegram.isSub, try_catch, bind, ret, kv_sismember, kv_call, console_error.
  destruct (kv_fails E (n_kv w)); [reflexivity|].
  cbn. destruct (bool_decide _); reflexivity.
Qed.

Lemma listSubs_eq (key : string) (w : world) :
  Telegram.listSubs E key w =
  match kv_fails E (n_kv w) with
  | None =>
      (Ok (elements (members (store w) key)),
       emit (EvKv Smembers key None true) (set_store (store w) (tick_kv w)))
  | Some e =>
      (Ok [],
       emit (EvLog "kv.smembers error" [VStr (lit key)])
         (emit (EvKv Smembers key None false) (tick_kv w)))
  end.
Proof.
  unfold Telegram.listSubs, try_catch, bind, ret, kv_smembers, kv_call, console_error.
  destruct (kv_fails E (n_kv w)); reflexivity.
Qed.

Lemma removeFromAllLists_eq (uid : Z) (w : world) :
  Telegram.removeFromAllLists E uid w =
  (Ok tt,
   snd (Telegram.setSub E Telegram.SUBS_CLASS_KEY uid false
          (snd (Telegram.setSub E Telegram.SUBS_ATTENDANCE_KEY uid false w)))).
Proof.
  unfold Telegram.removeFromAllLists, bind, promise_all2, ret.
  rewrite (setSub_eq Telegram.SUBS_ATTENDANCE_KEY).
  destruct (kv_fails E (n_kv w)); cbn [snd];
    rewrite (setSub_eq Telegram.SUBS_CLASS_KEY);
    match goal with |- context [kv_fails E ?n] => destruct (kv_fails E n) end;
    reflexivity.
Qed.

(** *** The keyword handlers, up to the fan-out *)

(** A message that the keyword test lets through is there. *)
Lemma keyword_hit_message (msg : option Telegram.message) :
  Telegram.keyword_hit (Telegram.extractText msg) = true -> exists m, msg = Some m.
Proof.
  destruct msg as [m|]; [eauto|]. intros H. discriminate H.
Qed.

Lemma group_chat_title (c : Telegram.ctx) :
  Telegram.is_group c = true ->
  get_prop (Telegram.chat c) "title" = Ok (opt_prop (Telegram.chat c) "title").
Proof.
  intros Hg.
  destruct (own_prop_cases (Telegram.chat c) "title") as [(Hc & _)|(H & _)]; [|exact H].
  unfold Telegram.is_group in Hg. destruct Hc as [Hc|Hc]; rewrite Hc in Hg; discriminate.
Qed.

(** [x || 'literal'] converts when [x] does. *)
Lemma stringifies_or (v : jsval) (s : jstr) :
  stringifies (js_or v (VStr s)) = stringifies v.
Proof.
  unfold js_or. destruct v as [| |[|]|z|[|c t]|ps]; cbn [truthy]; try reflexivity.
  destruct (negb (z =? 0)); reflexivity.
Qed.

(** The keyword handler of src/api/telegram.js on a group message that
    passes the keyword test: the link and the name of the group are
    rendered, either of which may throw, before the store is read. *)
Lemma telegram_on_message_eq (c : Telegram.ctx) (m : Telegram.message) (w : world) :
  Telegram.is_group c = true ->
  Telegram.keyword_hit (Telegram.extractText (Telegram.ctx_message c)) = true ->
  Telegram.ctx_message c = Some m ->
  Telegram.on_message E c w =
  match TelegramLink.buildLink (Telegram.chat c) (Telegram.message_id m) with
  | Thrown e => (Thrown e, w)
  | Ok link =>
      match ToString (js_or (opt_prop (Telegram.chat c) "title") (VStr (lit "a group"))) with
      | Thrown e => (Thrown e, w)
      | Ok group =>
          (subs <- Telegram.listSubs E Telegram.SUBS_ATTENDANCE_KEY ;;
           Telegram.notifyAllUsers E subs
             (lit "In " ++ group ++ lit ": " ++ Telegram.quote
              ++ Telegram.excerpt (Telegram.extractText (Some m)) ++ Telegram.quote)
             link) w
      end
  end.
Proof.
  intros Hg Hk Hm. unfold Telegram.on_message. rewrite Hg, Hk. cbn [negb]. rewrite Hm.
  unfold bind at 1, lift. rewrite (group_chat_title c Hg).
  unfold bind at 1, ret. unfold bind at 1, lift.
  destruct (TelegramLink.buildLink _ _) as [link|e]; [|reflexivity].
  unfold bind at 1. destruct (ToString _) as [group|e]; reflexivity.
Qed.

(** The same for the keyword handler of src/index.js. *)
Lemma index_on_message_eq (c : Telegram.ctx) (m : Telegram.message) (text : jstr)
    (w : world) :
  Telegram.is_group c = true ->
  Telegram.ctx_message c = Some m ->
  IndexBot.extractText (Some m) = Ok text ->
  truthy (VStr text) = true ->
  Regex.test Index.KEYWORD_REGEX text = true ->
  IndexBot.on_message E c w =
  match IndexLink.buildMessageLink (Telegram.chat c) (Telegram.message_id m) with
  | Thrown e => (Thrown e, w)
  | Ok link =>
      match ToString (js_or (opt_prop (Telegram.chat c) "title") (VStr (lit "a group"))) with
      | Thrown e => (Thrown e, w)
      | Ok group =>
          Index.notifyAllUsers E
            (lit "In " ++ group ++ lit ": " ++ Index.left_quote
             ++ Index.excerpt text ++ Index.right_quote)
            link w
      end
  end.
Proof.
  intros Hg Hm Hx Ht Hk. unfold IndexBot.on_message. fold (Telegram.is_group c).
  rewrite Hg, Hm. cbn [negb]. rewrite Hx. unfold bind at 1, lift. rewrite Ht, Hk.
  cbn [negb]. unfold bind at 1. rewrite (group_chat_title c Hg).
  unfold bind at 1, ret. unfold bind at 1.
  destruct (IndexLink.buildMessageLink _ _) as [link|e]; [|reflexivity].
  unfold bind at 1. destruct (ToString _) as [group|e]; reflexivity.
Qed.

(** An update that renders: the link resolvers and the name of the group
    complete. *)
Lemma renders_spec (c : Telegram.ctx) (m : Telegram.message) :
  Facts.renders c = true -> Telegram.ctx_message c = Some m ->
  stringifies (opt_prop (Telegram.chat c) "username") = true
  /\ stringifies (opt_prop (Telegram.chat c) "id") = true
  /\ stringifies (Telegram.message_id m) = true
  /\ ToString (js_or (opt_prop (Telegram.chat c) "title") (VStr (lit "a group")))
     = Ok (render (js_or (opt_prop (Telegram.chat c) "title") (VStr (lit "a group")))).
Proof.
  unfold Facts.renders, Facts.rendered. intros H Hm. rewrite Hm in H.
  cbn [forallb] in H. rewrite !andb_true_iff in H.
  destruct H as (Ht & Hu & Hi & Hmid & _).
  do 3 (split; [assumption|]). apply ToString_stringifies. now rewrite stringifies_or.
Qed.

Ltac in_cases H :=
  cbn [In] in H;
  repeat (destruct H as [H|H]; [try discriminate H; try (inversion H; subst; clear H)|]);
  try contradiction.

Ltac world_simpl :=
  cbn [store users trace n_send n_kv n_ctx emit set_store set_users
       tick_send tick_kv tick_ctx fst snd] in *.

Lemma telegram_removal_facts (uid : Z) (w : world) :
  exists w' d, Telegram.removeFromAllLists E uid w = (Ok tt, w')
               /\ trace w' = trace w ++ d
               /\ removal_facts E uid w w' d
               /\ users w' = users w /\ n_send w' = n_send w /\ n_ctx w' = n_ctx w.
Proof.
  rewrite removeFromAllLists_eq. eexists. apply ex_comm_r. split; [reflexivity|].
  rewrite (setSub_eq Telegram.SUBS_ATTENDANCE_KEY).
  destruct (kv_fails E (n_kv w)) as [e1|] eqn:F1; cbn [snd];
    rewrite (setSub_eq Telegram.SUBS_CLASS_KEY); world_simpl;
    match goal with |- context [kv_fails E ?n] =>
      destruct (kv_fails E n) as [e2|] eqn:F2 end;
    world_simpl; rewrite <- ?app_assoc; cbn [app];
    (eexists; split; [reflexivity|]; split; [|auto]);
    (split; world_simpl;
     [ repeat constructor
     | split; eexists; cbn [In]; eauto 6
     | intros op key mem ok H; in_cases H; auto
     | intros key H; in_cases H; rewrite ?elem_of_srem_in; intuition congruence
     | intros key u; rewrite ?elem_of_srem_in; try tauto
     | intros key u Hu; rewrite ?elem_of_srem_in; cbn [In]
     | intros op key mem H; in_cases H; eauto ]).
  all: unfold Telegram.SUBS_ATTENDANCE_KEY, Telegram.SUBS_CLASS_KEY.
  all: destruct (decide (u = uid)) as [->|?]; [|left; tauto].
  all: destruct (decide (key = "subs:attendance"%string)) as [->|?];
    [|destruct (decide (key = "subs:class"%string)) as [->|?]].
  all: first [ left; intuition congruence | right; split; [reflexivity|]; auto 10 ].
Qed.

Lemma classreminders_removal_facts (uid : Z) (w : world) :
  exists w' d, ClassReminders.removeFromAllLists E uid w = (Ok tt, w')
               /\ trace w' = trace w ++ d
               /\ removal_facts E uid w w' d
               /\ users w' = users w /\ n_send w' = n_send w /\ n_ctx w' = n_ctx w.
Proof.
  unfold ClassReminders.removeFromAllLists, try_catch, bind, promise_all2,
    kv_srem, kv_call, console_error, ret.
  destruct (kv_fails E (n_kv w)) as [e1|] eqn:F1; world_simpl;
    match goal with |- context [kv_fails E ?n] =>
      destruct (kv_fails E n) as [e2|] eqn:F2 end;
    world_simpl; rewrite <- ?app_assoc; cbn [app];
    (eexists; eexists; split; [reflexivity|]; world_simpl;
     rewrite <- ?app_assoc; cbn [app]; split; [reflexivity|]; split; [|auto]);
    (split; world_simpl;
     [ repeat constructor
     | split; eexists; cbn [In]; eauto 6
     | intros op key mem ok H; in_cases H; auto
     | intros key H; in_cases H; rewrite ?elem_of_srem_in; intuition congruence
     | intros key u; rewrite ?elem_of_srem_in; try tauto
     | intros key u Hu; rewrite ?elem_of_srem_in; cbn [In]
     | intros op key mem H; in_cases H; eauto ]).
  all: unfold ClassReminders.SUBS_ATTENDANCE_KEY, ClassReminders.SUBS_CLASS_KEY.
  all: destruct (decide (u = uid)) as [->|?]; [|left; tauto].
  all: destruct (decide (key = "subs:attendance"%string)) as [->|?];
    [|destruct (decide (key = "subs:class"%string)) as [->|?]].
  all: first [ left; intuition congruence | right; split; [reflexivity|]; auto 10 ].
Qed.

(** *** Composing the facts of a run *)

Lemma blocked_in_app (d1 d2 : list event) (u : Z) :
  blocked_in (d1 ++ d2) u <-> blocked_in d1 u \/ blocked_in d2 u.
Proof.
  unfold blocked_in. split.
  - intros (t & m & e & Hin & H). apply in_app_or in Hin as [Hin|Hin]; [left|right]; eauto.
  - intros [(t & m & e & Hin & H)|(t & m & e & Hin & H)];
      exists t, m, e; (split; [apply in_or_app; auto|exact H]).
Qed.

Lemma store_facts_refl (w : world) : store_facts E w w [].
Proof.
  split; try (intros; contradiction); auto.
  intros u (t & m & e & [] & _).
Qed.

Lemma store_facts_trans (w w1 w2 : world) (d1 d2 : list event) :
  store_facts E w w1 d1 -> store_facts E w1 w2 d2 -> store_facts E w w2 (d1 ++ d2).
Proof.
  intros [c1 o1 r1 m1 k1 f1] [c2 o2 r2 m2 k2 f2]. split.
  - intros u Hb. apply blocked_in_app in Hb as [Hb|Hb].
    + destruct (c1 u Hb) as [[ok Ha] [ok' Hc]].
      split; eexists; apply in_or_app; left; eauto.
    + destruct (c2 u Hb) as [[ok Ha] [ok' Hc]].
      split; eexists; apply in_or_app; right; eauto.
  - intros op key mem ok Hin. apply in_app_or in Hin as [Hin|Hin].
    + destruct (o1 _ _ _ _ Hin) as (-> & Hk & u & -> & Hb).
      repeat split; auto. exists u. split; auto. apply blocked_in_app; auto.
    + destruct (o2 _ _ _ _ Hin) as (-> & Hk & u & -> & Hb).
      repeat split; auto. exists u. split; auto. apply blocked_in_app; auto.
  - intros key u Hin. apply in_app_or in Hin as [Hin|Hin].
    + intros Hu. apply m2 in Hu. revert Hu. now apply r1.
    + now apply r2.
  - intros key u Hu. apply m1, m2, Hu.
  - intros key u Hu. destruct (k1 key u Hu) as [Hu1|Hin].
    + destruct (k2 key u Hu1) as [Hu2|Hin]; [left; auto|right; apply in_or_app; auto].
    + right. apply in_or_app; auto.
  - intros op key mem Hin. apply in_app_or in Hin as [Hin|Hin]; eauto.
Qed.

Lemma store_facts_delivered (w w' : world) (uid : Z) t m (ms : Z) :
  store w' = store w -> store_facts E w w' [EvSend uid t m None; EvSleep ms].
Proof.
  intros Hs. split; rewrite ?Hs; auto.
  - intros u (t' & m' & e & Hin & _). in_cases Hin.
  - intros op key mem ok Hin. in_cases Hin.
  - intros key u Hin. in_cases Hin.
  - intros op key mem Hin. in_cases Hin.
Qed.

Lemma store_facts_rejected (w w' : world) (uid : Z) t m e tag args :
  is_403 (error_code_of e) = false ->
  store w' = store w ->
  store_facts E w w' [EvSend uid t m (Some e); EvLog tag args].
Proof.
  intros H403 Hs. split; rewrite ?Hs; auto.
  - intros u (t' & m' & e' & Hin & H). in_cases Hin.
    apply is_403_iff in H. congruence.
  - intros op key mem ok Hin. in_cases Hin.
  - intros key u Hin. in_cases Hin.
  - intros op key mem Hin. in_cases Hin.
Qed.

Lemma store_facts_blocked (w w1 w' : world) (uid : Z) t m e tag args drem :
  is_403 (error_code_of e) = true ->
  store w1 = store w ->
  removal_facts E uid w1 w' drem ->
  store_facts E w w' (EvSend uid t m (Some e) :: EvLog tag args :: drem).
Proof.
  intros H403 Hs [rq rc ro rr rm rk rf].
  assert (Hb : blocked_in (EvSend uid t m (Some e) :: EvLog tag args :: drem) uid).
  { exists t, m, e. split; [now left|now apply is_403_iff]. }
  assert (Hq : forall u t' m' e', ~ In (EvSend u t' m' e') drem).
  { intros u t' m' e' Hin. rewrite Forall_forall in rq.
    apply (rq (EvSend u t' m' e')). now apply list_elem_of_In. }
  split.
  - intros u (t' & m' & e' & Hin & H). destruct Hin as [Hin|[Hin|Hin]].
    + inversion Hin; subst. destruct rc as [[ok Ha] [ok' Hc]].
      split; eexists; right; right; eauto.
    + discriminate.
    + now apply Hq in Hin.
  - intros op key mem ok Hin. destruct Hin as [Hin|[Hin|Hin]]; try discriminate.
    destruct (ro _ _ _ _ Hin) as (-> & Hk & ->). eauto.
  - intros key u Hin. destruct Hin as [Hin|[Hin|Hin]]; try discriminate.
    destruct (ro _ _ _ _ Hin) as (_ & _ & Hu). injection Hu as ->. now apply rr.
  - intros key u Hu. rewrite <- Hs. now apply rm.
  - intros key u Hu. rewrite <- Hs in Hu. destruct (rk key u Hu) as [H|[-> H]]; auto.
    right. right. right. exact H.
  - intros op key mem Hin. destruct Hin as [Hin|[Hin|Hin]]; try discriminate. eauto.
Qed.

Lemma fanout_trace_cons (ms uid : Z) (rest : list Z) (d1 d2 : list event) :
  attempt_trace ms uid d1 -> fanout_trace ms rest d2 ->
  fanout_trace ms (uid :: rest) (d1 ++ d2).
Proof.
  intros [t m|t m e tail Hq] H2; cbn [app]; now constructor.
Qed.

Lemma run_ok_nil (ms : Z) (w : world) : run_ok E ms [] w w [].
Proof.
  unfold run_ok. rewrite app_nil_r, Nat.add_0_r.
  split; [reflexivity|]. split; [constructor|]. split; [apply store_facts_refl|auto].
Qed.

Lemma run_ok_cons (ms uid : Z) (rest : list Z) (w w1 w2 : world) (d1 d2 : list event) :
  attempt_ok E ms uid w w1 d1 -> run_ok E ms rest w1 w2 d2 ->
  run_ok E ms (uid :: rest) w w2 (d1 ++ d2).
Proof.
  intros (Ht1 & Ha & Hs1 & Hu1 & Hc1 & Hn1) (Ht2 & Hf & Hs2 & Hu2 & Hc2 & Hn2).
  unfold run_ok. split; [|split; [|split; [|split; [|split]]]].
  - rewrite Ht2, Ht1. now rewrite app_assoc.
  - now apply fanout_trace_cons.
  - eapply store_facts_trans; eauto.
  - congruence.
  - congruence.
  - rewrite Hn2, Hn1. cbn [length]. lia.
Qed.

(** A loop whose body always completes completes, and its run is the
    sequence of the attempts. *)
Lemma for_of_run (ms : Z) (body : Z -> M unit) :
  (forall uid w, exists w' d, body uid w = (Ok tt, w') /\ attempt_ok E ms uid w w' d) ->
  forall l w, exists w' d, for_of l body w = (Ok tt, w') /\ run_ok E ms l w w' d.
Proof.
  intros Hbody l. induction l as [|uid rest IH]; intros w; cbn [for_of].
  - exists w, []. split; [reflexivity|apply run_ok_nil].
  - destruct (Hbody uid w) as (w1 & d1 & Hb & Ha).
    destruct (IH w1) as (w2 & d2 & Hl & Hr).
    exists w2, (d1 ++ d2). unfold bind. rewrite Hb. split; [exact Hl|].
    eapply run_ok_cons; eauto.
Qed.

(** *** The three loops *)

Lemma telegram_notify_body_ok text kb (uid : Z) (w : world) :
  exists w' d, Telegram.notify_body E text kb uid w = (Ok tt, w')
               /\ attempt_ok E 50 uid w w' d.
Proof.
  unfold Telegram.notify_body, try_catch, bind, sendMessage, sleep, console_error, ret.
  destruct (gateway E (n_send w) uid) as [e|] eqn:G.
  - destruct (is_403 (error_code_of e)) eqn:H403.
    + match goal with |- context [Telegram.removeFromAllLists E uid ?w1] =>
        destruct (telegram_removal_facts uid w1) as (w' & drem & Hr & Ht & Hf & Hu & Hn & Hc)
      end.
      rewrite Hr. eexists; eexists; split; [reflexivity|].
      unfold attempt_ok. world_simpl.
      split; [rewrite Ht, <- !app_assoc; reflexivity|].
      split; [apply at_rejected; constructor; [exact I|exact (r_quiet _ _ _ _ _ Hf)]|].
      split; [eapply store_facts_blocked; [exact H403| |exact Hf]; reflexivity|auto].
    + eexists; eexists; split; [reflexivity|]. unfold attempt_ok. world_simpl.
      split; [rewrite <- !app_assoc; reflexivity|].
      split; [constructor; repeat constructor|].
      split; [now apply store_facts_rejected|auto].
  - eexists; eexists; split; [reflexivity|]. unfold attempt_ok. world_simpl.
    split; [rewrite <- !app_assoc; reflexivity|].
    split; [constructor|].
    split; [now apply store_facts_delivered|auto].
Qed.

Lemma telegram_notifyAllUsers_run (userIds : list Z) previewText linkUrl (w : world) :
  exists w' d, Telegram.notifyAllUsers E userIds previewText linkUrl w = (Ok tt, w')
               /\ run_ok E 50 userIds w w' d.
Proof.
  unfold Telegram.notifyAllUsers. apply for_of_run. apply telegram_notify_body_ok.
Qed.

Lemma reminder_send_body_ok text (uid : Z) (c : ClassReminders.counts) (w : world) :
  exists c' w' d, ClassReminders.send_body E text uid c w = (Ok c', w')
                  /\ attempt_ok E 50 uid w w' d
                  /\ ClassReminders.sent c' + ClassReminders.failed c'
                      = ClassReminders.sent c + ClassReminders.failed c + 1.
Proof.
  unfold ClassReminders.send_body, try_catch, bind, sendMessage, sleep, console_error, ret.
  destruct (gateway E (n_send w) uid) as [e|] eqn:G.
  - destruct (is_403 (error_code_of e)) eqn:H403.
    + match goal with |- context [ClassReminders.removeFromAllLists E uid ?w1] =>
        destruct (classreminders_removal_facts uid w1)
          as (w' & drem & Hr & Ht & Hf & Hu & Hn & Hc)
      end.
      rewrite Hr. eexists; eexists; eexists; split; [reflexivity|].
      split; [|cbn; lia]. unfold attempt_ok. world_simpl.
      split; [rewrite Ht, <- !app_assoc; reflexivity|].
      split; [apply at_rejected; constructor; [exact I|exact (r_quiet _ _ _ _ _ Hf)]|].
      split; [eapply store_facts_blocked; [exact H403| |exact Hf]; reflexivity|auto].
    + eexists; eexists; eexists; split; [reflexivity|].
      split; [|cbn; lia]. unfold attempt_ok. world_simpl.
      split; [rewrite <- !app_assoc; reflexivity|].
      split; [constructor; repeat constructor|].
      split; [now apply store_facts_rejected|auto].
  - eexists; eexists; eexists; split; [reflexivity|].
    split; [|cbn; lia]. unfold attempt_ok. world_simpl.
    split; [rewrite <- !app_assoc; reflexivity|].
    split; [constructor|].
    split; [now apply store_facts_delivered|auto].
Qed.

Lemma reminder_send_loop_run (userIds : list Z) text :
  forall (c : ClassReminders.counts) (w : world),
  exists c' w' d, ClassReminders.send_loop E userIds text c w = (Ok c', w')
                  /\ run_ok E 50 userIds w w' d
                  /\ ClassReminders.sent c' + ClassReminders.failed c'
                      = ClassReminders.sent c + ClassReminders.failed c
                        + Z.of_nat (length userIds).
Proof.
  unfold ClassReminders.send_loop.
  induction userIds as [|uid rest IH]; intros c w; cbn [for_of_acc].
  - exists c, w, []. split; [reflexivity|]. split; [apply run_ok_nil|cbn; lia].
  - destruct (reminder_send_body_ok text uid c w) as (c1 & w1 & d1 & Hb & Ha & Hc1).
    destruct (IH c1 w1) as (c2 & w2 & d2 & Hl & Hr & Hc2).
    exists c2, w2, (d1 ++ d2). unfold bind. rewrite Hb. split; [exact Hl|].
    split; [eapply run_ok_cons; eauto|]. cbn [length]. lia.
Qed.

Lemma index_notify_body_ok previewText linkUrl (uid : Z) (w : world) :
  exists w' d, Index.notify_body E previewText linkUrl uid w = (Ok tt, w')
               /\ trace w' = trace w ++ d /\ attempt_trace 60 uid d.
Proof.
  unfold Index.notify_body, try_catch, bind, sendMessage, sleep, console_error, ret,
    Db.markBlocked.
  destruct (gateway E (n_send w) uid) as [e|] eqn:G.
  - destruct (is_403 (error_code_of e)) eqn:H403; world_simpl;
      [destruct (users w !! uid)|];
      (eexists; eexists; split; [reflexivity|]; world_simpl;
       split; [rewrite <- !app_assoc; reflexivity|]; constructor; repeat constructor).
  - eexists; eexists; split; [reflexivity|]. world_simpl.
    split; [rewrite <- !app_assoc; reflexivity|constructor].
Qed.

Lemma index_loop_run previewText linkUrl (l : list Z) :
  forall w, exists w' d,
    for_of l (Index.notify_body E previewText linkUrl) w = (Ok tt, w')
    /\ trace w' = trace w ++ d /\ fanout_trace 60 l d.
Proof.
  induction l as [|uid rest IH]; intros w; cbn [for_of].
  - exists w, []. split; [reflexivity|]. rewrite app_nil_r. split; [reflexivity|constructor].
  - destruct (index_notify_body_ok previewText linkUrl uid w) as (w1 & d1 & Hb & Ht1 & Ha).
    destruct (IH w1) as (w2 & d2 & Hl & Ht2 & Hf).
    exists w2, (d1 ++ d2). unfold bind. rewrite Hb. split; [exact Hl|].
    split; [rewrite Ht2, Ht1; now rewrite app_assoc|now apply fanout_trace_cons].
Qed.

Lemma index_notifyAllUsers_run previewText linkUrl (w : world) :
  exists l w' d, Index.notifyAllUsers E previewText linkUrl w = (Ok tt, w')
                 /\ Db.listActiveUsers w = (Ok l, w)
                 /\ trace w' = trace w ++ d /\ fanout_trace 60 l d.
Proof.
  unfold Index.notifyAllUsers, bind.
  destruct (Db.listActiveUsers w) as [r w0] eqn:Hl.
  unfold Db.listActiveUsers in Hl. injection Hl as <- <-.
  match goal with |- context [for_of ?l _ _] =>
    destruct (index_loop_run previewText linkUrl l w) as (w' & d & Hf & Ht & Hs);
    exists l, w', d
  end.
  auto.
Qed.

(** *** What the shape of a fan-out trace implies *)

Lemma sent_to_quiet (tail d : list event) :
  Forall quiet tail -> sent_to (tail ++ d) = sent_to d.
Proof.
  induction 1 as [|e tail He _ IH]; [reflexivity|].
  destruct e; cbn in *; auto; contradiction.
Qed.

Lemma fanout_trace_sent_to (ms : Z) (l : list Z) (d : list event) :
  fanout_trace ms l d -> sent_to d = l.
Proof.
  induction 1 as [|uid t m rest d _ IH|uid t m e tail rest d Hq _ IH]; cbn.
  - reflexivity.
  - now rewrite IH.
  - rewrite sent_to_quiet by exact Hq. now rewrite IH.
Qed.

Lemma fanout_trace_head (ms : Z) (l : list Z) (d : list event) :
  fanout_trace ms l d -> d = [] \/ exists u t m e r, d = EvSend u t m e :: r.
Proof.
  destruct 1; [left; reflexivity| |]; right; eauto 10.
Qed.

Lemma no_pause_quiet (tail d : list event) :
  Forall quiet tail ->
  (d = [] \/ exists u t m e r, d = EvSend u t m e :: r) ->
  no_pause_until_next_send (tail ++ d).
Proof.
  intros Hq Hd. induction Hq as [|e tail He _ IH]; cbn [app].
  - destruct Hd as [->|(u & t & m & e & r & ->)]; exact I.
  - destruct e; cbn in *; auto; contradiction.
Qed.

Lemma pause_after_delivery_quiet (ms : Z) (tail d : list event) :
  Forall quiet tail ->
  pause_after_delivery_only ms (tail ++ d) <-> pause_after_delivery_only ms d.
Proof.
  induction 1 as [|e tail He _ IH]; [reflexivity|].
  destruct e; cbn in *; auto; contradiction.
Qed.

Lemma fanout_trace_pacing (ms : Z) (l : list Z) (d : list event) :
  fanout_trace ms l d -> pause_after_delivery_only ms d.
Proof.
  induction 1 as [|uid t m rest d _ IH|uid t m e tail rest d Hq Hf IH]; cbn.
  - exact I.
  - split; [eauto|exact IH].
  - split.
    + apply no_pause_quiet; [exact Hq|]. eapply fanout_trace_head; eauto.
    + now apply pause_after_delivery_quiet.
Qed.

End Effects.

(** ** Fan-out *)

Section Fanout.

Import Trace.

(** Three recipients, the first of which is rejected: all three are
    attempted, in the order of the list. *)
Example fanout_after_a_rejection :
  let r := Telegram.notifyAllUsers (Scenario.first_send_rejected Scenario.unavailable)
             [11; 12; 13] (lit "In a group") VNull Scenario.empty_world in
  fst r = Ok tt /\ sent_to (trace (snd r)) = [11; 12; 13].
Proof. vm_compute. split; reflexivity. Qed.

(** C1. For every list of recipients, whatever the gateway and the store
    answer, the fan-out of src/api/telegram.js ([notifyAllUsers]) and the
    send loop of api/class-reminders.js complete normally, and the send
    attempts they issue are exactly the elements of the list, one attempt
    each and in order: as many attempts as the list is long. No rejected
    attempt, nor any run of them, ends the loop early. The reminder loop
    moreover counts every attempt as sent or failed. The fan-out of
    src/index.js does the same over the list of active users it reads. *)
Theorem C1_fanout_attempts_every_recipient
    (E : env) (userIds : list Z) (previewText : jstr) (linkUrl : jsval)
    (text : jstr) (c : ClassReminders.counts) (w : world) :
  (exists w', Telegram.notifyAllUsers E userIds previewText linkUrl w = (Ok tt, w')
              /\ sent_to (since w w') = userIds
              /\ n_send w' = (n_send w + length userIds)%nat)
  /\ (exists c' w', ClassReminders.send_loop E userIds text c w = (Ok c', w')
                    /\ sent_to (since w w') = userIds
                    /\ n_send w' = (n_send w + length userIds)%nat
                    /\ ClassReminders.sent c' + ClassReminders.failed c'
                        = ClassReminders.sent c + ClassReminders.failed c
                          + Z.of_nat (length userIds))
  /\ (exists active w', Index.notifyAllUsers E previewText linkUrl w = (Ok tt, w')
                        /\ Db.listActiveUsers w = (Ok active, w)
                        /\ sent_to (since w w') = active).
Proof.
  split; [|split].
  - destruct (telegram_notifyAllUsers_run E userIds previewText linkUrl w)
      as (w' & d & Hrun & Ht & Hf & _ & _ & _ & Hn).
    exists w'. split; [exact Hrun|]. rewrite (since_app _ _ _ Ht).
    split; [eapply fanout_trace_sent_to; eauto|exact Hn].
  - destruct (reminder_send_loop_run E userIds text c w)
      as (c' & w' & d & Hrun & (Ht & Hf & _ & _ & _ & Hn) & Hc).
    exists c', w'. split; [exact Hrun|]. rewrite (since_app _ _ _ Ht).
    split; [eapply fanout_trace_sent_to; eauto|]. split; [exact Hn|exact Hc].
  - destruct (index_notifyAllUsers_run E previewText linkUrl w)
      as (l & w' & d & Hrun & Hl & Ht & Hf).
    exists l, w'. split; [exact Hrun|]. split; [exact Hl|].
    rewrite (since_app _ _ _ Ht). eapply fanout_trace_sent_to; eauto.
Qed.

(** The recipients 1 and 2, the first of which is rejected: the second
    attempt follows the first with a log line in between and no pause. *)
Lemma C3_counterexample :
  ~ pause_after_every_attempt
      (since Scenario.empty_world
         (snd (Telegram.notifyAllUsers
                 (Scenario.first_send_rejected Scenario.unavailable)
                 [1; 2] (lit "In a group") VNull Scenario.empty_world))).
Proof. vm_compute. intros [H _]. exact H. Qed.

(** C3, as the code has it. In the fan-out of src/api/telegram.js and in the
    send loop of api/class-reminders.js the pause of 50 comes directly after
    every delivered send, and in the fan-out of src/index.js the pause of
    60; after a rejected send there is no pause: only log lines and store
    calls come between it and the next attempt. *)
Theorem C3_pause_after_delivered_sends_only
    (E : env) (userIds : list Z) (previewText : jstr) (linkUrl : jsval)
    (text : jstr) (c : ClassReminders.counts) (w : world) :
  pause_after_delivery_only 50
    (since w (snd (Telegram.notifyAllUsers E userIds previewText linkUrl w)))
  /\ pause_after_delivery_only 50
       (since w (snd (ClassReminders.send_loop E userIds text c w)))
  /\ pause_after_delivery_only 60
       (since w (snd (Index.notifyAllUsers E previewText linkUrl w))).
Proof.
  split; [|split].
  - destruct (telegram_notifyAllUsers_run E userIds previewText linkUrl w)
      as (w' & d & Hrun & Ht & Hf & _).
    rewrite Hrun. cbn [snd]. rewrite (since_app _ _ _ Ht).
    eapply fanout_trace_pacing; eauto.
  - destruct (reminder_send_loop_run E userIds text c w)
      as (c' & w' & d & Hrun & (Ht & Hf & _) & _).
    rewrite Hrun. cbn [snd]. rewrite (since_app _ _ _ Ht).
    eapply fanout_trace_pacing; eauto.
  - destruct (index_notifyAllUsers_run E previewText linkUrl w)
      as (l & w' & d & Hrun & _ & Ht & Hf).
    rewrite Hrun. cbn [snd]. rewrite (since_app _ _ _ Ht).
    eapply fanout_trace_pacing; eauto.
Qed.

End Fanout.

(** ** Removal of blocked recipients *)

Section Removal.

Import Trace.










(** The recipient list names user 7 twice, every send is rejected as blocked
    and the store fails the first call only: the first remove from the
    attendance list is rejected, the second one performed, and 7 is on
    neither list at the end; two removes were issued on each list, one for
    each rejection. *)
Example rejected_remove_then_performed :
  let w' := snd (Telegram.notifyAllUsers Scenario.blocked_and_store_down [7; 7]
                   (lit "In a group") VNull Scenario.both_lists_7) in
  let d := since Scenario.both_lists_7 w' in
  In (EvKv Srem Telegram.SUBS_ATTENDANCE_KEY (Some 7) false) d
  /\ In (EvKv Srem Telegram.SUBS_ATTENDANCE_KEY (Some 7) true) d
  /\ bool_decide (7 ∈ members (store w') Telegram.SUBS_ATTENDANCE_KEY) = false
  /\ removes_of Telegram.SUBS_ATTENDANCE_KEY 7 d = 2%nat
  /\ blocks_of 7 d = 2%nat.
Proof. vm_compute. intuition. Qed.



End Removal.

(** ** Store failures are absorbed *)

Section Absorb.

Import Trace.

Variable E : env.














Hypothesis ctx_accepts : forall n, ctx_fails E n = None.




End Absorb.

(** On the forged update the keyword handler throws while it renders the
    title: subscriber 7 is not written to and nothing else has happened. *)
Example forged_update_throws :
  Telegram.on_message Scenario.calm Scenario.forged_group_ctx Scenario.both_lists_7
  = (Thrown (TypeError "Cannot convert object to primitive value"), Scenario.both_lists_7).
Proof. vm_compute. reflexivity. Qed.



(** ** The two lists *)

Section Invariant.

Import Trace.

Variable E : env.

Lemma preserves_frame {A} (m : M A) :
  (forall w, store (snd (m w)) = store w) -> preserves m.
Proof. intros H w Hi. now rewrite H. Qed.

Lemma preserves_ret {A} (a : A) : preserves (ret a).
Proof. now apply preserves_frame. Qed.

Lemma preserves_bind {A B} (m : M A) (k : A -> M B) :
  preserves m -> (forall a, preserves (k a)) -> preserves (bind m k).
Proof.
  intros Hm Hk w Hi. unfold bind. specialize (Hm w Hi).
  destruct (m w) as [[a|e] w1]; cbn [snd] in *; [now apply Hk|exact Hm].
Qed.

Lemma preserves_try_catch {A} (body : M A) (h : js_error -> M A) :
  preserves body -> (forall e, preserves (h e)) -> preserves (try_catch body h).
Proof.
  intros Hb Hh w Hi. unfold try_catch. specialize (Hb w Hi).
  destruct (body w) as [[a|e] w1]; cbn [snd] in *; [exact Hb|now apply Hh].
Qed.

Lemma preserves_ctx_do call p : preserves (ctx_do E call p).
Proof.
  apply preserves_frame. intros w. unfold ctx_do. now destruct (ctx_fails E (n_ctx w)).
Qed.

Lemma preserves_isSub key uid : preserves (Telegram.isSub E key uid).
Proof.
  apply preserves_frame. intros w. rewrite isSub_eq.
  now destruct (kv_fails E (n_kv w)).
Qed.

Lemma preserves_listSubs key : preserves (Telegram.listSubs E key).
Proof.
  apply preserves_frame. intros w. rewrite listSubs_eq.
  now destruct (kv_fails E (n_kv w)).
Qed.

Lemma preserves_getSettings uid : preserves (Telegram.getSettings E uid).
Proof.
  apply preserves_frame. intros w. unfold Telegram.getSettings, promise_all2.
  rewrite isSub_eq. destruct (kv_fails E (n_kv w)); rewrite isSub_eq;
    match goal with |- context [kv_fails E ?n] => destruct (kv_fails E n) end;
    reflexivity.
Qed.

Lemma preserves_showMenu c preferEdit : preserves (Telegram.showMenu E c preferEdit).
Proof.
  unfold Telegram.showMenu. destruct (Telegram.not_private c); [apply preserves_ret|].
  apply preserves_bind; [apply preserves_getSettings|]. intros settings.
  apply preserves_bind.
  - destruct (preferEdit && _); [|apply preserves_ret].
    apply preserves_try_catch; [|intros; apply preserves_ret].
    apply preserves_bind; [apply preserves_ctx_do|intros; apply preserves_ret].
  - intros [|]; [apply preserves_ret|apply preserves_ctx_do].
Qed.

Hypothesis store_answers : forall n, kv_fails E n = None.

(** With a store that answers, the pair of calls of a menu action has the
    effect of its two operations, in the order of the array. *)
Lemma setSub_pair_store k1 b1 k2 b2 (u : Z) (w : world) :
  store (snd (promise_all2 (Telegram.setSub E k1 u b1) (Telegram.setSub E k2 u b2) w))
  = (if b2 : bool then sadd_in k2 u else srem_in k2 u)
      ((if b1 : bool then sadd_in k1 u else srem_in k1 u) (store w)).
Proof.
  unfold promise_all2. rewrite setSub_eq, store_answers, setSub_eq, store_answers.
  destruct b1, b2; reflexivity.
Qed.

Lemma preserves_attendance_only (u : Z) :
  preserves (promise_all2 (Telegram.setSub E Telegram.SUBS_ATTENDANCE_KEY u true)
                          (Telegram.setSub E Telegram.SUBS_CLASS_KEY u false)).
Proof.
  intros w Hi x. rewrite setSub_pair_store.
  unfold class_implies_attendance, ATT, CLS, Telegram.SUBS_ATTENDANCE_KEY,
    Telegram.SUBS_CLASS_KEY in *.
  rewrite !elem_of_srem_in, !elem_of_sadd_in. specialize (Hi x). intuition congruence.
Qed.

Lemma preserves_both (u : Z) :
  preserves (promise_all2 (Telegram.setSub E Telegram.SUBS_ATTENDANCE_KEY u true)
                          (Telegram.setSub E Telegram.SUBS_CLASS_KEY u true)).
Proof.
  intros w Hi x. rewrite setSub_pair_store.
  unfold class_implies_attendance, ATT, CLS, Telegram.SUBS_ATTENDANCE_KEY,
    Telegram.SUBS_CLASS_KEY in *.
  rewrite !elem_of_sadd_in. specialize (Hi x). intuition congruence.
Qed.

Lemma removal_keeps_invariant (uid : Z) (w w' : world) (d : list event) :
  removal_facts E uid w w' d ->
  class_implies_attendance (store w) -> class_implies_attendance (store w').
Proof.
  intros [rq [_ [ok Hc]] ro rr rm rk rf] Hi x Hx.
  destruct (rk ATT x (Hi x (rm CLS x Hx))) as [H|[-> _]]; [exact H|].
  destruct ok.
  - exfalso. exact (rr CLS Hc Hx).
  - destruct (rf _ _ _ Hc) as (n & e & Hn). rewrite store_answers in Hn. discriminate.
Qed.

Lemma fanout_keeps_invariant (w w' : world) (d : list event) :
  store_facts E w w' d ->
  class_implies_attendance (store w) -> class_implies_attendance (store w').
Proof.
  intros [fc fo fr fm fk ff] Hi x Hx.
  destruct (fk ATT x (Hi x (fm CLS x Hx))) as [H|Hin]; [exact H|].
  destruct (fo _ _ _ _ Hin) as (_ & _ & u & Hu & Hb). injection Hu as <-.
  destruct (fc x Hb) as [_ [ok Hc]]. destruct ok.
  - exfalso. exact (fr CLS x Hc Hx).
  - destruct (ff _ _ _ Hc) as (n & e & Hn). rewrite store_answers in Hn. discriminate.
Qed.

Lemma preserves_removeFromAllLists (uid : Z) :
  preserves (Telegram.removeFromAllLists E uid).
Proof.
  intros w Hi. destruct (telegram_removal_facts E uid w) as (w' & d & Hr & _ & Hf & _).
  rewrite Hr. cbn [snd]. eapply removal_keeps_invariant; eauto.
Qed.

Lemma preserves_reminder_removeFromAllLists (uid : Z) :
  preserves (ClassReminders.removeFromAllLists E uid).
Proof.
  intros w Hi. destruct (classreminders_removal_facts E uid w) as (w' & d & Hr & _ & Hf & _).
  rewrite Hr. cbn [snd]. eapply removal_keeps_invariant; eauto.
Qed.

Lemma preserves_notifyAllUsers userIds previewText linkUrl :
  preserves (Telegram.notifyAllUsers E userIds previewText linkUrl).
Proof.
  intros w Hi.
  destruct (telegram_notifyAllUsers_run E userIds previewText linkUrl w)
    as (w' & d & Hr & _ & _ & Hf & _).
  rewrite Hr. cbn [snd]. eapply fanout_keeps_invariant; eauto.
Qed.

Lemma preserves_send_loop userIds text c :
  preserves (ClassReminders.send_loop E userIds text c).
Proof.
  intros w Hi.
  destruct (reminder_send_loop_run E userIds text c w)
    as (c' & w' & d & Hr & (_ & _ & Hf & _) & _).
  rewrite Hr. cbn [snd]. eapply fanout_keeps_invariant; eauto.
Qed.

Lemma preserves_on_message c : preserves (Telegram.on_message E c).
Proof.
  unfold Telegram.on_message.
  destruct (negb (Telegram.is_group c)); [apply preserves_ret|].
  destruct (negb (Telegram.keyword_hit _)); [apply preserves_ret|].
  apply preserves_bind; [now apply preserves_frame|]. intros title.
  apply preserves_bind.
  - destruct (Telegram.ctx_message c); now apply preserves_frame.
  - intros mid. apply preserves_bind; [now apply preserves_frame|]. intros link.
    apply preserves_bind; [now apply preserves_frame|]. intros group.
    apply preserves_bind; [apply preserves_listSubs|]. intros subs.
    apply preserves_notifyAllUsers.
Qed.

Lemma preserves_handleUpdate u c : preserves (Telegram.handleUpdate E u c).
Proof.
  destruct u as [| |data| |]; cbn [Telegram.handleUpdate].
  - apply preserves_showMenu.
  - apply preserves_showMenu.
  - repeat (destruct (String.eqb data _)); try apply preserves_ret.
    + unfold Telegram.on_preset_attendance.
      destruct (Telegram.not_private c); [apply preserves_ret|].
      apply preserves_bind; [apply preserves_attendance_only|]. intros _.
      apply preserves_bind; [apply preserves_ctx_do|]. intros _. apply preserves_showMenu.
    + unfold Telegram.on_preset_both.
      destruct (Telegram.not_private c); [apply preserves_ret|].
      apply preserves_bind; [apply preserves_both|]. intros _.
      apply preserves_bind; [apply preserves_ctx_do|]. intros _. apply preserves_showMenu.
    + unfold Telegram.on_preset_none.
      destruct (Telegram.not_private c); [apply preserves_ret|].
      apply preserves_bind; [apply preserves_removeFromAllLists|]. intros _.
      apply preserves_bind; [apply preserves_ctx_do|]. intros _. apply preserves_showMenu.
  - unfold Telegram.on_stop.
    destruct (Telegram.not_private c); [apply preserves_ret|].
    apply preserves_bind; [apply preserves_removeFromAllLists|]. intros _.
    apply preserves_ctx_do.
  - apply preserves_on_message.
Qed.

Lemma preserves_reminder_handler penv req now :
  preserves (ClassReminders.handler E penv req now).
Proof.
  unfold ClassReminders.handler, ClassReminders.respond.
  apply preserves_try_catch.
  - destruct (negb (ClassReminders.set (ClassReminders.BOT_TOKEN penv)));
      [now apply preserves_frame|].
    cbv zeta. destruct (negb (bool_decide _)); [apply preserves_ret|].
    destruct (_ && _); [apply preserves_ret|].
    destruct (if negb _ then _ else _); [apply preserves_ret|].
    destruct (negb (ClassReminders.set _)); [apply preserves_ret|].
    apply preserves_bind.
    + apply preserves_frame. intros w. unfold kv_smembers, kv_call.
      now destruct (kv_fails E (n_kv w)).
    + intros userIds. apply preserves_bind; [apply preserves_send_loop|].
      intros c. apply preserves_ret.
  - intros e. apply preserves_bind; [now apply preserves_frame|]. intros _.
    apply preserves_ret.
Qed.

Lemma run_updates_invariant (us : list (Telegram.update * Telegram.ctx)) :
  forall w, class_implies_attendance (store w) ->
            class_implies_attendance (store (Telegram.run_updates E us w)).
Proof.
  induction us as [|[u c] us IH]; intros w Hi; cbn [Telegram.run_updates].
  - exact Hi.
  - apply IH. now apply preserves_handleUpdate.
Qed.

End Invariant.

Lemma empty_world_invariant :
  Trace.class_implies_attendance (store Scenario.empty_world).
Proof. intros u Hu. vm_compute in Hu. discriminate. Qed.

(** User 5 presses "Attendance + Class reminders" and the store fails the
    first of the two adds, the one on the attendance list: afterwards 5 is on
    the class-reminders list and not on the attendance list. The same state
    arises without any failure when the four store calls of a "preset:both"
    and of a "preset:none" of user 5, handled at the same time, reach the
    store in the order add attendance, remove attendance, remove class, add
    class. *)
Lemma C10_counterexample :
  let w' := snd (Telegram.handleUpdate Scenario.first_store_call_fails
                   (Telegram.UAction "preset:both") Scenario.private_ctx_5
                   Scenario.empty_world) in
  let interleaved :=
    sadd_in Telegram.SUBS_CLASS_KEY 5
      (srem_in Telegram.SUBS_CLASS_KEY 5
         (srem_in Telegram.SUBS_ATTENDANCE_KEY 5
            (sadd_in Telegram.SUBS_ATTENDANCE_KEY 5 ∅))) in
  Trace.class_implies_attendance (store Scenario.empty_world)
  /\ 5 ∈ members (store w') Telegram.SUBS_CLASS_KEY
  /\ (5 ∉ members (store w') Telegram.SUBS_ATTENDANCE_KEY)
  /\ ~ Trace.class_implies_attendance (store w')
  /\ ~ Trace.class_implies_attendance interleaved.
Proof.
  cbv zeta.
  assert (H3 : ~ Trace.class_implies_attendance
                   (sadd_in Telegram.SUBS_CLASS_KEY 5
                      (srem_in Telegram.SUBS_CLASS_KEY 5
                         (srem_in Telegram.SUBS_ATTENDANCE_KEY 5
                            (sadd_in Telegram.SUBS_ATTENDANCE_KEY 5 ∅))))).
  { intros Hi. specialize (Hi 5). revert Hi.
    unfold Trace.ATT, Trace.CLS, Telegram.SUBS_ATTENDANCE_KEY, Telegram.SUBS_CLASS_KEY.
    rewrite !elem_of_sadd_in, !elem_of_srem_in, !elem_of_sadd_in. intuition congruence. }
  assert (H1 : 5 ∈ members
                 (store (snd (Telegram.handleUpdate Scenario.first_store_call_fails
                                (Telegram.UAction "preset:both") Scenario.private_ctx_5
                                Scenario.empty_world))) Telegram.SUBS_CLASS_KEY).
  { refine (bool_decide_unpack _ _). vm_compute. exact I. }
  assert (H2 : 5 ∉ members
                 (store (snd (Telegram.handleUpdate Scenario.first_store_call_fails
                                (Telegram.UAction "preset:both") Scenario.private_ctx_5
                                Scenario.empty_world))) Telegram.SUBS_ATTENDANCE_KEY).
  { intros H. apply (bool_decide_pack _) in H. vm_compute in H. exact H. }
  split; [|split; [exact H1|split; [exact H2|split; [|exact H3]]]].
  - exact empty_world_invariant.
  - intros Hi. exact (H2 (Hi 5 H1)).
Qed.

(** C10, as the code has it. When the store rejects no call and the updates
    are handled one after the other, every handler of src/api/telegram.js
    (the menu actions "preset:attendance", "preset:both" and "preset:none",
    the /stop command, and the keyword handler with its removal of blocked
    recipients), both versions of [removeFromAllLists], the fan-out and the
    reminder job keep the invariant that a member of the class-reminders list
    is a member of the attendance list; hence no sequence of updates leads
    from a store with the invariant to one where some user has class
    reminders on and attendance off. *)
Theorem C10_class_implies_attendance_is_kept
    (E : env) (store_answers : forall n, kv_fails E n = None)
    (w : world) (Hinv : Trace.class_implies_attendance (store w)) :
  (forall u c,
      Trace.class_implies_attendance (store (snd (Telegram.handleUpdate E u c w))))
  /\ (forall uid,
        Trace.class_implies_attendance
          (store (snd (Telegram.removeFromAllLists E uid w)))
        /\ Trace.class_implies_attendance
             (store (snd (ClassReminders.removeFromAllLists E uid w))))
  /\ (forall userIds previewText linkUrl,
        Trace.class_implies_attendance
          (store (snd (Telegram.notifyAllUsers E userIds previewText linkUrl w))))
  /\ (forall penv req now,
        Trace.class_implies_attendance
          (store (snd (ClassReminders.handler E penv req now w))))
  /\ (forall us,
        Trace.class_implies_attendance (store (Telegram.run_updates E us w))
        /\ forall u, ~ (u ∈ members (store (Telegram.run_updates E us w)) Trace.CLS
                        /\ u ∉ members (store (Telegram.run_updates E us w)) Trace.ATT)).
Proof.
  split; [|split; [|split; [|split]]].
  - intros u c. now apply preserves_handleUpdate.
  - intros uid. split.
    + now apply preserves_removeFromAllLists.
    + now apply preserves_reminder_removeFromAllLists.
  - intros. now apply preserves_notifyAllUsers.
  - intros. now apply preserves_reminder_handler.
  - intros us. pose proof (run_updates_invariant E store_answers us w Hinv) as H.
    split; [exact H|]. intros u [Hc Ha]. exact (Ha (H u Hc)).
Qed.

(** The theorem at the counterexample's update, with a store that answers:
    the invariant holds after "preset:both". *)
Lemma C10_witness :
  Trace.class_implies_attendance
    (store (snd (Telegram.handleUpdate Scenario.calm (Telegram.UAction "preset:both")
                   Scenario.private_ctx_5 Scenario.empty_world))).
Proof.
  refine (proj1 (C10_class_implies_attendance_is_kept Scenario.calm _
                   Scenario.empty_world _) _ _).
  - intros n. reflexivity.
  - exact empty_world_invariant.
Defined.

(** ** Scheduled reminder *)

Section Reminder.

Import ClassReminders.

Lemma schedule_entry_set (d : Z) (c : string) :
  CLASS_SCHEDULE_BY_GMT5_DAY d = Some c -> set (Some c) = true.
Proof.
  unfold CLASS_SCHEDULE_BY_GMT5_DAY.
  repeat (destruct (_ =? _)); intros H; inversion H; reflexivity.
Qed.

Example monday_parts :
  getGmt5Parts Scenario.monday_18_25 = {| day := 1; hour := 18; minute := 25 |}
  /\ getGmt5Parts (Scenario.monday_18_25 + 90000) = {| day := 1; hour := 18; minute := 26 |}.
Proof. split; reflexivity. Qed.

(** Past the configuration and authorization checks, the handler is its
    gate followed by the fan-out. *)
Lemma handler_checked (E : env) (penv : process_env) (req : request) (now : Z) (w : world) :
  Spec.configured penv -> Spec.authorized penv req ->
  handler E penv req now w =
  try_catch
    (let p := getGmt5Parts now in
     let className := CLASS_SCHEDULE_BY_GMT5_DAY (day p) in
     let force := bool_decide (q_force req = Some "1"%string) in
     let early :=
       if negb force then
         if negb (set className) then Some (SkippedNoClass (day p))
         else if 1 <? Z.abs (hour p * 60 + minute p
                             - (CLASS_REMINDER_HOUR_GMT5 * 60 + CLASS_REMINDER_MINUTE_GMT5))
         then Some (SkippedWrongTime (day p) (hour p) (minute p))
         else None
       else None in
     match early with
     | Some b => respond 200 b
     | None =>
         if negb (set className) then respond 200 (SkippedNoClass (day p))
         else
           userIds <- kv_smembers E SUBS_CLASS_KEY ;;
           let name := default ""%string className in
           let text := lit name ++ lit " class starts in 5 mins" in
           c <- send_loop E userIds text {| sent := 0; removed := 0; failed := 0 |} ;;
           respond 200
             (Executed (day p) (hour p) (minute p) name
                (Z.of_nat (length userIds)) (sent c) (removed c) (failed c))
     end)
    (fun err =>
       console_error "class-reminders error:" [VStr (lit (message err))] ;;
       respond 200
         (Failure (if String.eqb (message err) "" then "unknown error" else message err)))
    w.
Proof.
  intros (H1 & H2 & H3) Hauth. unfold handler. rewrite H1, H2, H3. cbn [negb app].
  assert (Ha : set (CRON_SECRET penv)
               && negb (bool_decide (q_secret req = CRON_SECRET penv)) = false).
  { destruct Hauth as [Hs|Hs]; [now rewrite Hs|].
    rewrite (bool_decide_eq_true_2 _ Hs). apply andb_false_r. }
  rewrite Ha. reflexivity.
Qed.

Lemma reminder_fanout (E : env) (className : string) (p : parts) (w : world) :
  kv_fails E (n_kv w) = None ->
  exists total sent removed failed w',
    (userIds <- kv_smembers E SUBS_CLASS_KEY ;;
     let name := className in
     let text := lit name ++ lit " class starts in 5 mins" in
     c <- send_loop E userIds text {| sent := 0; removed := 0; failed := 0 |} ;;
     respond 200
       (Executed (day p) (hour p) (minute p) name
          (Z.of_nat (length userIds)) (ClassReminders.sent c) (ClassReminders.removed c)
          (ClassReminders.failed c))) w
    = (Ok {| status := 200;
             json := Executed (day p) (hour p) (minute p) className
                       total sent removed failed |}, w')
    /\ sent + failed = total.
Proof.
  intros Hkv. unfold bind, kv_smembers, kv_call. rewrite Hkv.
  match goal with |- context [send_loop E ?l ?t ?c ?w1] =>
    destruct (reminder_send_loop_run E l t c w1) as (c' & w' & d & Hr & _ & Hc)
  end.
  rewrite Hr. unfold respond, ret.
  eexists _, _, _, _, _. split; [reflexivity|]. cbn in Hc. lia.
Qed.

(** At 18:25:00 on a Monday the store fails the read of the class-reminder
    list: the result is the error outcome, not an executed one. Ninety
    seconds after the target, at 18:26:30, the job still runs: the clock is
    compared in whole minutes. And at 18:25:00 a request without the
    configured secret is answered "unauthorized". *)
Lemma C5_counterexample :
  fst (handler Scenario.first_store_call_fails Scenario.deployed Scenario.plain_request
         Scenario.monday_18_25 Scenario.class_list_7)
  = Ok {| status := 200; json := Failure "fetch failed" |}
  /\ fst (handler Scenario.calm Scenario.deployed Scenario.plain_request
            (Scenario.monday_18_25 + 90000) Scenario.class_list_7)
     = Ok {| status := 200;
             json := Executed 1 18 26 "Database Design Concepts" 1 1 0 0 |}
  /\ fst (handler Scenario.calm Scenario.deployed_with_secret Scenario.plain_request
            Scenario.monday_18_25 Scenario.class_list_7)
     = Ok {| status := 401; json := Unauthorized |}.
Proof. repeat split; vm_compute; reflexivity. Qed.

(** C5, as the code has it. For every invocation of the reminder job that
    passes the configuration and authorization checks, with the clock read
    in GMT+5 in whole minutes: without the override flag, a weekday without
    an entry in the schedule gives the skipped-no-class outcome; a weekday
    with an entry and a reading more than one minute from 18:25 gives the
    skipped-wrong-time outcome; a weekday with an entry and a reading within
    one minute of 18:25 (18:24, 18:25 or 18:26) gives an executed outcome
    with the class name of the table, provided the store answers the read of
    the subscriber list, and otherwise the error outcome. With the override
    flag the reading of the clock is not looked at; the weekday still needs
    an entry. *)
Theorem C5_reminder_gate
    (E : env) (penv : process_env) (req : request) (now : Z) (w : world)
    (Hconf : Spec.configured penv) (Hauth : Spec.authorized penv req) :
  let p := getGmt5Parts now in
  let r := handler E penv req now w in
  (q_force req <> Some "1"%string ->
     (CLASS_SCHEDULE_BY_GMT5_DAY (day p) = None ->
        r = (Ok {| status := 200; json := SkippedNoClass (day p) |}, w))
     /\ (forall c, CLASS_SCHEDULE_BY_GMT5_DAY (day p) = Some c ->
           1 < Z.abs (Spec.now_minutes now - Spec.target_minutes) ->
           r = (Ok {| status := 200;
                      json := SkippedWrongTime (day p) (hour p) (minute p) |}, w))
     /\ (forall c, CLASS_SCHEDULE_BY_GMT5_DAY (day p) = Some c ->
           Z.abs (Spec.now_minutes now - Spec.target_minutes) <= 1 ->
           (kv_fails E (n_kv w) = None ->
              exists total sent removed failed,
                fst r = Ok {| status := 200;
                              json := Executed (day p) (hour p) (minute p) c
                                        total sent removed failed |})
           /\ (forall e, kv_fails E (n_kv w) = Some e ->
                  exists msg, fst r = Ok {| status := 200; json := Failure msg |})))
  /\ (q_force req = Some "1"%string ->
       (CLASS_SCHEDULE_BY_GMT5_DAY (day p) = None ->
          r = (Ok {| status := 200; json := SkippedNoClass (day p) |}, w))
       /\ (forall c, CLASS_SCHEDULE_BY_GMT5_DAY (day p) = Some c ->
             kv_fails E (n_kv w) = None ->
             exists total sent removed failed,
               fst r = Ok {| status := 200;
                             json := Executed (day p) (hour p) (minute p) c
                                       total sent removed failed |})).
Proof.
  cbv zeta. rewrite (handler_checked E penv req now w Hconf Hauth).
  unfold Spec.now_minutes, Spec.target_minutes.
  change (CLASS_REMINDER_HOUR_GMT5 * 60 + CLASS_REMINDER_MINUTE_GMT5) with (18 * 60 + 25).
  set (p := getGmt5Parts now). split.
  - intros Hf. rewrite (bool_decide_eq_false_2 _ Hf). cbn [negb]. split; [|split].
    + intros Hn. rewrite Hn. reflexivity.
    + intros c Hc Hfar. rewrite Hc, (schedule_entry_set _ _ Hc). cbn [negb].
      apply Z.ltb_lt in Hfar. rewrite Hfar. reflexivity.
    + intros c Hc Hnear. rewrite Hc, (schedule_entry_set _ _ Hc). cbn [negb].
      apply Z.ltb_ge in Hnear. rewrite Hnear. cbn [default]. split.
      * intros Hkv. destruct (reminder_fanout E c p w Hkv)
          as (total & sent & removed & failed & w' & Hr & _).
        cbv zeta in Hr. unfold try_catch, id. rewrite Hr. cbn [fst]. eauto.
      * intros e Hkv. unfold try_catch, bind at 1, kv_smembers, kv_call.
        rewrite Hkv. cbn. eauto.
  - intros Hf. rewrite (bool_decide_eq_true_2 _ Hf). cbn [negb]. split.
    + intros Hn. rewrite Hn. reflexivity.
    + intros c Hc Hkv. rewrite Hc, (schedule_entry_set _ _ Hc). cbn [negb default].
      destruct (reminder_fanout E c p w Hkv)
        as (total & sent & removed & failed & w' & Hr & _).
      cbv zeta in Hr. unfold try_catch, id. rewrite Hr. cbn [fst]. eauto.
Qed.

(** The theorem at 18:25:00 on Monday 6 January 2025, with a store that
    answers: the outcome is executed, for the class of the Monday. *)
Lemma C5_witness :
  exists total sent removed failed,
    fst (handler Scenario.calm Scenario.deployed Scenario.plain_request
           Scenario.monday_18_25 Scenario.class_list_7)
    = Ok {| status := 200;
            json := Executed 1 18 25 "Database Design Concepts"
                      total sent removed failed |}.
Proof.
  refine (proj1 (proj2 (proj2 (proj1
            (C5_reminder_gate Scenario.calm Scenario.deployed Scenario.plain_request
               Scenario.monday_18_25 Scenario.class_list_7 _ _) _))
            "Database Design Concepts"%string _ _) _).
  - repeat split.
  - left. reflexivity.
  - discriminate.
  - reflexivity.
  - vm_compute. discriminate.
  - reflexivity.
Defined.

End Reminder.

(* ================================================================== *)
(** * Further properties                                               *)
(* ================================================================== *)

Ltac ev_cases H :=
  cbn [In] in H;
  repeat (destruct H as [H|H]; [try discriminate H; try (inversion H; subst; clear H)|]);
  try contradiction.

(** ** db.js *)

Section Database.

Lemma listActiveUsers_spec (w : world) :
  exists l, Db.listActiveUsers w = (Ok l, w)
            /\ NoDup l
            /\ forall u, u ∈ l <-> users w !! u = Some false.
Proof.
  unfold Db.listActiveUsers. eexists. split; [reflexivity|]. split.
  - apply NoDup_fmap_fst.
    + intros x y1 y2 H1 H2.
      apply list_elem_of_filter in H1 as [_ H1]. apply list_elem_of_filter in H2 as [_ H2].
      apply elem_of_map_to_list in H1. apply elem_of_map_to_list in H2. congruence.
    + apply NoDup_filter, NoDup_map_to_list.
  - intros u. change (map fst) with (fmap (M := list) (@fst Z bool)).
    rewrite list_elem_of_fmap. split.
    + intros ([v b] & -> & H). apply list_elem_of_filter in H as [Hb H].
      apply elem_of_map_to_list in H. cbn in *. congruence.
    + intros H. exists (u, false). split; [reflexivity|].
      apply list_elem_of_filter. split; [reflexivity|]. now apply elem_of_map_to_list.
Qed.

(** X1. [listActiveUsers] of db.js returns exactly the users whose row is
    not blocked, each of them once, and changes nothing. *)
Theorem X1_listActiveUsers_are_the_unblocked_rows (w : world) :
  exists l, Db.listActiveUsers w = (Ok l, w)
            /\ NoDup l
            /\ forall u, u ∈ l <-> users w !! u = Some false.
Proof. apply listActiveUsers_spec. Qed.

(** X2. [addUser] of db.js inserts an unblocked row for an id without a row
    and leaves the world as it is for an id that has one: a blocked user
    stays blocked, the rows of the other users are never touched, and adding
    a second time changes nothing. *)
Theorem X2_addUser_inserts_once_and_never_unblocks (u : Z) (w : world) :
  let w' := snd (Db.addUser u w) in
  (users w !! u = None -> users w' !! u = Some false)
  /\ (forall b, users w !! u = Some b -> w' = w)
  /\ (forall v, v <> u -> users w' !! v = users w !! v)
  /\ Db.addUser u w' = (Ok tt, w').
Proof.
  cbv zeta. unfold Db.addUser. cbn [snd].
  destruct (users w !! u) as [b|] eqn:Hu.
  - repeat split; try discriminate; auto. now rewrite Hu.
  - split; [intros _; cbn; apply lookup_insert_eq|]. split; [discriminate|].
    split; [intros v Hv; cbn; now apply lookup_insert_ne|].
    cbn. now rewrite lookup_insert_eq.
Qed.

Lemma X2_witness :
  users (snd (Db.addUser 7 Scenario.empty_world)) !! 7 = Some false.
Proof.
  refine (proj1 (X2_addUser_inserts_once_and_never_unblocks 7 Scenario.empty_world) _).
  reflexivity.
Defined.

(** X3. [markBlocked] of db.js sets the blocked flag of the user's row, if
    there is one, and is without effect otherwise; the rows of the other
    users are untouched, and the user is not among the active users
    afterwards. *)
Theorem X3_markBlocked_deactivates (u : Z) (w : world) :
  let w' := snd (Db.markBlocked u w) in
  (forall b, users w !! u = Some b -> users w' !! u = Some true)
  /\ (users w !! u = None -> w' = w)
  /\ (forall v, v <> u -> users w' !! v = users w !! v)
  /\ (forall l w2, Db.listActiveUsers w' = (Ok l, w2) ->
        (u ∉ l) /\ forall v, v <> u -> (v ∈ l <-> users w !! v = Some false)).
Proof.
  cbv zeta.
  assert (Hrows : forall v, v <> u ->
             users (snd (Db.markBlocked u w)) !! v = users w !! v).
  { intros v Hv. unfold Db.markBlocked. cbn [snd].
    destruct (users w !! u); cbn; [now apply lookup_insert_ne|reflexivity]. }
  assert (Hu : users (snd (Db.markBlocked u w)) !! u <> Some false).
  { unfold Db.markBlocked. cbn [snd]. destruct (users w !! u) eqn:H; cbn.
    - rewrite lookup_insert_eq. discriminate.
    - rewrite H. discriminate. }
  split; [|split; [|split; [exact Hrows|]]].
  - intros b Hb. unfold Db.markBlocked. cbn [snd]. rewrite Hb. cbn.
    apply lookup_insert_eq.
  - intros Hn. unfold Db.markBlocked. cbn [snd]. now rewrite Hn.
  - intros l w2 Hl.
    destruct (listActiveUsers_spec (snd (Db.markBlocked u w))) as (l' & Hl' & _ & Hin).
    rewrite Hl' in Hl. injection Hl as <- _. split.
    + rewrite Hin. exact Hu.
    + intros v Hv. rewrite Hin, Hrows by exact Hv. reflexivity.
Qed.

Lemma X3_witness :
  users (snd (Db.markBlocked 7 (snd (Db.addUser 7 Scenario.empty_world)))) !! 7
  = Some true.
Proof.
  refine (proj1 (X3_markBlocked_deactivates 7 (snd (Db.addUser 7 Scenario.empty_world)))
            false _).
  reflexivity.
Defined.

End Database.

(** ** src/index.js *)

Section IndexFanout.

Import Trace Facts.

Variable E : env.

Lemma users_facts_refl (w : world) : users_facts w w [].
Proof.
  split; auto.
  intros u (t & m & e & [] & _).
Qed.

Lemma users_facts_trans (w w1 w2 : world) (d1 d2 : list event) :
  users_facts w w1 d1 -> users_facts w1 w2 d2 -> users_facts w w2 (d1 ++ d2).
Proof.
  intros [b1 o1 r1 s1 k1] [b2 o2 r2 s2 k2]. split.
  - intros u Hb Hrow. apply blocked_in_app in Hb as [Hb|Hb].
    + apply s2, b1; auto.
    + apply b2; [exact Hb|]. now apply r1.
  - intros u Hnb. rewrite o2, o1; auto; intros H; apply Hnb, blocked_in_app; auto.
  - intros u. now rewrite r2, r1.
  - intros u Hu. now apply s2, s1.
  - congruence.
Qed.

Lemma users_facts_same (w w' : world) (d : list event) :
  users w' = users w -> store w' = store w ->
  (forall u, ~ blocked_in d u) -> users_facts w w' d.
Proof.
  intros Hu Hs Hn. split; rewrite ?Hu; auto.
  intros u Hb. now apply Hn in Hb.
Qed.

Lemma blocked_in_single (uid u : Z) t m e tag args :
  blocked_in [EvSend uid t m (Some e); EvLog tag args] u ->
  u = uid /\ is_403 (error_code_of e) = true.
Proof.
  intros (t' & m' & e' & Hin & H). destruct Hin as [Hin|[Hin|[]]]; [|discriminate].
  inversion Hin; subst. split; [reflexivity|]. now apply is_403_iff.
Qed.

Lemma index_body_facts previewText linkUrl (uid : Z) (w : world) :
  exists w' d, Index.notify_body E previewText linkUrl uid w = (Ok tt, w')
               /\ trace w' = trace w ++ d /\ attempt_trace 60 uid d
               /\ users_facts w w' d.
Proof.
  unfold Index.notify_body, try_catch, bind, sendMessage, sleep, console_error, ret,
    Db.markBlocked.
  destruct (gateway E (n_send w) uid) as [e|] eqn:G.
  - destruct (is_403 (error_code_of e)) eqn:H403; cbn [fst snd users emit tick_send];
      [destruct (users w !! uid) as [b|] eqn:Hrow|];
      (eexists; eexists; split; [reflexivity|];
       cbn [trace emit set_users tick_send];
       split; [rewrite <- !app_assoc; reflexivity|];
       split; [constructor; repeat constructor|]).
    + split; cbn [users store emit set_users tick_send].
      * intros u Hb _. apply blocked_in_single in Hb as [-> _]. apply lookup_insert_eq.
      * intros u Hnb. apply lookup_insert_ne. intros <-. apply Hnb.
        eexists _, _, e. split; [now left|now apply is_403_iff].
      * intros u. destruct (decide (uid = u)) as [<-|Hne].
        -- rewrite lookup_insert_eq, Hrow. split; eauto.
        -- now rewrite lookup_insert_ne.
      * intros u Hu. destruct (decide (uid = u)) as [<-|Hne].
        -- apply lookup_insert_eq.
        -- now rewrite lookup_insert_ne.
      * reflexivity.
    + split; cbn [users store emit set_users tick_send]; auto.
      intros u Hb [b Hb']. apply blocked_in_single in Hb as [-> _]. congruence.
    + apply users_facts_same; auto.
      intros u Hb. apply blocked_in_single in Hb as [_ Hb]. congruence.
  - eexists; eexists; split; [reflexivity|]. cbn [trace emit tick_send].
    split; [rewrite <- !app_assoc; reflexivity|]. split; [constructor|].
    apply users_facts_same; auto.
    intros u (t' & m' & e' & Hin & _). ev_cases Hin.
Qed.

Lemma index_loop_facts previewText linkUrl (l : list Z) :
  forall w, exists w' d,
    for_of l (Index.notify_body E previewText linkUrl) w = (Ok tt, w')
    /\ trace w' = trace w ++ d /\ fanout_trace 60 l d /\ users_facts w w' d.
Proof.
  induction l as [|uid rest IH]; intros w; cbn [for_of].
  - exists w, []. split; [reflexivity|]. rewrite app_nil_r.
    split; [reflexivity|]. split; [constructor|apply users_facts_refl].
  - destruct (index_body_facts previewText linkUrl uid w) as (w1 & d1 & Hb & Ht1 & Ha & Hu1).
    destruct (IH w1) as (w2 & d2 & Hl & Ht2 & Hf & Hu2).
    exists w2, (d1 ++ d2). unfold bind. rewrite Hb. split; [exact Hl|].
    split; [rewrite Ht2, Ht1; now rewrite app_assoc|].
    split; [now apply fanout_trace_cons|eapply users_facts_trans; eauto].
Qed.

Lemma sent_to_In (d : list event) (u : Z) t m e :
  In (EvSend u t m e) d -> In u (sent_to d).
Proof.
  induction d as [|ev d IH]; [intros []|]. intros [->|Hin].
  - now left.
  - destruct ev; cbn; auto.
Qed.

End IndexFanout.

(** X4. In the fan-out of src/index.js every recipient whose send is
    rejected with error code 403 has its row marked blocked and is not among
    the active users afterwards; every other row of the user table is as it
    was (a rejection with another code blocks nobody); and the KV store is
    not touched. *)
Theorem X4_index_fanout_blocks_403_recipients
    (E : env) (previewText : jstr) (linkUrl : jsval) (w : world) :
  let w' := snd (Index.notifyAllUsers E previewText linkUrl w) in
  let d := since w w' in
  (forall u, Trace.blocked_in d u ->
     users w' !! u = Some true
     /\ forall l w2, Db.listActiveUsers w' = (Ok l, w2) -> u ∉ l)
  /\ (forall u, ~ Trace.blocked_in d u -> users w' !! u = users w !! u)
  /\ store w' = store w.
Proof.
  cbv zeta. unfold Index.notifyAllUsers, bind.
  destruct (listActiveUsers_spec w) as (l & Hl & _ & Hin). rewrite Hl.
  destruct (index_loop_facts E previewText linkUrl l w) as (w' & d & Hrun & Ht & Hf & Hu).
  rewrite Hrun. cbn [snd]. rewrite (since_app _ _ _ Ht).
  destruct Hu as [ub uo ur us uk]. split; [|split; [exact uo|exact uk]].
  intros u Hb.
  assert (Hrow : users w' !! u = Some true).
  { apply ub; [exact Hb|]. destruct Hb as (t & m & e & Hs & _).
    apply sent_to_In in Hs. rewrite (fanout_trace_sent_to _ _ _ Hf) in Hs.
    apply list_elem_of_In, Hin in Hs. eauto. }
  split; [exact Hrow|]. intros l2 w2 Hl2.
  destruct (listActiveUsers_spec w') as (l' & Hl' & _ & Hin').
  rewrite Hl' in Hl2. injection Hl2 as <- _. rewrite Hin'. congruence.
Qed.

Lemma X4_witness :
  let E := {| gateway := fun _ _ => Some Scenario.blocked;
              kv_fails := fun _ => None; ctx_fails := fun _ => None |} in
  let w := snd (Db.addUser 7 Scenario.empty_world) in
  users (snd (Index.notifyAllUsers E (lit "In a group") VNull w)) !! 7 = Some true.
Proof.
  cbv zeta.
  refine (proj1 (proj1 (X4_index_fanout_blocks_403_recipients _ (lit "In a group") VNull
                          (snd (Db.addUser 7 Scenario.empty_world))) 7 _)).
  eexists _, _, Scenario.blocked. split; [|eexists; split; reflexivity].
  vm_compute. left. reflexivity.
Defined.

Section IndexHandlers.

Import Trace Facts.

Variable E : env.

(** X5. [bot.start] of src/index.js registers the sender before it replies:
    a sender without a row becomes an active user even when the reply is
    rejected, while a sender that has a row keeps it as it is, so that a user
    marked blocked is not reactivated by /start. Nobody else's row
    changes. *)
Theorem X5_index_start_registers_and_never_unblocks (c : Telegram.ctx) (w : world) :
  let u := Telegram.from_id c in
  let w' := snd (IndexBot.on_start E c w) in
  (users w !! u = None -> users w' !! u = Some false)
  /\ (forall b, users w !! u = Some b -> users w' !! u = Some b)
  /\ (forall v, v <> u -> users w' !! v = users w !! v).
Proof.
  cbv zeta.
  assert (Hr : users (snd (IndexBot.on_start E c w))
               = users (snd (Db.addUser (Telegram.from_id c) w))).
  { unfold IndexBot.on_start, bind, ctx_do. cbn [Db.addUser].
    match goal with |- context [ctx_fails E ?n] => destruct (ctx_fails E n) end;
      reflexivity. }
  rewrite Hr. unfold Db.addUser. cbn [snd].
  destruct (users w !! Telegram.from_id c) as [b|] eqn:Hu.
  - split; [discriminate|]. split; [congruence|reflexivity].
  - cbn [users set_users]. split; [intros _; apply lookup_insert_eq|].
    split; [discriminate|]. intros v Hv. now apply lookup_insert_ne.
Qed.

End IndexHandlers.

Lemma X5_witness :
  let w := snd (Db.markBlocked 7 (snd (Db.addUser 7 Scenario.empty_world))) in
  let c := {| Telegram.chat := VObj [("type"%string, VStr (lit "private"))];
              Telegram.from_id := 7; Telegram.updateType := "message";
              Telegram.ctx_message := None |} in
  users (snd (IndexBot.on_start Scenario.calm c w)) !! 7 = Some true.
Proof.
  cbv zeta.
  refine (proj1 (proj2 (X5_index_start_registers_and_never_unblocks Scenario.calm
                          {| Telegram.chat := VObj [("type"%string, VStr (lit "private"))];
                             Telegram.from_id := 7; Telegram.updateType := "message";
                             Telegram.ctx_message := None |}
                          (snd (Db.markBlocked 7 (snd (Db.addUser 7 Scenario.empty_world))))))
            true _).
  reflexivity.
Defined.


(** ** The store adapter of src/api/telegram.js *)

Section Adapter.

Import Trace Facts.

Variable E : env.

(** X6. Round trip of the adapter of src/api/telegram.js, when the store
    answers the two calls: after [setSub(key, u, true)], [isSub(key, u)] is
    true; after [setSub(key, u, false)] it is false; and for every other key
    or user, [isSub] answers what the store held before. *)
Theorem X6_setSub_isSub_round_trip (key : string) (u : Z) (enabled : bool) (w : world)
    (H1 : kv_fails E (n_kv w) = None) (H2 : kv_fails E (S (n_kv w)) = None) :
  let w1 := snd (Telegram.setSub E key u enabled w) in
  fst (Telegram.isSub E key u w1) = Ok enabled
  /\ forall key' u', (key' <> key \/ u' <> u) ->
       fst (Telegram.isSub E key' u' w1) = Ok (bool_decide (u' ∈ members (store w) key')).
Proof.
  cbv zeta. rewrite setSub_eq, H1. cbn [snd]. split.
  - rewrite isSub_eq. cbn [n_kv emit set_store tick_kv store]. rewrite H2. cbn [fst].
    f_equal. destruct enabled.
    + apply bool_decide_eq_true. rewrite elem_of_sadd_in. auto.
    + apply bool_decide_eq_false. rewrite elem_of_srem_in. tauto.
  - intros key' u' Hne. rewrite isSub_eq. cbn [n_kv emit set_store tick_kv store].
    rewrite H2. cbn [fst]. f_equal. apply bool_decide_ext. destruct enabled.
    + rewrite elem_of_sadd_in. tauto.
    + rewrite elem_of_srem_in. tauto.
Qed.

(** X7. Idempotence of the adapter: when the store answers, adding a user
    that is already a member, and removing a user that is not a member, leave
    the members of every list as they were - so adding twice is adding once.
    A call that the store rejects leaves them as they were in any case. *)
Theorem X7_setSub_idempotent (key : string) (u : Z) (w : world) :
  (u ∈ members (store w) key ->
     forall key', members (store (snd (Telegram.setSub E key u true w))) key'
                  = members (store w) key')
  /\ (u ∉ members (store w) key ->
       forall key', members (store (snd (Telegram.setSub E key u false w))) key'
                    = members (store w) key')
  /\ (kv_fails E (n_kv w) = None ->
      forall key',
        members (store (snd (Telegram.setSub E key u true
                               (snd (Telegram.setSub E key u true w))))) key'
        = members (store (snd (Telegram.setSub E key u true w))) key')
  /\ (forall enabled e, kv_fails E (n_kv w) = Some e ->
        store (snd (Telegram.setSub E key u enabled w)) = store w).
Proof.
  split; [|split; [|split]].
  - intros Hu key'. rewrite setSub_eq. destruct (kv_fails E (n_kv w)); [reflexivity|].
    cbn [snd store emit set_store]. apply set_eq. intros x.
    rewrite elem_of_sadd_in. split; [|auto]. intros [H|[-> ->]]; auto.
  - intros Hu key'. rewrite setSub_eq. destruct (kv_fails E (n_kv w)); [reflexivity|].
    cbn [snd store emit set_store]. apply set_eq. intros x.
    rewrite elem_of_srem_in. split; [tauto|]. intros H. split; [exact H|].
    intros [-> ->]. contradiction.
  - intros F key'.
    rewrite (setSub_eq E key u true w), F. cbn [snd].
    rewrite setSub_eq. cbn [n_kv emit set_store tick_kv store].
    destruct (kv_fails E (S (n_kv w))); [reflexivity|].
    cbn [snd store emit set_store]. apply set_eq. intros x.
    rewrite !elem_of_sadd_in. tauto.
  - intros enabled e F. rewrite setSub_eq, F. reflexivity.
Qed.

(** X8. When the store answers, [listSubs(key)] returns the members of the
    list, each of them once, and leaves the store as it was. *)
Theorem X8_listSubs_lists_each_member_once (key : string) (w : world)
    (H : kv_fails E (n_kv w) = None) :
  exists ids w', Telegram.listSubs E key w = (Ok ids, w')
                 /\ NoDup ids
                 /\ (forall u, u ∈ ids <-> u ∈ members (store w) key)
                 /\ store w' = store w.
Proof.
  rewrite listSubs_eq, H. eexists _, _. split; [reflexivity|].
  split; [apply NoDup_elements|]. split; [intros u; apply elem_of_elements|reflexivity].
Qed.

Lemma getSettings_spec (u : Z) (w : world) :
  exists a c w', Telegram.getSettings E u w = (Ok (a, c), w')
    /\ store w' = store w
    /\ (kv_fails E (n_kv w) = None ->
          a = bool_decide (u ∈ members (store w) Telegram.SUBS_ATTENDANCE_KEY))
    /\ (kv_fails E (S (n_kv w)) = None ->
          c = bool_decide (u ∈ members (store w) Telegram.SUBS_CLASS_KEY))
    /\ (forall e, kv_fails E (n_kv w) = Some e -> a = false)
    /\ (forall e, kv_fails E (S (n_kv w)) = Some e -> c = false).
Proof.
  unfold Telegram.getSettings, promise_all2. rewrite isSub_eq.
  destruct (kv_fails E (n_kv w)) as [e1|] eqn:F1; rewrite isSub_eq;
    cbn [n_kv emit set_store tick_kv store];
    destruct (kv_fails E (S (n_kv w))) as [e2|] eqn:F2;
    (eexists _, _, _; split; [reflexivity|]; cbn [store emit set_store tick_kv];
     repeat split; auto; discriminate).
Qed.

(** X9. [getSettings] never throws and never changes the store. When the
    store answers both reads it returns the two memberships of the user; a
    read that the store rejects is reported as "off", whatever the
    membership. *)
Theorem X9_getSettings_reads_memberships (u : Z) (w : world) :
  exists a c w', Telegram.getSettings E u w = (Ok (a, c), w')
    /\ store w' = store w
    /\ (kv_fails E (n_kv w) = None ->
          a = bool_decide (u ∈ members (store w) Telegram.SUBS_ATTENDANCE_KEY))
    /\ (kv_fails E (S (n_kv w)) = None ->
          c = bool_decide (u ∈ members (store w) Telegram.SUBS_CLASS_KEY))
    /\ (forall e, kv_fails E (n_kv w) = Some e -> a = false)
    /\ (forall e, kv_fails E (S (n_kv w)) = Some e -> c = false).
Proof. apply getSettings_spec. Qed.

End Adapter.

Lemma X9_witness :
  exists a c w',
    Telegram.getSettings Scenario.first_store_call_fails 7 Scenario.both_lists_7
    = (Ok (a, c), w')
    /\ a = false
    /\ c = bool_decide (7 ∈ members (store Scenario.both_lists_7) Telegram.SUBS_CLASS_KEY).
Proof.
  destruct (X9_getSettings_reads_memberships Scenario.first_store_call_fails 7
              Scenario.both_lists_7) as (a & c & w' & H & _ & _ & Hc & Ha & _).
  exists a, c, w'. split; [exact H|]. split; [exact (Ha Scenario.store_down eq_refl)|].
  exact (Hc eq_refl).
Defined.

Lemma X7_witness :
  members (store (snd (Telegram.setSub Scenario.calm "subs:attendance" 7 true
                         Scenario.both_lists_7))) "subs:attendance"
  = members (store Scenario.both_lists_7) "subs:attendance".
Proof.
  refine (proj1 (X7_setSub_idempotent Scenario.calm "subs:attendance" 7
                   Scenario.both_lists_7) _ "subs:attendance"%string).
  refine (bool_decide_unpack _ _). vm_compute. exact I.
Defined.

Lemma X6_witness :
  fst (Telegram.isSub Scenario.calm "subs:class" 5
         (snd (Telegram.setSub Scenario.calm "subs:class" 5 true Scenario.empty_world)))
  = Ok true.
Proof.
  refine (proj1 (X6_setSub_isSub_round_trip Scenario.calm "subs:class" 5 true
                   Scenario.empty_world _ _)); reflexivity.
Defined.

Lemma X8_witness :
  exists ids w', Telegram.listSubs Scenario.calm "subs:class" Scenario.both_lists_7
                 = (Ok ids, w')
                 /\ NoDup ids
                 /\ (forall u, u ∈ ids <-> u ∈ members (store Scenario.both_lists_7) "subs:class")
                 /\ store w' = store Scenario.both_lists_7.
Proof.
  refine (X8_listSubs_lists_each_member_once Scenario.calm "subs:class"
            Scenario.both_lists_7 _).
  reflexivity.
Defined.

(** ** The handlers of src/api/telegram.js *)

Section Handlers.

Import Trace Facts.

Variable E : env.

Lemma frames_ret {A} (a : A) : frames (ret a).
Proof. intros w. reflexivity. Qed.

Lemma frames_bind {A B} (m : M A) (k : A -> M B) :
  frames m -> (forall a, frames (k a)) -> frames (bind m k).
Proof.
  intros Hm Hk w. unfold bind. specialize (Hm w).
  destruct (m w) as [[a|e] w1]; cbn [snd] in *; [now rewrite Hk|exact Hm].
Qed.

Lemma frames_try_catch {A} (body : M A) (h : js_error -> M A) :
  frames body -> (forall e, frames (h e)) -> frames (try_catch body h).
Proof.
  intros Hb Hh w. unfold try_catch. specialize (Hb w).
  destruct (body w) as [[a|e] w1]; cbn [snd] in *; [exact Hb|now rewrite Hh].
Qed.

Lemma frames_ctx_do call p : frames (ctx_do E call p).
Proof. intros w. unfold ctx_do. now destruct (ctx_fails E (n_ctx w)). Qed.

Lemma frames_getSettings u : frames (Telegram.getSettings E u).
Proof.
  intros w. destruct (getSettings_spec E u w) as (a & c & w' & H & Hs & _).
  now rewrite H.
Qed.

Lemma frames_showMenu c preferEdit : frames (Telegram.showMenu E c preferEdit).
Proof.
  unfold Telegram.showMenu. destruct (Telegram.not_private c); [apply frames_ret|].
  apply frames_bind; [apply frames_getSettings|]. intros settings.
  apply frames_bind.
  - destruct (preferEdit && _); [|apply frames_ret].
    apply frames_try_catch; [|intros; apply frames_ret].
    apply frames_bind; [apply frames_ctx_do|intros; apply frames_ret].
  - intros [|]; [apply frames_ret|apply frames_ctx_do].
Qed.

(** Binding a computation that leaves the store alone. *)
Lemma store_bind_frames {A B} (m : M A) (k : A -> M B) (w : world) :
  (forall a, frames (k a)) -> store (snd (bind m k w)) = store (snd (m w)).
Proof.
  intros Hk. unfold bind. destruct (m w) as [[a|e] w1]; cbn [snd]; [apply Hk|reflexivity].
Qed.

Lemma private_is_no_group (c : Telegram.ctx) :
  Telegram.not_private c = false -> Telegram.is_group c = false.
Proof.
  unfold Telegram.not_private, Telegram.is_group.
  destruct (opt_prop (Telegram.chat c) "type") as [| |b|z|t|ps];
    cbn [is_string negb orb]; try discriminate.
  intros H. apply negb_false_iff, bool_decide_eq_true in H. subst t.
  vm_compute. reflexivity.
Qed.

(** X10. The commands and menu actions of src/api/telegram.js work in
    private chats only and the keyword detection in groups only: a /start,
    /settings or /stop command or a menu action arriving in a chat that is
    not private, and a message arriving in a private chat, complete without
    any effect - no store call, no reply, no log line. *)
Theorem X10_handlers_are_scoped_to_their_chat_type
    (u : Telegram.update) (c : Telegram.ctx) (w : world) :
  (Telegram.not_private c = true -> u <> Telegram.UMessage ->
     Telegram.handleUpdate E u c w = (Ok tt, w))
  /\ (Telegram.not_private c = false ->
       Telegram.handleUpdate E Telegram.UMessage c w = (Ok tt, w)).
Proof.
  split.
  - intros Hp Hu. destruct u as [| |data| |]; cbn [Telegram.handleUpdate];
      unfold Telegram.on_start, Telegram.on_settings, Telegram.showMenu,
        Telegram.on_preset_attendance, Telegram.on_preset_both,
        Telegram.on_preset_none, Telegram.on_stop;
      rewrite ?Hp; try reflexivity; [|congruence].
    repeat (destruct (String.eqb data _)); reflexivity.
  - intros Hp. cbn [Telegram.handleUpdate]. unfold Telegram.on_message.
    now rewrite (private_is_no_group c Hp).
Qed.

Lemma pair_store2 k1 b1 k2 b2 (u : Z) (w : world) :
  kv_fails E (n_kv w) = None -> kv_fails E (S (n_kv w)) = None ->
  store (snd (promise_all2 (Telegram.setSub E k1 u b1) (Telegram.setSub E k2 u b2) w))
  = (if b2 : bool then sadd_in k2 u else srem_in k2 u)
      ((if b1 : bool then sadd_in k1 u else srem_in k1 u) (store w)).
Proof.
  intros H1 H2. unfold promise_all2. rewrite setSub_eq, H1, setSub_eq.
  cbn [n_kv emit set_store tick_kv]. rewrite H2. destruct b1, b2; reflexivity.
Qed.

(** The store after a menu action or /stop in a private chat is the store
    after its pair of store calls: what follows only reads. *)
Lemma action_store (c : Telegram.ctx) (w : world) :
  Telegram.not_private c = false ->
  let u := Telegram.from_id c in
  store (snd (Telegram.handleUpdate E (Telegram.UAction "preset:attendance") c w))
  = store (snd (promise_all2 (Telegram.setSub E Telegram.SUBS_ATTENDANCE_KEY u true)
                             (Telegram.setSub E Telegram.SUBS_CLASS_KEY u false) w))
  /\ store (snd (Telegram.handleUpdate E (Telegram.UAction "preset:both") c w))
     = store (snd (promise_all2 (Telegram.setSub E Telegram.SUBS_ATTENDANCE_KEY u true)
                                (Telegram.setSub E Telegram.SUBS_CLASS_KEY u true) w))
  /\ store (snd (Telegram.handleUpdate E (Telegram.UAction "preset:none") c w))
     = store (snd (promise_all2 (Telegram.setSub E Telegram.SUBS_ATTENDANCE_KEY u false)
                                (Telegram.setSub E Telegram.SUBS_CLASS_KEY u false) w))
  /\ store (snd (Telegram.handleUpdate E Telegram.UStop c w))
     = store (snd (promise_all2 (Telegram.setSub E Telegram.SUBS_ATTENDANCE_KEY u false)
                                (Telegram.setSub E Telegram.SUBS_CLASS_KEY u false) w)).
Proof.
  intros Hp. cbv zeta. cbn [Telegram.handleUpdate String.eqb Ascii.eqb Bool.eqb].
  unfold Telegram.on_preset_attendance, Telegram.on_preset_both,
    Telegram.on_preset_none, Telegram.on_stop, Telegram.removeFromAllLists.
  rewrite Hp.
  assert (Htail : forall (p : payload),
             frames (ctx_do E CAnswer p ;; Telegram.showMenu E c true)).
  { intros p. apply frames_bind; [apply frames_ctx_do|]. intros _. apply frames_showMenu. }
  repeat split.
  - apply store_bind_frames. intros a. apply Htail.
  - apply store_bind_frames. intros a. apply Htail.
  - rewrite store_bind_frames by (intros a; apply Htail).
    apply store_bind_frames. intros a. apply frames_ret.
  - rewrite store_bind_frames by (intros a; apply frames_ctx_do).
    apply store_bind_frames. intros a. apply frames_ret.
Qed.

(** X11. In a private chat, when the store answers the two calls of the
    action, the menu actions and /stop of src/api/telegram.js set the
    sender's subscriptions as their name says, whatever the gateway does with
    the answers that follow: "preset:attendance" leaves the sender on the
    attendance list and off the class list, "preset:both" on both,
    "preset:none" and /stop on neither. Nobody else's membership changes. *)
Theorem X11_menu_actions_set_the_subscriptions (c : Telegram.ctx) (w : world)
    (Hp : Telegram.not_private c = false)
    (H1 : kv_fails E (n_kv w) = None) (H2 : kv_fails E (S (n_kv w)) = None) :
  let u := Telegram.from_id c in
  let after upd := store (snd (Telegram.handleUpdate E upd c w)) in
  let on s key := u ∈ members s key in
  (on (after (Telegram.UAction "preset:attendance")) ATT
   /\ ~ on (after (Telegram.UAction "preset:attendance")) CLS)
  /\ (on (after (Telegram.UAction "preset:both")) ATT
      /\ on (after (Telegram.UAction "preset:both")) CLS)
  /\ (~ on (after (Telegram.UAction "preset:none")) ATT
      /\ ~ on (after (Telegram.UAction "preset:none")) CLS)
  /\ (~ on (after Telegram.UStop) ATT /\ ~ on (after Telegram.UStop) CLS)
  /\ (forall upd key v,
        In upd [Telegram.UAction "preset:attendance"; Telegram.UAction "preset:both";
                Telegram.UAction "preset:none"; Telegram.UStop] ->
        v <> u -> (v ∈ members (after upd) key <-> v ∈ members (store w) key)).
Proof.
  cbv zeta. destruct (action_store c w Hp) as (Ha & Hb & Hn & Hs).
  rewrite Ha, Hb, Hn, Hs, !pair_store2 by assumption.
  unfold ATT, CLS, Telegram.SUBS_ATTENDANCE_KEY, Telegram.SUBS_CLASS_KEY.
  repeat (rewrite elem_of_srem_in || rewrite elem_of_sadd_in).
  split; [|split; [|split; [|split]]]; try (intuition congruence).
  intros upd key v Hin Hv. destruct Hin as [<-|[<-|[<-|[<-|[]]]]];
    rewrite ?Ha, ?Hb, ?Hn, ?Hs, !pair_store2 by assumption;
    repeat (rewrite elem_of_srem_in || rewrite elem_of_sadd_in);
    intuition congruence.
Qed.

End Handlers.

Lemma X10_witness :
  Telegram.handleUpdate Scenario.first_store_call_fails Telegram.UStop
    Scenario.group_ctx Scenario.both_lists_7 = (Ok tt, Scenario.both_lists_7).
Proof.
  refine (proj1 (X10_handlers_are_scoped_to_their_chat_type Scenario.first_store_call_fails
                   Telegram.UStop Scenario.group_ctx Scenario.both_lists_7) _ _).
  - reflexivity.
  - discriminate.
Defined.

Lemma X11_witness :
  5 ∈ members (store (snd (Telegram.handleUpdate Scenario.calm
                             (Telegram.UAction "preset:both") Scenario.private_ctx_5
                             Scenario.empty_world))) Trace.CLS.
Proof.
  refine (proj2 (proj1 (proj2
            (X11_menu_actions_set_the_subscriptions Scenario.calm Scenario.private_ctx_5
               Scenario.empty_world _ _ _)))); reflexivity.
Defined.

(** ** The menu of src/api/telegram.js *)

Section Menu.

Import Trace Facts TelegramMenu.

(** X12. The keyboard built by [buildMenuKeyboard] offers the three actions
    "preset:attendance", "preset:both" and "preset:none", in this order, and
    marks as selected the one that matches the current settings: at most one
    option is marked, and none is in the one combination no action produces,
    class reminders on with attendance off. *)
Theorem X12_keyboard_marks_the_current_combination (botUsername : jsval) (st : settings) :
  actions (buildMenuKeyboard botUsername st)
  = ["preset:attendance"; "preset:both"; "preset:none"]%string
  /\ selected (buildMenuKeyboard botUsername st)
     = (if attendance st
        then (if classReminders st then ["preset:both"] else ["preset:attendance"])
        else (if classReminders st then [] else ["preset:none"]))%string.
Proof.
  destruct st as [[|] [|]]; split; reflexivity.
Qed.

(** X13. The text of the menu tells the four combinations of settings apart:
    two settings with the same text are the same settings. *)
Theorem X13_settings_text_determines_the_settings (s1 s2 : settings) :
  formatSettingsText s1 = formatSettingsText s2 -> s1 = s2.
Proof.
  destruct s1 as [[|] [|]], s2 as [[|] [|]]; intros H; try reflexivity;
    vm_compute in H; discriminate H.
Qed.

Lemma X13_witness :
  {| attendance := true; classReminders := false |}
  = {| attendance := true; classReminders := false |}.
Proof.
  refine (X13_settings_text_determines_the_settings _ _ _). reflexivity.
Defined.

(** X14. The schedule that the menu of src/api/telegram.js displays is the
    one the reminder job of api/class-reminders.js runs on: the two files
    hold the same class for every weekday, no class on the same weekdays, and
    the same reminder time. *)
Theorem X14_menu_and_job_share_the_schedule (day : Z) :
  TelegramMenu.CLASS_SCHEDULE_BY_GMT5_DAY day
  = match ClassReminders.CLASS_SCHEDULE_BY_GMT5_DAY day with
    | Some c => VStr (lit c)
    | None => VUndefined
    end
  /\ TelegramMenu.CLASS_REMINDER_HOUR_GMT5 = ClassReminders.CLASS_REMINDER_HOUR_GMT5
  /\ TelegramMenu.CLASS_REMINDER_MINUTE_GMT5 = ClassReminders.CLASS_REMINDER_MINUTE_GMT5.
Proof.
  split; [|split; reflexivity].
  unfold TelegramMenu.CLASS_SCHEDULE_BY_GMT5_DAY, ClassReminders.CLASS_SCHEDULE_BY_GMT5_DAY.
  repeat (destruct (_ =? _); [reflexivity|]). reflexivity.
Qed.

End Menu.

Section ShowMenu.

Import Trace Facts.

Variable E : env.

Lemma ctx_calls_app (d1 d2 : list event) :
  ctx_calls (d1 ++ d2) = ctx_calls d1 ++ ctx_calls d2.
Proof.
  induction d1 as [|e d1 IH]; [reflexivity|]. destruct e; cbn; now rewrite ?IH.
Qed.

Lemma getSettings_run (u : Z) (w : world) :
  exists a c w' d, Telegram.getSettings E u w = (Ok (a, c), w')
    /\ trace w' = trace w ++ d /\ ctx_calls d = []
    /\ n_ctx w' = n_ctx w /\ n_send w' = n_send w /\ n_kv w' = S (S (n_kv w))
    /\ store w' = store w
    /\ (kv_fails E (n_kv w) = None ->
          a = bool_decide (u ∈ members (store w) Telegram.SUBS_ATTENDANCE_KEY))
    /\ (kv_fails E (S (n_kv w)) = None ->
          c = bool_decide (u ∈ members (store w) Telegram.SUBS_CLASS_KEY)).
Proof.
  unfold Telegram.getSettings, promise_all2. rewrite isSub_eq.
  destruct (kv_fails E (n_kv w)) as [e1|] eqn:F1; rewrite isSub_eq;
    cbn [n_kv emit set_store tick_kv store];
    destruct (kv_fails E (S (n_kv w))) as [e2|] eqn:F2;
    (eexists _, _, _, _; split; [reflexivity|];
     cbn [store trace n_ctx n_send n_kv emit set_store tick_kv];
     rewrite <- ?app_assoc; cbn [app];
     split; [reflexivity|]; repeat split; auto; discriminate).
Qed.

(** X15. [showMenu] in a private chat reads the settings and shows the menu
    computed from them. Asked to prefer editing, on a button press, it edits
    the message in place and sends nothing else when the gateway accepts the
    edit; when the gateway rejects the edit it falls back to a reply with the
    same menu, and the rejection is not passed on. Only a rejected reply
    makes [showMenu] fail. *)
Theorem X15_showMenu_edits_or_falls_back_to_a_reply (c : Telegram.ctx) (w : world)
    (Hp : Telegram.not_private c = false)
    (Hcb : Telegram.updateType c = "callback_query"%string) :
  let r := Telegram.showMenu E c true w in
  let calls := ctx_calls (since w (snd r)) in
  exists a b,
    (kv_fails E (n_kv w) = None ->
       a = bool_decide (Telegram.from_id c ∈ members (store w) Telegram.SUBS_ATTENDANCE_KEY))
    /\ (kv_fails E (S (n_kv w)) = None ->
          b = bool_decide (Telegram.from_id c ∈ members (store w) Telegram.SUBS_CLASS_KEY))
    /\ (ctx_fails E (n_ctx w) = None ->
          fst r = Ok tt /\ calls = [(CEdit, PMenu a b, true)])
    /\ (forall e, ctx_fails E (n_ctx w) = Some e ->
          (ctx_fails E (S (n_ctx w)) = None ->
             fst r = Ok tt
             /\ calls = [(CEdit, PMenu a b, false); (CReply, PMenu a b, true)])
          /\ (forall e', ctx_fails E (S (n_ctx w)) = Some e' ->
                fst r = Thrown e'
                /\ calls = [(CEdit, PMenu a b, false); (CReply, PMenu a b, false)])).
Proof.
  destruct (getSettings_run (Telegram.from_id c) w)
    as (a & b & w1 & d & Hg & Ht & Hc & Hn & _ & _ & _ & Ha & Hb).
  assert (Heq : Telegram.showMenu E c true w =
      match ctx_fails E (n_ctx w) with
      | None => (Ok tt, emit (EvCtx CEdit (PMenu a b) true) (tick_ctx w1))
      | Some _ =>
          let w2 := emit (EvCtx CEdit (PMenu a b) false) (tick_ctx w1) in
          match ctx_fails E (S (n_ctx w)) with
          | None => (Ok tt, emit (EvCtx CReply (PMenu a b) true) (tick_ctx w2))
          | Some e' => (Thrown e', emit (EvCtx CReply (PMenu a b) false) (tick_ctx w2))
          end
      end).
  { unfold Telegram.showMenu. rewrite Hp, Hcb, String.eqb_refl. cbn [andb].
    unfold bind at 1. rewrite Hg. cbn [fst snd].
    unfold bind, try_catch, ctx_do, ret. rewrite Hn.
    destruct (ctx_fails E (n_ctx w)) as [e|]; [|reflexivity].
    cbn [n_ctx emit tick_ctx]. rewrite Hn. reflexivity. }
  intros r calls. subst calls r. rewrite Heq. clear Heq.
  exists a, b. split; [exact Ha|]. split; [exact Hb|].
  assert (Hs : forall k1 p1 o1, ctx_calls (since w (emit (EvCtx k1 p1 o1) (tick_ctx w1)))
                 = [(k1, p1, o1)]).
  { intros. erewrite since_app; [|cbn [trace emit tick_ctx]; rewrite Ht, <- !app_assoc; reflexivity].
    rewrite ctx_calls_app, Hc. reflexivity. }
  assert (Hs2 : forall k1 p1 o1 k2 p2 o2,
             ctx_calls (since w (emit (EvCtx k2 p2 o2)
                          (tick_ctx (emit (EvCtx k1 p1 o1) (tick_ctx w1)))))
             = [(k1, p1, o1); (k2, p2, o2)]).
  { intros. erewrite since_app; [|cbn [trace emit tick_ctx]; rewrite Ht, <- !app_assoc; reflexivity].
    rewrite ctx_calls_app, Hc. reflexivity. }
  destruct (ctx_fails E (n_ctx w)) as [e|].
  - split; [discriminate|]. intros e0 _. cbv zeta.
    destruct (ctx_fails E (S (n_ctx w))) as [e'|]; split; try discriminate.
    + intros e1 He1. injection He1 as <-. cbn [fst snd]. split; [reflexivity|]. apply Hs2.
    + intros _. cbn [fst snd]. split; [reflexivity|]. apply Hs2.
  - split; [|discriminate]. intros _. cbn [fst snd]. split; [reflexivity|]. apply Hs.
Qed.

End ShowMenu.

Lemma X15_witness :
  let E := {| gateway := fun _ _ => None; kv_fails := fun _ => None;
              ctx_fails := fun n => if Nat.eqb n 0 then Some Scenario.unavailable else None |} in
  fst (Telegram.showMenu E Scenario.private_ctx_5 true Scenario.empty_world) = Ok tt.
Proof.
  cbv zeta.
  destruct (X15_showMenu_edits_or_falls_back_to_a_reply
              {| gateway := fun _ _ => None; kv_fails := fun _ => None;
                 ctx_fails := fun n => if Nat.eqb n 0 then Some Scenario.unavailable else None |}
              Scenario.private_ctx_5 Scenario.empty_world eq_refl eq_refl)
    as (a & b & _ & _ & _ & H).
  exact (proj1 (proj1 (H Scenario.unavailable eq_refl) eq_refl)).
Defined.

(** ** The reminder job of api/class-reminders.js *)

Ltac wsimpl :=
  cbn [store users trace n_send n_kv n_ctx emit set_store set_users
       tick_send tick_kv tick_ctx fst snd] in *.

Section ReminderJob.

Import Trace Facts ClassReminders.

Variable E : env.

Lemma sent_to_app (d1 d2 : list event) : sent_to (d1 ++ d2) = sent_to d1 ++ sent_to d2.
Proof.
  induction d1 as [|e d1 IH]; [reflexivity|]. destruct e; cbn; now rewrite ?IH.
Qed.

Lemma delivered_app (d1 d2 : list event) : delivered (d1 ++ d2) = delivered d1 + delivered d2.
Proof.
  induction d1 as [|e d1 IH]; [reflexivity|].
  destruct e as [u t m [e|]| | | |]; cbn [app delivered]; lia.
Qed.

Lemma rejected_app (d1 d2 : list event) : rejected (d1 ++ d2) = rejected d1 + rejected d2.
Proof.
  induction d1 as [|e d1 IH]; [reflexivity|].
  destruct e as [u t m [e|]| | | |]; cbn [app rejected]; lia.
Qed.

Lemma rejected_403_app (d1 d2 : list event) :
  rejected_403 (d1 ++ d2) = rejected_403 d1 + rejected_403 d2.
Proof.
  induction d1 as [|e d1 IH]; [reflexivity|].
  destruct e as [u t m [e|]| | | |]; cbn [app rejected_403]; lia.
Qed.

Lemma sends_carry_app text mk (d1 d2 : list event) :
  sends_carry text mk d1 -> sends_carry text mk d2 -> sends_carry text mk (d1 ++ d2).
Proof.
  intros H1 H2 u t m e Hin. apply in_app_or in Hin. destruct Hin; eauto.
Qed.

(** Log lines and store calls count as no send. *)
Lemma quiet_tally (d : list event) :
  Forall quiet d ->
  sent_to d = [] /\ delivered d = 0 /\ rejected d = 0 /\ rejected_403 d = 0
  /\ forall text mk, sends_carry text mk d.
Proof.
  induction 1 as [|e d He _ (I1 & I2 & I3 & I4 & I5)].
  - do 4 (split; [reflexivity|]). intros text mk u t m e [].
  - destruct e; cbn in He; try contradiction; cbn [sent_to delivered rejected rejected_403];
      (do 4 (split; [assumption|]);
       intros text mk u t m e0 [Hh|Ht]; [discriminate|eapply I5; eauto]).
Qed.

(** Every send is delivered or rejected, and the rejections with code 403
    are among the rejections. *)
Lemma tally_bounds (d : list event) :
  delivered d + rejected d = Z.of_nat (length (sent_to d))
  /\ 0 <= rejected_403 d <= rejected d /\ 0 <= delivered d.
Proof.
  induction d as [|e d IH]; [cbn; lia|].
  destruct e as [u t m [e|]| | | |]; cbn [sent_to delivered rejected rejected_403 length];
    try destruct (is_403 _); lia.
Qed.

Lemma reminder_body_tally text (uid : Z) (c : counts) (w : world) :
  exists c' w' d, send_body E text uid c w = (Ok c', w')
    /\ trace w' = trace w ++ d /\ sent_to d = [uid]
    /\ tallies c c' d /\ sends_carry text None d.
Proof.
  unfold send_body, try_catch, bind, sendMessage, sleep, console_error, ret.
  destruct (gateway E (n_send w) uid) as [e|] eqn:G.
  - destruct (is_403 (error_code_of e)) eqn:H403.
    + match goal with |- context [removeFromAllLists E uid ?w1] =>
        destruct (classreminders_removal_facts E uid w1) as (w' & drem & Hr & Ht & Hf & _)
      end.
      rewrite Hr. eexists _, _, _. split; [reflexivity|]. wsimpl.
      destruct (quiet_tally _ (r_quiet _ _ _ _ _ Hf)) as (Q1 & Q2 & Q3 & Q4 & Q5).
      split; [rewrite Ht, <- !app_assoc; reflexivity|]. cbn [app].
      split; [cbn [sent_to]; now rewrite Q1|].
      split.
      * unfold tallies. cbn [sent failed removed delivered rejected rejected_403].
        rewrite H403, Q2, Q3, Q4. lia.
      * intros u t m e0 [Hh|[Hh|Hin]]; [now inversion Hh|discriminate|eapply Q5; eauto].
    + eexists _, _, _. split; [reflexivity|]. wsimpl.
      split; [rewrite <- !app_assoc; reflexivity|]. cbn [app].
      split; [reflexivity|]. split.
      * unfold tallies. cbn [sent failed removed delivered rejected rejected_403].
        rewrite H403. lia.
      * intros u t m e0 [Hh|[Hh|[]]]; [now inversion Hh|discriminate].
  - eexists _, _, _. split; [reflexivity|]. wsimpl.
    split; [rewrite <- !app_assoc; reflexivity|]. cbn [app].
    split; [reflexivity|]. split.
    + unfold tallies. cbn [sent failed removed delivered rejected rejected_403]. lia.
    + intros u t m e0 [Hh|[Hh|[]]]; [now inversion Hh|discriminate].
Qed.

Lemma reminder_loop_tally text (userIds : list Z) :
  forall (c : counts) (w : world),
  exists c' w' d, send_loop E userIds text c w = (Ok c', w')
    /\ trace w' = trace w ++ d /\ sent_to d = userIds
    /\ tallies c c' d /\ sends_carry text None d.
Proof.
  unfold send_loop.
  induction userIds as [|uid rest IH]; intros c w; cbn [for_of_acc].
  - exists c, w, []. split; [reflexivity|]. split; [now rewrite app_nil_r|].
    split; [reflexivity|]. split; [unfold tallies; cbn; lia|]. intros u t m e [].
  - destruct (reminder_body_tally text uid c w) as (c1 & w1 & d1 & Hb & Ht1 & Hs1 & Hc1 & Hx1).
    destruct (IH c1 w1) as (c2 & w2 & d2 & Hl & Ht2 & Hs2 & Hc2 & Hx2).
    exists c2, w2, (d1 ++ d2). unfold bind. rewrite Hb. split; [exact Hl|].
    split; [rewrite Ht2, Ht1; now rewrite app_assoc|].
    split; [rewrite sent_to_app, Hs1, Hs2; reflexivity|].
    split; [|now apply sends_carry_app].
    unfold tallies in *. rewrite delivered_app, rejected_app, rejected_403_app. lia.
Qed.

(** The runs of the handler: it always answers, and it is idle, fails or
    executes. *)
Lemma handler_run (penv : process_env) (req : request) (now : Z) (w : world) :
  let p := getGmt5Parts now in
  exists r w', handler E penv req now w = (Ok r, w')
    /\ ((status r = 401 /\ json r = Unauthorized
         /\ Spec.configured penv /\ ~ Spec.authorized penv req)
        \/ (status r = 200 /\ json r <> Unauthorized
            /\ ~ (Spec.configured penv /\ ~ Spec.authorized penv req)))
    /\ ((idle_outcome (json r) = true /\ w' = w)
        \/ (exists msg, json r = Failure msg
              /\ sent_to (since w w') = [] /\ store w' = store w)
        \/ (exists name d c,
              CLASS_SCHEDULE_BY_GMT5_DAY (day p) = Some name
              /\ kv_fails E (n_kv w) = None
              /\ json r = Executed (day p) (hour p) (minute p) name
                            (Z.of_nat (length (elements (members (store w) SUBS_CLASS_KEY))))
                            (sent c) (removed c) (failed c)
              /\ since w w' = EvKv Smembers SUBS_CLASS_KEY None true :: d
              /\ sent_to d = elements (members (store w) SUBS_CLASS_KEY)
              /\ tallies {| sent := 0; removed := 0; failed := 0 |} c d
              /\ sends_carry (lit name ++ lit " class starts in 5 mins") None d)).
Proof.
  cbv zeta.
  destruct (set (BOT_TOKEN penv)) eqn:HT.
  2:{ unfold handler, try_catch. rewrite HT. cbn [negb].
      unfold throw, bind, console_error, respond, ret. eexists _, _.
      split; [reflexivity|]. cbn [status json]. split.
      - right. split; [reflexivity|]. split; [discriminate|].
        intros [(H1 & _) _]. congruence.
      - right; left. eexists. split; [reflexivity|].
        erewrite since_app by reflexivity. split; reflexivity. }
  assert (Hnc : set (KV_REST_API_URL penv) && set (KV_REST_API_TOKEN penv) = false ->
            exists missing,
              handler E penv req now w = (Ok {| status := 200; json := MissingKv missing |}, w)
              /\ ~ Spec.configured penv).
  { intros Hm. unfold handler, try_catch. rewrite HT. cbn [negb].
    destruct (set (KV_REST_API_URL penv)) eqn:HU;
      destruct (set (KV_REST_API_TOKEN penv)) eqn:HK; try discriminate Hm;
      cbn [app]; rewrite bool_decide_eq_false_2 by discriminate; cbn [negb];
      (eexists; split; [reflexivity|]); intros (_ & H2 & H3); congruence. }
  destruct (set (KV_REST_API_URL penv) && set (KV_REST_API_TOKEN penv)) eqn:Hkv.
  2:{ destruct (Hnc eq_refl) as (missing & Hr & Hn). eexists _, _.
      split; [exact Hr|]. cbn [status json]. split.
      - right. split; [reflexivity|]. split; [discriminate|]. tauto.
      - left. split; reflexivity. }
  clear Hnc. apply andb_true_iff in Hkv. destruct Hkv as [HU HK].
  assert (Hconf : Spec.configured penv) by (repeat split; assumption).
  destruct (set (CRON_SECRET penv) && negb (bool_decide (q_secret req = CRON_SECRET penv)))
    eqn:Hsec.
  { (* the secret is configured and not given *)
    apply andb_true_iff in Hsec. destruct Hsec as [HS Hq].
    apply negb_true_iff, bool_decide_eq_false in Hq.
    exists {| status := 401; json := Unauthorized |}, w. split.
    - unfold handler, try_catch. rewrite HT, HU, HK, HS. cbn [negb app].
      rewrite (bool_decide_eq_false_2 _ Hq). reflexivity.
    - cbn [status json]. split.
      + left. repeat split; auto. intros [H|H]; congruence.
      + left. split; reflexivity. }
  assert (Hauth : Spec.authorized penv req).
  { apply andb_false_iff in Hsec. destruct Hsec as [H|H]; [left; exact H|right].
    apply negb_false_iff, bool_decide_eq_true in H. exact H. }
  clear Hsec. rewrite (handler_checked E penv req now w Hconf Hauth). cbv zeta.
  set (p := getGmt5Parts now). unfold try_catch.
  assert (Hno : ~ (Spec.configured penv /\ ~ Spec.authorized penv req)) by tauto.
  destruct (CLASS_SCHEDULE_BY_GMT5_DAY (day p)) as [name|] eqn:Hc.
  2:{ cbn [set negb]. exists {| status := 200; json := SkippedNoClass (day p) |}, w.
      split; [destruct (negb (bool_decide (q_force req = Some "1"%string))); reflexivity|].
      cbn [status json].
      split; [right; split; [reflexivity|split; [discriminate|exact Hno]]|].
      left. split; reflexivity. }
  rewrite (schedule_entry_set _ _ Hc). cbn [negb default].
  match goal with |- context [bind (kv_smembers E SUBS_CLASS_KEY) ?k] =>
    set (fanout := bind (kv_smembers E SUBS_CLASS_KEY) k) end.
  assert (Hfan : exists r w',
             match fanout w with
             | (Ok a, w') => (Ok a, w')
             | (Thrown err, w') =>
                 (console_error "class-reminders error:" [VStr (lit (message err))] ;;
                  respond 200
                    (Failure (if String.eqb (message err) "" then "unknown error"%string
                              else message err))) w'
             end = (Ok r, w')
             /\ status r = 200 /\ json r <> Unauthorized
             /\ ((exists msg, json r = Failure msg
                    /\ sent_to (since w w') = [] /\ store w' = store w)
                 \/ (exists d c,
                       kv_fails E (n_kv w) = None
                       /\ json r = Executed (day p) (hour p) (minute p) name
                            (Z.of_nat (length (elements (members (store w) SUBS_CLASS_KEY))))
                            (sent c) (removed c) (failed c)
                       /\ since w w' = EvKv Smembers SUBS_CLASS_KEY None true :: d
                       /\ sent_to d = elements (members (store w) SUBS_CLASS_KEY)
                       /\ tallies {| sent := 0; removed := 0; failed := 0 |} c d
                       /\ sends_carry (lit name ++ lit " class starts in 5 mins") None d))).
  { subst fanout. unfold bind, kv_smembers, kv_call.
    destruct (kv_fails E (n_kv w)) as [e|] eqn:F.
    - unfold console_error, respond, ret. eexists _, _. split; [reflexivity|].
      cbn [status json]. split; [reflexivity|]. split; [discriminate|].
      left. eexists. split; [reflexivity|].
      erewrite since_app; [|cbn [trace emit tick_kv]; rewrite <- !app_assoc; reflexivity].
      split; reflexivity.
    - match goal with |- context [send_loop E ?l ?t ?c0 ?w1] =>
        destruct (reminder_loop_tally t l c0 w1) as (c & w2 & d & Hl & Ht & Hs & Hcn & Hx)
      end.
      rewrite Hl. unfold respond, ret. eexists _, _. split; [reflexivity|].
      cbn [status json]. split; [reflexivity|]. split; [discriminate|].
      right. exists d, c. split; [reflexivity|]. split; [reflexivity|].
      split; [|auto].
      apply since_app. rewrite Ht. cbn [trace emit set_store tick_kv].
      rewrite <- app_assoc. reflexivity. }
  destruct (negb (bool_decide (q_force req = Some "1"%string)));
    [destruct (1 <? Z.abs _)|].
  - exists {| status := 200; json := SkippedWrongTime (day p) (hour p) (minute p) |}, w.
    split; [reflexivity|]. cbn [status json].
    split; [right; split; [reflexivity|split; [discriminate|exact Hno]]|].
    left. split; reflexivity.
  - destruct Hfan as (r & w' & Hr & Hst & Hj & Hcase). exists r, w'.
    split; [exact Hr|]. split; [right; auto|].
    destruct Hcase as [Hf|(d & c & He)]; [right; left; exact Hf|].
    right; right. exists name, d, c. split; [reflexivity|exact He].
  - destruct Hfan as (r & w' & Hr & Hst & Hj & Hcase). exists r, w'.
    split; [exact Hr|]. split; [right; auto|].
    destruct Hcase as [Hf|(d & c & He)]; [right; left; exact Hf|].
    right; right. exists name, d, c. split; [reflexivity|exact He].
Qed.

(** X16. The reminder job answers every request: whatever the environment
    variables, the request, the clock, the store and the gateway do, the
    handler completes normally, with status 200 or 401. The status is 401
    exactly for the "unauthorized" body, and that is the answer exactly when
    the token and the two store variables are set, a secret is configured
    and the request does not carry it. *)
Theorem X16_reminder_job_always_answers
    (penv : process_env) (req : request) (now : Z) (w : world) :
  exists r w', handler E penv req now w = (Ok r, w')
    /\ (status r = 200 \/ status r = 401)
    /\ (status r = 401 <-> json r = Unauthorized)
    /\ (json r = Unauthorized <->
          set (BOT_TOKEN penv) = true /\ set (KV_REST_API_URL penv) = true
          /\ set (KV_REST_API_TOKEN penv) = true
          /\ set (CRON_SECRET penv) = true /\ q_secret req <> CRON_SECRET penv).
Proof.
  destruct (handler_run penv req now w) as (r & w' & Hr & Hst & _).
  exists r, w'. split; [exact Hr|].
  assert (Hau : Spec.configured penv /\ ~ Spec.authorized penv req <->
                set (BOT_TOKEN penv) = true /\ set (KV_REST_API_URL penv) = true
                /\ set (KV_REST_API_TOKEN penv) = true
                /\ set (CRON_SECRET penv) = true /\ q_secret req <> CRON_SECRET penv).
  { unfold Spec.configured, Spec.authorized.
    destruct (set (CRON_SECRET penv)); intuition congruence. }
  rewrite <- Hau.
  destruct Hst as [(H1 & H2 & H3 & H4)|(H1 & H2 & H3)].
  - split; [right; exact H1|]. split; tauto.
  - split; [left; exact H1|]. split; [split; [lia|tauto]|tauto].
Qed.

(** X17. Only an executed run of the reminder job acts on subscribers: when
    the body of the answer is not the executed one, no message was sent and
    the store is as it was; and when it is the missing-variables, the
    unauthorized or a skipped body, nothing happened at all - no store call
    and no log line. *)
Theorem X17_reminder_job_acts_only_when_it_executes
    (penv : process_env) (req : request) (now : Z) (w : world)
    (r : http_response) (w' : world)
    (Hrun : handler E penv req now w = (Ok r, w')) :
  (idle_outcome (json r) = true -> w' = w)
  /\ ((forall dy hr mn name tot snt rem fld,
         json r <> Executed dy hr mn name tot snt rem fld) ->
      sent_to (since w w') = [] /\ store w' = store w).
Proof.
  destruct (handler_run penv req now w) as (r0 & w0 & Hr & _ & Hcase).
  rewrite Hrun in Hr. injection Hr as <- <-.
  destruct Hcase as [(Hi & ->)|[(msg & Hj & Hs & Hst)|(name & d & c & _ & _ & Hj & _)]].
  - split; [reflexivity|]. intros _. unfold since. rewrite drop_all. split; reflexivity.
  - split; [rewrite Hj; discriminate|]. intros _. split; assumption.
  - split; [rewrite Hj; discriminate|]. intros Hn. exfalso. eapply Hn, Hj.
Qed.

(** X18. The counters that an executed run of the reminder job reports are
    those of the run: [total] is the number of its send attempts, [sent] the
    number of delivered ones, [failed] of rejected ones and [removed] of
    those rejected with error code 403. So sent + failed = total and
    0 <= removed <= failed. *)
Theorem X18_reminder_report_counts_the_run
    (penv : process_env) (req : request) (now : Z) (w : world)
    (r : http_response) (w' : world)
    (dy hr mn : Z) (name : string) (tot snt rem fld : Z)
    (Hrun : handler E penv req now w = (Ok r, w'))
    (Hex : json r = Executed dy hr mn name tot snt rem fld) :
  let d := since w w' in
  tot = Z.of_nat (length (sent_to d))
  /\ snt = delivered d /\ fld = rejected d /\ rem = rejected_403 d
  /\ snt + fld = tot /\ 0 <= rem <= fld.
Proof.
  destruct (handler_run penv req now w) as (r0 & w0 & Hr & _ & Hcase).
  rewrite Hrun in Hr. injection Hr as <- <-.
  destruct Hcase as [(Hi & _)|[(msg & Hj & _)|(name' & d & c & _ & _ & Hj & Hd & Hs & Ht & _)]].
  - rewrite Hex in Hi. discriminate.
  - rewrite Hex in Hj. discriminate.
  - rewrite Hex in Hj. injection Hj as -> -> -> -> -> -> -> ->.
    cbv zeta. rewrite Hd. cbn [sent_to delivered rejected rejected_403].
    destruct Ht as (T1 & T2 & T3). cbn [sent removed failed] in T1, T2, T3.
    pose proof (tally_bounds d) as (B1 & B2 & B3). rewrite Hs in B1 |- *. lia.
Qed.

(** X19. What an executed run of the reminder job sends: the recipients of
    its send attempts are the members of the class-reminders list as the
    store held it at the start, each of them once; every message is the
    name of the class followed by " class starts in 5 mins", without a
    keyboard; and the class is the entry of the schedule for the weekday of
    the GMT+5 clock, a day from Monday to Thursday, which is the day the
    answer reports. *)
Theorem X19_reminder_goes_to_the_class_list
    (penv : process_env) (req : request) (now : Z) (w : world)
    (r : http_response) (w' : world)
    (dy hr mn : Z) (name : string) (tot snt rem fld : Z)
    (Hrun : handler E penv req now w = (Ok r, w'))
    (Hex : json r = Executed dy hr mn name tot snt rem fld) :
  let d := since w w' in
  NoDup (sent_to d)
  /\ (forall u, u ∈ sent_to d <-> u ∈ members (store w) SUBS_CLASS_KEY)
  /\ sends_carry (lit name ++ lit " class starts in 5 mins") None d
  /\ dy = day (getGmt5Parts now) /\ 1 <= dy <= 4
  /\ CLASS_SCHEDULE_BY_GMT5_DAY dy = Some name.
Proof.
  destruct (handler_run penv req now w) as (r0 & w0 & Hr & _ & Hcase).
  rewrite Hrun in Hr. injection Hr as <- <-.
  destruct Hcase as [(Hi & _)|[(msg & Hj & _)|(name' & d & c & Hc & _ & Hj & Hd & Hs & _ & Hx)]].
  - rewrite Hex in Hi. discriminate.
  - rewrite Hex in Hj. discriminate.
  - rewrite Hex in Hj. injection Hj as -> -> -> -> -> -> -> ->.
    cbv zeta. rewrite Hd. cbn [sent_to]. rewrite Hs.
    split; [apply NoDup_elements|]. split; [intros u; apply elem_of_elements|].
    split; [intros u t m e [Hh|Hin]; [discriminate|eapply Hx; eauto]|].
    split; [reflexivity|]. split; [|exact Hc].
    revert Hc. unfold CLASS_SCHEDULE_BY_GMT5_DAY.
    repeat (match goal with |- context [?a =? ?b] => destruct (Z.eqb_spec a b) end);
      try discriminate; intros _; cbn [day getGmt5Parts] in *; lia.
Qed.

Lemma getGmt5Parts_same_minute (now now' : Z) :
  now' / 60000 = now / 60000 -> getGmt5Parts now' = getGmt5Parts now.
Proof.
  intros H. unfold getGmt5Parts, nowInGmt5, getUTCDay, getUTCHours, getUTCMinutes.
  assert (Hm : forall t, (t + 5 * 60 * 60 * 1000) / 60000 = t / 60000 + 300).
  { intros t. replace (t + 5 * 60 * 60 * 1000) with (t + 300 * 60000) by lia.
    apply Z.div_add. lia. }
  assert (Hh : forall t, t / 3600000 = t / 60000 / 60).
  { intros t. rewrite Z.div_div by lia. reflexivity. }
  assert (Hd : forall t, t / 86400000 = t / 60000 / 1440).
  { intros t. rewrite Z.div_div by lia. reflexivity. }
  cbv zeta. rewrite !Hh, !Hd, !Hm, H. reflexivity.
Qed.

Lemma getGmt5Parts_next_week (now : Z) :
  getGmt5Parts (now + 7 * 24 * 60 * 60 * 1000) = getGmt5Parts now.
Proof.
  unfold getGmt5Parts, nowInGmt5, getUTCDay, getUTCHours, getUTCMinutes. cbv zeta.
  set (t := now + 5 * 60 * 60 * 1000).
  replace (now + 7 * 24 * 60 * 60 * 1000 + 5 * 60 * 60 * 1000)
    with (t + 7 * 86400000) by (subst t; lia).
  f_equal.
  - rewrite Z.div_add by lia.
    replace (t / 86400000 + 7 + 4) with (t / 86400000 + 4 + 1 * 7) by lia.
    apply Z_mod_plus_full.
  - replace (t + 7 * 86400000) with (t + 168 * 3600000) by lia.
    rewrite Z.div_add by lia.
    replace (t / 3600000 + 168) with (t / 3600000 + 7 * 24) by lia.
    apply Z_mod_plus_full.
  - replace (t + 7 * 86400000) with (t + 10080 * 60000) by lia.
    rewrite Z.div_add by lia.
    replace (t / 60000 + 10080) with (t / 60000 + 168 * 60) by lia.
    apply Z_mod_plus_full.
Qed.

(** X20. The reminder job reads the clock in whole minutes and its schedule
    is weekly: two invocations that differ only in the reading of the clock
    do the same and answer the same whenever the two readings fall in the
    same minute, or lie exactly one week apart. *)
Theorem X20_reminder_schedule_is_weekly_in_whole_minutes
    (penv : process_env) (req : request) (now now' : Z) (w : world)
    (H : now' / 60000 = now / 60000 \/ now' = now + 7 * 24 * 60 * 60 * 1000) :
  handler E penv req now' w = handler E penv req now w.
Proof.
  assert (Hp : getGmt5Parts now' = getGmt5Parts now).
  { destruct H as [H| ->]; [now apply getGmt5Parts_same_minute|].
    apply getGmt5Parts_next_week. }
  unfold handler. rewrite Hp. reflexivity.
Qed.

End ReminderJob.

Lemma X16_witness :
  exists r w',
    ClassReminders.handler Scenario.calm Scenario.deployed_with_secret
      Scenario.plain_request Scenario.monday_18_25 Scenario.class_list_7 = (Ok r, w')
    /\ ClassReminders.status r = 401.
Proof.
  destruct (X16_reminder_job_always_answers Scenario.calm Scenario.deployed_with_secret
              Scenario.plain_request Scenario.monday_18_25 Scenario.class_list_7)
    as (r & w' & H & _ & Hs & Hu).
  exists r, w'. split; [exact H|]. apply Hs, Hu.
  repeat (split; [reflexivity|]). discriminate.
Defined.

Lemma X17_witness :
  let w' := snd (ClassReminders.handler Scenario.first_store_call_fails Scenario.deployed
                   Scenario.plain_request Scenario.monday_18_25 Scenario.class_list_7) in
  Trace.sent_to (since Scenario.class_list_7 w') = []
  /\ store w' = store Scenario.class_list_7.
Proof.
  cbv zeta.
  refine (proj2 (X17_reminder_job_acts_only_when_it_executes
                   Scenario.first_store_call_fails Scenario.deployed Scenario.plain_request
                   Scenario.monday_18_25 Scenario.class_list_7
                   {| ClassReminders.status := 200;
                      ClassReminders.json := ClassReminders.Failure "fetch failed" |}
                   _ _) _).
  - reflexivity.
  - discriminate.
Defined.

Lemma X18_witness :
  Facts.delivered
    (since Scenario.class_list_7
       (snd (ClassReminders.handler Scenario.calm Scenario.deployed Scenario.plain_request
               Scenario.monday_18_25 Scenario.class_list_7))) = 1.
Proof.
  symmetry.
  refine (proj1 (proj2 (X18_reminder_report_counts_the_run
                   Scenario.calm Scenario.deployed Scenario.plain_request
                   Scenario.monday_18_25 Scenario.class_list_7
                   {| ClassReminders.status := 200;
                      ClassReminders.json :=
                        ClassReminders.Executed 1 18 25 "Database Design Concepts" 1 1 0 0 |}
                   _ 1 18 25 "Database Design Concepts" 1 1 0 0 _ _))).
  - reflexivity.
  - reflexivity.
Defined.

Lemma X19_witness :
  7 ∈ Trace.sent_to
        (since Scenario.class_list_7
           (snd (ClassReminders.handler (Scenario.first_send_rejected Scenario.blocked)
                   Scenario.deployed Scenario.plain_request
                   Scenario.monday_18_25 Scenario.class_list_7)))
  <-> 7 ∈ members (store Scenario.class_list_7) ClassReminders.SUBS_CLASS_KEY.
Proof.
  refine (proj1 (proj2 (X19_reminder_goes_to_the_class_list
                   (Scenario.first_send_rejected Scenario.blocked)
                   Scenario.deployed Scenario.plain_request
                   Scenario.monday_18_25 Scenario.class_list_7
                   {| ClassReminders.status := 200;
                      ClassReminders.json :=
                        ClassReminders.Executed 1 18 25 "Database Design Concepts" 1 0 1 1 |}
                   _ 1 18 25 "Database Design Concepts" 1 0 1 1 _ _)) 7).
  - reflexivity.
  - reflexivity.
Defined.

Lemma X20_witness :
  ClassReminders.handler Scenario.calm Scenario.deployed Scenario.plain_request
    (Scenario.monday_18_25 + 59999) Scenario.class_list_7
  = ClassReminders.handler Scenario.calm Scenario.deployed Scenario.plain_request
      Scenario.monday_18_25 Scenario.class_list_7.
Proof.
  apply X20_reminder_schedule_is_weekly_in_whole_minutes. left. reflexivity.
Defined.

(** ** The notifications of the keyword handlers *)

Section Notifications.

Import Trace Facts.

Variable E : env.

Lemma for_of_carry text mk (body : Z -> M unit) :
  (forall uid w, exists w' d, body uid w = (Ok tt, w') /\ trace w' = trace w ++ d
                              /\ sent_to d = [uid] /\ sends_carry text mk d) ->
  forall l w, exists w' d, for_of l body w = (Ok tt, w') /\ trace w' = trace w ++ d
                           /\ sent_to d = l /\ sends_carry text mk d.
Proof.
  intros Hbody l. induction l as [|uid rest IH]; intros w; cbn [for_of].
  - exists w, []. split; [reflexivity|]. split; [now rewrite app_nil_r|].
    split; [reflexivity|]. intros u t m e [].
  - destruct (Hbody uid w) as (w1 & d1 & Hb & Ht1 & Hs1 & Hx1).
    destruct (IH w1) as (w2 & d2 & Hl & Ht2 & Hs2 & Hx2).
    exists w2, (d1 ++ d2). unfold bind. rewrite Hb. split; [exact Hl|].
    split; [rewrite Ht2, Ht1; now rewrite app_assoc|].
    split; [rewrite sent_to_app, Hs1, Hs2; reflexivity|now apply sends_carry_app].
Qed.

Lemma telegram_body_carry text kb (uid : Z) (w : world) :
  exists w' d, Telegram.notify_body E text kb uid w = (Ok tt, w')
               /\ trace w' = trace w ++ d
               /\ sent_to d = [uid] /\ sends_carry text (Some kb) d.
Proof.
  unfold Telegram.notify_body, try_catch, bind, sendMessage, sleep, console_error, ret.
  destruct (gateway E (n_send w) uid) as [e|] eqn:G.
  - destruct (is_403 (error_code_of e)) eqn:H403.
    + match goal with |- context [Telegram.removeFromAllLists E uid ?w1] =>
        destruct (telegram_removal_facts E uid w1) as (w' & drem & Hr & Ht & Hf & _)
      end.
      rewrite Hr. eexists _, _. split; [reflexivity|]. wsimpl.
      destruct (quiet_tally _ (r_quiet _ _ _ _ _ Hf)) as (Q1 & _ & _ & _ & Q5).
      split; [rewrite Ht, <- !app_assoc; reflexivity|]. cbn [app].
      split; [cbn [sent_to]; now rewrite Q1|].
      intros u t m e0 [Hh|[Hh|Hin]]; [now inversion Hh|discriminate|eapply Q5; eauto].
    + eexists _, _. split; [reflexivity|]. wsimpl.
      split; [rewrite <- !app_assoc; reflexivity|]. cbn [app].
      split; [reflexivity|].
      intros u t m e0 [Hh|[Hh|[]]]; [now inversion Hh|discriminate].
  - eexists _, _. split; [reflexivity|]. wsimpl.
    split; [rewrite <- !app_assoc; reflexivity|]. cbn [app].
    split; [reflexivity|].
    intros u t m e0 [Hh|[Hh|[]]]; [now inversion Hh|discriminate].
Qed.

Lemma index_body_carry previewText linkUrl (uid : Z) (w : world) :
  exists w' d, Index.notify_body E previewText linkUrl uid w = (Ok tt, w')
    /\ trace w' = trace w ++ d /\ sent_to d = [uid]
    /\ sends_carry
         (Telegram.bell ++ lit " " ++ Index.left_quote ++ lit "Attendance"
          ++ Index.right_quote ++ lit " mentioned" ++ Telegram.newline ++ previewText
          ++ (if truthy linkUrl then []
              else Telegram.newline ++ lit "(Direct link not available for this group)"))
         (Some (if truthy linkUrl
                then [[ {| btext := lit "Open message"; burl := linkUrl |} ]]
                else []))
         d.
Proof.
  unfold Index.notify_body, try_catch, bind, sendMessage, sleep, console_error, ret,
    Db.markBlocked.
  destruct (gateway E (n_send w) uid) as [e|] eqn:G.
  - destruct (is_403 (error_code_of e)) eqn:H403; wsimpl;
      [destruct (users w !! uid)|];
      (eexists _, _; split; [reflexivity|]; wsimpl;
       split; [rewrite <- !app_assoc; reflexivity|]; cbn [app];
       split; [reflexivity|];
       intros u t m e0 [Hh|[Hh|[]]]; [now inversion Hh|discriminate]).
  - eexists _, _. split; [reflexivity|]. wsimpl.
    split; [rewrite <- !app_assoc; reflexivity|]. cbn [app].
    split; [reflexivity|].
    intros u t m e0 [Hh|[Hh|[]]]; [now inversion Hh|discriminate].
Qed.

(** X21. The keyword handler of src/api/telegram.js, on a group message that
    the keyword test lets through and whose title, handle, chat id and
    message id convert to strings (as the primitives of the Bot API do),
    numbers being safe integers: it completes; when the store answers the
    read of the attendance list, the recipients of its send attempts are the
    members of that list, each once, and when the store fails the read nobody
    is written to. Every recipient gets the same notification: the heading,
    the name of the group (or "a group"), the excerpt in quotes and, when
    the message has no link, the note that says so; the keyboard holds one
    button that opens the link when there is one, and no button otherwise. *)
Theorem X21_keyword_message_notifies_the_attendance_list
    (c : Telegram.ctx) (w : world)
    (Hg : Telegram.is_group c = true)
    (Hk : Telegram.keyword_hit (Telegram.extractText (Telegram.ctx_message c)) = true)
    (Hr : renders c = true)
    (Hs : in_range c = true) :
  exists m link w',
    Telegram.ctx_message c = Some m
    /\ TelegramLink.buildLink (Telegram.chat c) (Telegram.message_id m) = Ok link
    /\ Telegram.on_message E c w = (Ok tt, w')
    /\ let d := since w w' in
       let group := js_or (opt_prop (Telegram.chat c) "title") (VStr (lit "a group")) in
       let preview :=
         lit "In " ++ render group ++ lit ": " ++ Telegram.quote
         ++ Telegram.excerpt (Telegram.extractText (Some m)) ++ Telegram.quote in
       (kv_fails E (n_kv w) = None ->
          NoDup (sent_to d)
          /\ forall u, u ∈ sent_to d <-> u ∈ members (store w) Telegram.SUBS_ATTENDANCE_KEY)
       /\ (forall e, kv_fails E (n_kv w) = Some e -> sent_to d = [])
       /\ sends_carry
            (Telegram.bell ++ lit " " ++ Telegram.quote ++ lit "Attendance" ++ Telegram.quote
             ++ lit " mentioned" ++ Telegram.newline ++ preview
             ++ (if truthy link then []
                 else Telegram.newline ++ lit "(Direct link not available for this group)"))
            (Some (if truthy link
                   then [[ {| btext := lit "Open message"; burl := link |} ]]
                   else []))
            d.
Proof.
  destruct (keyword_hit_message _ Hk) as (m & Hm).
  destruct (renders_spec c m Hr Hm) as (Hu & Hi & Hmid & Ht).
  exists m, (Spec.link_resolver (Telegram.chat c) (Telegram.message_id m)).
  rewrite (telegram_on_message_eq E c m w Hg Hk Hm), (buildLink_spec _ _ Hu Hi Hmid), Ht.
  unfold bind at 1. rewrite listSubs_eq. unfold Telegram.notifyAllUsers.
  match goal with |- context [Telegram.notify_body E ?t ?k] =>
    pose proof (for_of_carry t (Some k) (Telegram.notify_body E t k)
                  (telegram_body_carry t k)) as Hloop
  end.
  destruct (kv_fails E (n_kv w)) as [e|] eqn:F.
  - match goal with |- context [for_of ?l _ ?w1] =>
      destruct (Hloop l w1) as (w' & d & Hrun & Htr & Hst & Hx)
    end.
    exists w'. split; [exact Hm|]. split; [reflexivity|].
    split; [exact Hrun|]. cbv zeta. wsimpl.
    erewrite since_app; [|rewrite Htr, <- !app_assoc; reflexivity]. cbn [app].
    split; [discriminate|]. split; [intros _ _; cbn [sent_to]; exact Hst|].
    intros u t mk e0 [Hh|[Hh|Hin]]; [discriminate..|eapply Hx; eauto].
  - match goal with |- context [for_of ?l _ ?w1] =>
      destruct (Hloop l w1) as (w' & d & Hrun & Htr & Hst & Hx)
    end.
    exists w'. split; [exact Hm|]. split; [reflexivity|].
    split; [exact Hrun|]. cbv zeta. wsimpl.
    erewrite since_app; [|rewrite Htr, <- !app_assoc; reflexivity]. cbn [app sent_to].
    rewrite Hst.
    split; [intros _; split; [apply NoDup_elements|intros u; apply elem_of_elements]|].
    split; [discriminate|].
    intros u t mk e0 [Hh|Hin]; [discriminate|eapply Hx; eauto].
Qed.

(** X22. The keyword handler of src/index.js, on a group message whose
    trimmed text is not empty and passes the keyword test, and whose title,
    handle, chat id and message id convert to strings (as the primitives of
    the Bot API do), numbers being safe integers: it completes; the
    recipients of its send attempts are the active users of the table as it
    was at the start, in the order of the query; the KV store is not
    touched; and every recipient gets the same notification, with the
    excerpt of src/index.js in typographic quotes, and the same keyboard:
    one button that opens the link when there is one, no button and the
    note in the text otherwise. *)
Theorem X22_index_keyword_message_notifies_the_active_users
    (c : Telegram.ctx) (text : jstr) (w : world)
    (Hg : Telegram.is_group c = true)
    (Hx : IndexBot.extractText (Telegram.ctx_message c) = Ok text)
    (Ht : truthy (VStr text) = true)
    (Hk : Regex.test Index.KEYWORD_REGEX text = true)
    (Hr : renders c = true)
    (Hs : in_range c = true) :
  exists m active link w',
    Telegram.ctx_message c = Some m
    /\ Db.listActiveUsers w = (Ok active, w)
    /\ IndexLink.buildMessageLink (Telegram.chat c) (Telegram.message_id m) = Ok link
    /\ IndexBot.on_message E c w = (Ok tt, w')
    /\ let d := since w w' in
       let group := js_or (opt_prop (Telegram.chat c) "title") (VStr (lit "a group")) in
       let preview :=
         lit "In " ++ render group ++ lit ": " ++ Index.left_quote
         ++ Index.excerpt text ++ Index.right_quote in
       sent_to d = active
       /\ store w' = store w
       /\ sends_carry
            (Telegram.bell ++ lit " " ++ Index.left_quote ++ lit "Attendance"
             ++ Index.right_quote ++ lit " mentioned" ++ Telegram.newline ++ preview
             ++ (if truthy link then []
                 else Telegram.newline ++ lit "(Direct link not available for this group)"))
            (Some (if truthy link
                   then [[ {| btext := lit "Open message"; burl := link |} ]]
                   else []))
            d.
Proof.
  destruct (Telegram.ctx_message c) as [m|] eqn:Hm; [|discriminate Hx].
  exists m. destruct (listActiveUsers_spec w) as (l & Hl & _).
  destruct (renders_spec c m Hr Hm) as (Hu & Hi & Hmid & Htt).
  exists l, (Spec.link_resolver (Telegram.chat c) (Telegram.message_id m)).
  rewrite (index_on_message_eq E c m text w Hg Hm Hx Ht Hk),
    (buildMessageLink_spec _ _ Hu Hi Hmid), Htt.
  unfold Index.notifyAllUsers, bind. rewrite Hl.
  match goal with |- context [Index.notify_body E ?p ?k] =>
    destruct (for_of_carry _ _ (Index.notify_body E p k) (index_body_carry p k) l w)
      as (w' & d & Hrun & Htr & Hst & Hc);
    destruct (index_loop_facts E p k l w) as (w2 & d2 & Hrun2 & _ & _ & Hf)
  end.
  rewrite Hrun in Hrun2. injection Hrun2 as <-.
  exists w'. split; [reflexivity|]. split; [reflexivity|].
  split; [reflexivity|].
  split; [exact Hrun|]. cbv zeta. rewrite (since_app _ _ _ Htr).
  split; [exact Hst|]. split; [exact (u_store _ _ _ Hf)|exact Hc].
Qed.

End Notifications.

Lemma X21_witness :
  exists m link w',
    Telegram.ctx_message Scenario.group_ctx = Some m
    /\ TelegramLink.buildLink (Telegram.chat Scenario.group_ctx) (Telegram.message_id m)
       = Ok link
    /\ Telegram.on_message Scenario.blocked_and_store_down Scenario.group_ctx
         Scenario.both_lists_7 = (Ok tt, w')
    /\ Trace.sent_to (since Scenario.both_lists_7 w') = [].
Proof.
  destruct (X21_keyword_message_notifies_the_attendance_list
              Scenario.blocked_and_store_down Scenario.group_ctx Scenario.both_lists_7
              eq_refl eq_refl eq_refl eq_refl) as (m & link & w' & Hm & Hl & Hr & _ & Hf & _).
  exists m, link, w'. split; [exact Hm|]. split; [exact Hl|]. split; [exact Hr|].
  exact (Hf Scenario.store_down eq_refl).
Defined.

Lemma X22_witness :
  exists m active link w',
    Telegram.ctx_message Scenario.group_ctx = Some m
    /\ Db.listActiveUsers (snd (Db.addUser 7 Scenario.empty_world))
       = (Ok active, snd (Db.addUser 7 Scenario.empty_world))
    /\ IndexLink.buildMessageLink (Telegram.chat Scenario.group_ctx) (Telegram.message_id m)
       = Ok link
    /\ IndexBot.on_message Scenario.calm Scenario.group_ctx
         (snd (Db.addUser 7 Scenario.empty_world)) = (Ok tt, w')
    /\ Trace.sent_to (since (snd (Db.addUser 7 Scenario.empty_world)) w') = active.
Proof.
  destruct (X22_index_keyword_message_notifies_the_active_users
              Scenario.calm Scenario.group_ctx Scenario.long_text
              (snd (Db.addUser 7 Scenario.empty_world))
              eq_refl eq_refl eq_refl eq_refl eq_refl eq_refl)
    as (m & active & link & w' & Hm & Ha & Hl & Hr & Hs & _).
  exists m, active, link, w'. auto.
Defined.

(** ** The webhook of src/api/telegram.js *)

Section WebhookEntry.

Import Trace Facts.

(** X23. The webhook always answers 200 "OK", whatever the handling of the
    update does: a request that is not a POST is answered without anything
    else happening; a POST that finds no bot and no token is answered after
    one log line, the update not being handled; otherwise the update is
    handled, and when its handling fails the failure is logged and not
    passed on. *)
Theorem X23_webhook_always_answers_ok
    (method : string) (bot : bool) (token : option string)
    (handleUpdate : M unit) (w : world) :
  let r := Webhook.handler method bot token handleUpdate w in
  fst r = Ok (200, "OK"%string)
  /\ (method <> "POST"%string -> snd r = w)
  /\ (method = "POST"%string -> bot = false -> ClassReminders.set token = false ->
        snd r = emit (EvLog "telegram webhook error:" [VStr (lit "Missing BOT_TOKEN")]) w)
  /\ (method = "POST"%string -> bot = true \/ ClassReminders.set token = true ->
        (fst (handleUpdate w) = Ok tt -> snd r = snd (handleUpdate w))
        /\ (forall e, fst (handleUpdate w) = Thrown e ->
              exists args,
                snd r = emit (EvLog "telegram webhook error:" args) (snd (handleUpdate w)))).
Proof.
  cbv zeta. unfold Webhook.handler.
  destruct (String.eqb_spec method "POST") as [->|Hne]; cbn [negb].
  2:{ split; [reflexivity|]. split; [reflexivity|]. split; intros; congruence. }
  unfold try_catch, bind, Webhook.initBot, throw, console_error, ret.
  destruct bot.
  - destruct (handleUpdate w) as [[[]|e] w1]; cbn [fst snd];
      (split; [reflexivity|]); (split; [congruence|]); (split; [discriminate|]);
      intros _ _; (split; [intros H|intros e0 H]); try congruence; eauto.
  - destruct (ClassReminders.set token); cbn [negb].
    + destruct (handleUpdate w) as [[[]|e] w1]; cbn [fst snd];
        (split; [reflexivity|]); (split; [congruence|]); (split; [discriminate|]);
        intros _ _; (split; [intros H|intros e0 H]); try congruence; eauto.
    + split; [reflexivity|]. split; [congruence|]. split; [reflexivity|].
      intros _ [H|H]; discriminate H.
Qed.

End WebhookEntry.

Lemma X23_witness :
  snd (Webhook.handler "POST" false None
         (Telegram.handleUpdate Scenario.calm Telegram.UStart Scenario.private_ctx_5)
         Scenario.empty_world)
  = emit (EvLog "telegram webhook error:" [VStr (lit "Missing BOT_TOKEN")])
      Scenario.empty_world.
Proof.
  refine (proj1 (proj2 (proj2
            (X23_webhook_always_answers_ok "POST" false None
               (Telegram.handleUpdate Scenario.calm Telegram.UStart Scenario.private_ctx_5)
               Scenario.empty_world))) _ _ _); reflexivity.
Defined.

(** ** The excerpts of the notifications *)

Section Excerpts.

Import Text Facts.

Lemma collapse_single_spaced (s : jstr) :
  forall b, single_spaced b (collapse b s).
Proof.
  induction s as [|c r IH]; intros b; cbn [collapse]; [exact I|].
  destruct (is_space c) eqn:Hc.
  - destruct b; [apply IH|]. cbn [single_spaced].
    change (is_space 32%N) with true. cbv iota. auto.
  - cbn [single_spaced]. rewrite Hc. apply IH.
Qed.

Lemma single_spaced_take (n : nat) (s : jstr) :
  forall b, single_spaced b s -> single_spaced b (take n s).
Proof.
  revert n. induction s as [|c r IH]; intros n b H; destruct n; try exact I.
  cbn [take single_spaced] in *. destruct (is_space c).
  - destruct H as (H1 & H2 & H3). auto.
  - auto.
Qed.

Lemma single_spaced_snoc (c : cu) (s : jstr) :
  is_space c = false -> forall b, single_spaced b s -> single_spaced b (s ++ [c]).
Proof.
  intros Hc. induction s as [|x r IH]; intros b H; cbn [app single_spaced] in *.
  - now rewrite Hc.
  - destruct (is_space x); [destruct H as (H1 & H2 & H3)|]; auto.
Qed.

(** X24. The excerpt of a notification is one line of at most 160
    characters, in src/api/telegram.js and in src/index.js alike: whatever
    the text of the message, the excerpt has at most 160 code units, and its
    only whitespace is single spaces - no line break, no tab, no two spaces
    in a row. The two files give the same excerpt, the text with its
    whitespace collapsed, whenever that text has at most 160 units. *)
Theorem X24_excerpts_are_one_line_of_at_most_160 (text : jstr) :
  ((length (Telegram.excerpt text) <= 160)%nat
   /\ single_spaced false (Telegram.excerpt text))
  /\ ((length (Index.excerpt text) <= 160)%nat
      /\ single_spaced false (Index.excerpt text))
  /\ ((length (replace_ws text) <= 160)%nat ->
        Telegram.excerpt text = replace_ws text /\ Index.excerpt text = replace_ws text).
Proof.
  pose proof (collapse_single_spaced text false) as Hs. fold (replace_ws text) in Hs.
  split; [|split].
  - rewrite telegram_excerpt_eq. split; [rewrite length_take; lia|].
    now apply single_spaced_take.
  - destruct (decide (length (replace_ws text) <= 160)%nat) as [Hle|Hgt].
    + rewrite (index_excerpt_short _ Hle). auto.
    + destruct (index_excerpt_long text) as [He Hl]; [lia|]. rewrite Hl.
      split; [lia|]. rewrite He. apply single_spaced_snoc; [reflexivity|].
      now apply single_spaced_take.
  - intros Hle. split; [|now apply index_excerpt_short].
    rewrite telegram_excerpt_eq. apply take_ge. exact Hle.
Qed.

End Excerpts.

Lemma X24_witness :
  Telegram.excerpt (lit "attendance  at   nine") = lit "attendance at nine"
  /\ Index.excerpt (lit "attendance  at   nine") = lit "attendance at nine".
Proof.
  refine (proj2 (proj2 (X24_excerpts_are_one_line_of_at_most_160
                          (lit "attendance  at   nine"))) _).
  vm_compute. lia.
Defined.

(** ** From the menu to the notifications *)

Section Subscriptions.

Import Trace Facts.

Variable E : env.

Lemma telegram_on_message_recipients (g : Telegram.ctx) (w : world) :
  Telegram.is_group g = true ->
  Telegram.keyword_hit (Telegram.extractText (Telegram.ctx_message g)) = true ->
  renders g = true ->
  kv_fails E (n_kv w) = None ->
  sent_to (since w (snd (Telegram.on_message E g w)))
  = elements (members (store w) Telegram.SUBS_ATTENDANCE_KEY).
Proof.
  intros Hg Hk Hr F. destruct (keyword_hit_message _ Hk) as (m & Hm).
  destruct (renders_spec g m Hr Hm) as (Hu & Hi & Hmid & Ht).
  rewrite (telegram_on_message_eq E g m w Hg Hk Hm), (buildLink_spec _ _ Hu Hi Hmid), Ht.
  unfold bind at 1. rewrite listSubs_eq, F. unfold Telegram.notifyAllUsers.
  match goal with |- context [for_of ?l (Telegram.notify_body E ?t ?k) ?w1] =>
    destruct (for_of_carry t (Some k) (Telegram.notify_body E t k)
                (telegram_body_carry E t k) l w1) as (w' & d & Hrun & Htr & Hs & _)
  end.
  rewrite Hrun. cbn [snd]. wsimpl.
  erewrite since_app; [|rewrite Htr, <- !app_assoc; reflexivity]. exact Hs.
Qed.

Lemma index_on_message_recipients (g : Telegram.ctx) (text : jstr) (w : world) :
  Telegram.is_group g = true ->
  IndexBot.extractText (Telegram.ctx_message g) = Ok text ->
  truthy (VStr text) = true ->
  Regex.test Index.KEYWORD_REGEX text = true ->
  renders g = true ->
  forall u, u ∈ sent_to (since w (snd (IndexBot.on_message E g w)))
            <-> users w !! u = Some false.
Proof.
  intros Hg Hx Ht Hk Hr u.
  destruct (Telegram.ctx_message g) as [m|] eqn:Hm; [|discriminate Hx].
  destruct (listActiveUsers_spec w) as (l & Hl & _ & Hin).
  destruct (renders_spec g m Hr Hm) as (Hu & Hi & Hmid & Htt).
  rewrite (index_on_message_eq E g m text w Hg Hm Hx Ht Hk),
    (buildMessageLink_spec _ _ Hu Hi Hmid), Htt.
  unfold Index.notifyAllUsers, bind. rewrite Hl.
  match goal with |- context [Index.notify_body E ?p ?k] =>
    destruct (for_of_carry _ _ (Index.notify_body E p k) (index_body_carry E p k) l w)
      as (w' & d & Hrun & Htr & Hs & _)
  end.
  rewrite Hrun. cbn [snd]. rewrite (since_app _ _ _ Htr), Hs. apply Hin.
Qed.

Lemma index_on_start_users (c : Telegram.ctx) (w : world) :
  users (snd (IndexBot.on_start E c w)) = users (snd (Db.addUser (Telegram.from_id c) w)).
Proof.
  unfold IndexBot.on_start, bind, ctx_do. cbn [Db.addUser].
  match goal with |- context [ctx_fails E ?n] => destruct (ctx_fails E n) end; reflexivity.
Qed.

(** The store after a menu action or /stop in a private chat, when the
    store answers. *)
Lemma action_members (c : Telegram.ctx) (w : world) (upd : Telegram.update) :
  Telegram.not_private c = false ->
  (forall n, kv_fails E n = None) ->
  In upd [Telegram.UAction "preset:attendance"; Telegram.UAction "preset:both";
          Telegram.UAction "preset:none"; Telegram.UStop] ->
  (Telegram.from_id c ∈ members (store (snd (Telegram.handleUpdate E upd c w))) ATT
   <-> upd = Telegram.UAction "preset:attendance" \/ upd = Telegram.UAction "preset:both")
  /\ (Telegram.from_id c ∈ members (store (snd (Telegram.handleUpdate E upd c w))) CLS
      <-> upd = Telegram.UAction "preset:both").
Proof.
  intros Hp Hkv Hin. destruct (action_store E c w Hp) as (Ha & Hb & Hn & Hs).
  destruct Hin as [<-|[<-|[<-|[<-|[]]]]];
    rewrite ?Ha, ?Hb, ?Hn, ?Hs, !pair_store2 by apply Hkv;
    unfold ATT, CLS, Telegram.SUBS_ATTENDANCE_KEY, Telegram.SUBS_CLASS_KEY;
    repeat (rewrite elem_of_srem_in || rewrite elem_of_sadd_in);
    intuition congruence.
Qed.

(** X25. From the menu of src/api/telegram.js to its notifications, when the
    store answers: after a menu action or /stop of a user in a private chat,
    the next group message that passes the keyword test, and whose title,
    handle, chat id and message id convert to strings (as the primitives of
    the Bot API do), is sent to that user exactly when the action was
    "preset:attendance" or "preset:both", and not after "preset:none" or
    /stop - whatever the gateway did with the answers to the action. *)
Theorem X25_attendance_subscribers_are_notified_until_they_stop
    (c g : Telegram.ctx) (w : world) (upd : Telegram.update)
    (Hp : Telegram.not_private c = false)
    (Hg : Telegram.is_group g = true)
    (Hk : Telegram.keyword_hit (Telegram.extractText (Telegram.ctx_message g)) = true)
    (Hr : renders g = true)
    (Hkv : forall n, kv_fails E n = None)
    (Hin : In upd [Telegram.UAction "preset:attendance"; Telegram.UAction "preset:both";
                   Telegram.UAction "preset:none"; Telegram.UStop]) :
  let w1 := snd (Telegram.handleUpdate E upd c w) in
  let w2 := snd (Telegram.handleUpdate E Telegram.UMessage g w1) in
  Telegram.from_id c ∈ sent_to (since w1 w2)
  <-> upd = Telegram.UAction "preset:attendance" \/ upd = Telegram.UAction "preset:both".
Proof.
  cbv zeta. cbn [Telegram.handleUpdate].
  rewrite (telegram_on_message_recipients g _ Hg Hk Hr (Hkv _)), elem_of_elements.
  exact (proj1 (action_members c w upd Hp Hkv Hin)).
Qed.

(** X26. From the menu of src/api/telegram.js to the reminder job of
    api/class-reminders.js, which read the same list of the store: when the
    store answers, after a menu action or /stop of a user in a private chat,
    a run of the job that executes sends the class reminder to that user
    exactly when the action was "preset:both". *)
Theorem X26_class_reminders_follow_the_menu
    (c : Telegram.ctx) (w : world) (upd : Telegram.update)
    (penv : ClassReminders.process_env) (req : ClassReminders.request) (now : Z)
    (r : ClassReminders.http_response) (w2 : world)
    (dy hr mn : Z) (name : string) (tot snt rem fld : Z)
    (Hp : Telegram.not_private c = false)
    (Hkv : forall n, kv_fails E n = None)
    (Hin : In upd [Telegram.UAction "preset:attendance"; Telegram.UAction "preset:both";
                   Telegram.UAction "preset:none"; Telegram.UStop])
    (Hrun : ClassReminders.handler E penv req now
              (snd (Telegram.handleUpdate E upd c w)) = (Ok r, w2))
    (Hex : ClassReminders.json r = ClassReminders.Executed dy hr mn name tot snt rem fld) :
  Telegram.from_id c ∈ sent_to (since (snd (Telegram.handleUpdate E upd c w)) w2)
  <-> upd = Telegram.UAction "preset:both".
Proof.
  destruct (handler_run E penv req now (snd (Telegram.handleUpdate E upd c w)))
    as (r0 & w0 & Hr & _ & Hcase).
  rewrite Hrun in Hr. injection Hr as <- <-.
  destruct Hcase as [(Hi & _)|[(msg & Hj & _)|(name' & d & c0 & _ & _ & _ & Hd & Hs & _)]].
  - rewrite Hex in Hi. discriminate.
  - rewrite Hex in Hj. discriminate.
  - rewrite Hd. cbn [sent_to]. rewrite Hs, elem_of_elements.
    exact (proj2 (action_members c w upd Hp Hkv Hin)).
Qed.

(** X27. From /start of src/index.js to its notifications: after a user's
    /start, the next group message that passes the keyword test, and whose
    title, handle, chat id and message id convert to strings (as the
    primitives of the Bot API do), is sent to that user unless the user's
    row was marked blocked before - /start does not clear the mark, so a
    user who was once rejected with error code 403 is not written to
    again. *)
Theorem X27_index_start_subscribes_unless_blocked
    (c g : Telegram.ctx) (text : jstr) (w : world)
    (Hg : Telegram.is_group g = true)
    (Hx : IndexBot.extractText (Telegram.ctx_message g) = Ok text)
    (Ht : truthy (VStr text) = true)
    (Hk : Regex.test Index.KEYWORD_REGEX text = true)
    (Hr : renders g = true) :
  let w1 := snd (IndexBot.on_start E c w) in
  let w2 := snd (IndexBot.on_message E g w1) in
  Telegram.from_id c ∈ sent_to (since w1 w2)
  <-> users w !! Telegram.from_id c <> Some true.
Proof.
  cbv zeta. rewrite (index_on_message_recipients g text _ Hg Hx Ht Hk Hr).
  rewrite index_on_start_users. unfold Db.addUser. cbn [snd].
  destruct (users w !! Telegram.from_id c) as [[|]|] eqn:Hu.
  - rewrite Hu. split; congruence.
  - rewrite Hu. split; congruence.
  - cbn [users set_users]. rewrite lookup_insert_eq. split; congruence.
Qed.

End Subscriptions.

Lemma X25_witness :
  5 ∈ Trace.sent_to
        (since (snd (Telegram.handleUpdate Scenario.calm (Telegram.UAction "preset:both")
                       Scenario.private_ctx_5 Scenario.empty_world))
           (snd (Telegram.handleUpdate Scenario.calm Telegram.UMessage Scenario.group_ctx
                   (snd (Telegram.handleUpdate Scenario.calm (Telegram.UAction "preset:both")
                           Scenario.private_ctx_5 Scenario.empty_world))))).
Proof.
  refine (proj2 (X25_attendance_subscribers_are_notified_until_they_stop Scenario.calm
                   Scenario.private_ctx_5 Scenario.group_ctx Scenario.empty_world
                   (Telegram.UAction "preset:both") _ _ _ _ _ _) _).
  - reflexivity.
  - reflexivity.
  - reflexivity.
  - reflexivity.
  - intros n. reflexivity.
  - simpl. auto.
  - right. reflexivity.
Defined.

Lemma X26_witness :
  let w1 := snd (Telegram.handleUpdate Scenario.calm (Telegram.UAction "preset:both")
                   Scenario.private_ctx_5 Scenario.empty_world) in
  5 ∈ Trace.sent_to
        (since w1
           (snd (ClassReminders.handler Scenario.calm Scenario.deployed
                   Scenario.plain_request Scenario.monday_18_25 w1))).
Proof.
  cbv zeta.
  refine (proj2 (X26_class_reminders_follow_the_menu Scenario.calm
                   Scenario.private_ctx_5 Scenario.empty_world
                   (Telegram.UAction "preset:both")
                   Scenario.deployed Scenario.plain_request Scenario.monday_18_25
                   {| ClassReminders.status := 200;
                      ClassReminders.json :=
                        ClassReminders.Executed 1 18 25 "Database Design Concepts" 1 1 0 0 |}
                   (snd (ClassReminders.handler Scenario.calm Scenario.deployed
                           Scenario.plain_request Scenario.monday_18_25
                           (snd (Telegram.handleUpdate Scenario.calm
                                   (Telegram.UAction "preset:both")
                                   Scenario.private_ctx_5 Scenario.empty_world))))
                   1 18 25 "Database Design Concepts" 1 1 0 0 _ _ _ _ _) _).
  - reflexivity.
  - intros n. reflexivity.
  - simpl. auto.
  - vm_compute. reflexivity.
  - reflexivity.
  - reflexivity.
Defined.

Lemma X27_witness :
  let c := {| Telegram.chat := VObj [("type"%string, VStr (lit "private"))];
              Telegram.from_id := 7; Telegram.updateType := "message";
              Telegram.ctx_message := None |} in
  let w1 := snd (IndexBot.on_start Scenario.calm c Scenario.empty_world) in
  7 ∈ Trace.sent_to (since w1 (snd (IndexBot.on_message Scenario.calm Scenario.group_ctx w1))).
Proof.
  cbv zeta.
  refine (proj2 (X27_index_start_subscribes_unless_blocked Scenario.calm
                   {| Telegram.chat := VObj [("type"%string, VStr (lit "private"))];
                      Telegram.from_id := 7; Telegram.updateType := "message";
                      Telegram.ctx_message := None |}
                   Scenario.group_ctx Scenario.long_text Scenario.empty_world _ _ _ _ _) _).
  - reflexivity.
  - reflexivity.
  - reflexivity.
  - reflexivity.
  - reflexivity.
  - discriminate.
Defined.

(** ** The menu outside a button press *)

Section MenuReply.

Import Trace Facts.

Variable E : env.

(** X28. Outside a button press - on /start and /settings, which do not ask
    for an edit, and on any update that is not a callback query - [showMenu]
    in a private chat does not try to edit: its one call on the context is a
    reply with the menu computed from the settings it read, and it completes
    normally exactly when the gateway accepts that reply. *)
Theorem X28_showMenu_replies_outside_a_button_press
    (c : Telegram.ctx) (preferEdit : bool) (w : world)
    (Hp : Telegram.not_private c = false)
    (Hn : preferEdit = false \/ Telegram.updateType c <> "callback_query"%string) :
  let r := Telegram.showMenu E c preferEdit w in
  exists a b ok,
    ctx_calls (since w (snd r)) = [(CReply, PMenu a b, ok)]
    /\ (ok = true <-> fst r = Ok tt)
    /\ (ok = true <-> ctx_fails E (n_ctx w) = None)
    /\ (kv_fails E (n_kv w) = None ->
          a = bool_decide (Telegram.from_id c
                             ∈ members (store w) Telegram.SUBS_ATTENDANCE_KEY))
    /\ (kv_fails E (S (n_kv w)) = None ->
          b = bool_decide (Telegram.from_id c ∈ members (store w) Telegram.SUBS_CLASS_KEY)).
Proof.
  destruct (getSettings_run E (Telegram.from_id c) w)
    as (a & b & w1 & d & Hg & Ht & Hc & Hnc & _ & _ & _ & Ha & Hb).
  assert (Hcond : preferEdit && String.eqb (Telegram.updateType c) "callback_query" = false).
  { destruct Hn as [->|Hne]; [reflexivity|]. apply andb_false_iff. right.
    now apply String.eqb_neq. }
  assert (Heq : Telegram.showMenu E c preferEdit w = ctx_do E CReply (PMenu a b) w1).
  { unfold Telegram.showMenu. rewrite Hp, Hcond.
    unfold bind at 1. rewrite Hg. reflexivity. }
  cbv zeta. rewrite Heq. unfold ctx_do. rewrite Hnc.
  exists a, b. destruct (ctx_fails E (n_ctx w)) as [e|]; eexists; cbn [fst snd];
    (split; [erewrite since_app;
               [|cbn [trace emit tick_ctx]; rewrite Ht, <- !app_assoc; reflexivity];
             rewrite ctx_calls_app, Hc; reflexivity|]);
    (split; [split; congruence|]); (split; [split; congruence|]); auto.
Qed.

End MenuReply.

Lemma X28_witness :
  exists a b ok,
    Facts.ctx_calls
      (since Scenario.empty_world
         (snd (Telegram.showMenu Scenario.calm Scenario.private_ctx_5 false
                 Scenario.empty_world)))
    = [(CReply, PMenu a b, ok)].
Proof.
  destruct (X28_showMenu_replies_outside_a_button_press Scenario.calm
              Scenario.private_ctx_5 false Scenario.empty_world eq_refl
              (or_introl eq_refl)) as (a & b & ok & H & _).
  exists a, b, ok. exact H.
Defined.
